(** * Due-reminder dispatch engine of the reminder service

    A shallow embedding of [crud.py], [background_worker.py], the endpoints
    of [api_server.py] and the tools of [mcp_server.py], followed by the
    properties of the dispatch engine (eligibility selection, destination
    normalisation, the bounded retry burst and the read-modify-write persist
    step) and of the service around it (the operations of [crud], the
    ordered queries, the two front ends and the poll cycle of the worker).

    Conventions.  Strings are ASCII.  A [clock] is the reading of the system
    clock in microseconds since the epoch.  The table is the list of its
    rows in the order a query without [ORDER BY] returns them.  What other
    processes do to the table between the selection and the persist of a
    burst is a function [interference] on the rows.  The network is a
    function from the attempt number to the reply the call API would give;
    in a poll cycle, [env k] is the network and the interference of its
    burst number [k]. *)

From Stdlib Require Import ZArith Lia Ascii String.
From stdpp Require Import base option list strings gmap pretty sorting.

Local Open Scope string_scope.
Local Open Scope Z_scope.

#[local] Set Warnings "-register-all".
#[local] Set Warnings "-clear-no-such-hyp".
#[local] Set Warnings "-abstract-large-number".

(** ** JSON values (the contents of a [JSON] column and of an HTTP body) *)

(** Python values that survive a round trip through [json]: [None], [bool],
    [int], [str], [list] and [dict].  Floating-point numbers are left out. *)
Inductive json : Type :=
  | JNull
  | JBool (b : bool)
  | JInt (z : Z)
  | JStr (s : string)
  | JArr (l : list json)
  | JObj (m : list (string * json)).

(** Python truth value testing, as used by [if x:] and by [x or y]. *)
Definition truthy (j : json) : bool :=
  match j with
  | JNull => false
  | JBool b => b
  | JInt z => negb (z =? 0)%Z
  | JStr s => negb (String.eqb s "")
  | JArr l => match l with [] => false | _ => true end
  | JObj m => match m with [] => false | _ => true end
  end.

(** [==] on plain Python data: structural, with [True == 1] and
    [False == 0]. *)
Fixpoint json_eqb (a b : json) {struct a} : bool :=
  match a, b with
  | JNull, JNull => true
  | JBool x, JBool y => Bool.eqb x y
  | JInt x, JInt y => x =? y
  | JBool x, JInt y => (if x then 1 else 0) =? y
  | JInt x, JBool y => x =? (if y then 1 else 0)
  | JStr x, JStr y => String.eqb x y
  | JArr x, JArr y =>
      (fix arr (x y : list json) {struct x} : bool :=
         match x, y with
         | [], [] => true
         | u :: x', v :: y' => json_eqb u v && arr x' y'
         | _, _ => false
         end) x y
  | JObj x, JObj y =>
      (fix obj (x y : list (string * json)) {struct x} : bool :=
         match x, y with
         | [], [] => true
         | (k, u) :: x', (k', v) :: y' =>
             String.eqb k k' && json_eqb u v && obj x' y'
         | _, _ => false
         end) x y
  | _, _ => false
  end.

(** ** Datetimes *)

(** A [datetime.datetime]: the wall-clock reading in microseconds counted
    from 1970-01-01T00:00:00 on that wall clock, and [tzinfo] as the UTC
    offset in seconds ([None] for a naive value). *)
Record datetime : Type := mk_datetime {
  wall : Z;
  tzinfo : option Z
}.

Definition usec : Z := 1000000.

(** [timezone.utc] *)
Definition utc : Z := 0.

(** [ZoneInfo('Asia/Kolkata')]: UTC+05:30 (its offset for every date after
    1945). *)
Definition Asia_Kolkata : Z := 19800.

(** [datetime.now(timezone.utc)] when the clock reads [clock] microseconds
    after the epoch. *)
Definition now_utc (clock : Z) : datetime :=
  {| wall := clock; tzinfo := Some utc |}.

(** [dt.replace(tzinfo=tz)]: relabels, the wall-clock fields stay. *)
Definition replace_tzinfo (dt : datetime) (tz : Z) : datetime :=
  {| wall := wall dt; tzinfo := Some tz |}.

(** The absolute instant in microseconds after the epoch.  The columns are
    declared [DateTime(timezone=True)] and compared as instants; a value
    without [tzinfo] counts as UTC. *)
Definition instant (dt : datetime) : Z :=
  wall dt - usec * default utc (tzinfo dt).

(** [dt.astimezone(timezone.utc)] on an aware value. *)
Definition astimezone_utc (dt : datetime) : datetime :=
  {| wall := instant dt; tzinfo := Some utc |}.

(** Python's [a <= b] and [a > b] on two aware datetimes, and the SQL
    comparison of the column with a bound parameter. *)
Definition dt_leb (a b : datetime) : bool := instant a <=? instant b.
Definition dt_gtb (a b : datetime) : bool := instant b <? instant a.

(** Python's [a == b]: instants when both are aware, wall clocks when both
    are naive, never equal across the two kinds. *)
Definition dt_eqb (a b : datetime) : bool :=
  match tzinfo a, tzinfo b with
  | Some _, Some _ => instant a =? instant b
  | None, None => wall a =? wall b
  | _, _ => false
  end.



(** *** [datetime.isoformat] *)

(** Decimal rendering of a non-negative number on at least [width] digits. *)
Definition zpad (width : nat) (n : Z) : string :=
  let s := pretty (Z.to_N n) in
  String.concat "" (replicate (width - String.length s) "0") +:+ s.

(** Proleptic Gregorian date of a day count from 1970-01-01. *)
Definition civil_from_days (days : Z) : Z * Z * Z :=
  let z := days + 719468 in
  let era := z / 146097 in
  let doe := z - era * 146097 in
  let yoe := (doe - doe / 1460 + doe / 36524 - doe / 146096) / 365 in
  let doy := doe - (365 * yoe + yoe / 4 - yoe / 100) in
  let mp := (5 * doy + 2) / 153 in
  let d := doy - (153 * mp + 2) / 5 + 1 in
  let m := if mp <? 10 then mp + 3 else mp - 9 in
  let y := yoe + era * 400 + (if m <=? 2 then 1 else 0) in
  (y, m, d).

Definition iso_offset (o : Z) : string :=
  let a := Z.abs o in
  (if o <? 0 then "-" else "+") +:+ zpad 2 (a / 3600) +:+ ":" +:+
  zpad 2 (a / 60 mod 60) +:+
  (if a mod 60 =? 0 then "" else ":" +:+ zpad 2 (a mod 60)).

Definition isoformat (dt : datetime) : string :=
  let secs := wall dt / usec in
  let us := wall dt mod usec in
  let '(y, m, d) := civil_from_days (secs / 86400) in
  let sod := secs mod 86400 in
  zpad 4 y +:+ "-" +:+ zpad 2 m +:+ "-" +:+ zpad 2 d +:+ "T" +:+
  zpad 2 (sod / 3600) +:+ ":" +:+ zpad 2 (sod / 60 mod 60) +:+ ":" +:+
  zpad 2 (sod mod 60) +:+
  (if us =? 0 then "" else "." +:+ zpad 6 us) +:+
  match tzinfo dt with Some o => iso_offset o | None => "" end.

(** ** The reminder table ([database.py]) *)

Inductive PriorityEnum : Type := LOW | MEDIUM | HIGH.
Inductive StatusEnum : Type := PENDING | COMPLETED | CANCELLED.

(** One row of [reminders].  [context] is the JSON column: SQL [NULL] or a
    dictionary. *)
Record Reminder : Type := mk_Reminder {
  id : string;
  user_mobile : string;
  destination_mobile : option string;
  title : string;
  description : option string;
  due_datetime : datetime;
  priority : PriorityEnum;
  status : StatusEnum;
  context : option (gmap string json);
  recurrence : option string;
  created_at : datetime;
  updated_at : datetime
}.

(** [d1 == d2] on two dictionaries. *)
Definition dict_eqb (a b : gmap string json) : bool :=
  bool_decide (dom a = dom b) &&
  forallb (λ kv, match b !! kv.1 with
                 | Some v => json_eqb kv.2 v
                 | None => false
                 end) (map_to_list a).

Definition context_eqb (a b : option (gmap string json)) : bool :=
  match a, b with
  | Some x, Some y => dict_eqb x y
  | None, None => true
  | _, _ => false
  end.

Definition opt_string_eqb (a b : option string) : bool :=
  bool_decide (a = b).

Definition PriorityEnum_eqb (a b : PriorityEnum) : bool :=
  match a, b with
  | LOW, LOW | MEDIUM, MEDIUM | HIGH, HIGH => true
  | _, _ => false
  end.

Definition StatusEnum_eqb (a b : StatusEnum) : bool :=
  match a, b with
  | PENDING, PENDING | COMPLETED, COMPLETED | CANCELLED, CANCELLED => true
  | _, _ => false
  end.

(** [s.upper()] on ASCII text. *)
Definition upper_ascii (c : ascii) : ascii :=
  let n := nat_of_ascii c in
  if (Nat.leb 97 n && Nat.leb n 122)%bool then ascii_of_nat (n - 32) else c.

Fixpoint upper (s : string) : string :=
  match s with
  | EmptyString => EmptyString
  | String c s' => String (upper_ascii c) (upper s')
  end.

(** Exceptions the modelled code can raise. *)
Inductive exn : Type :=
  | KeyError (key : string).

(** [PriorityEnum[name]] and [StatusEnum[name]]: lookup by member name. *)
Definition PriorityEnum_getitem (name : string) : exn + PriorityEnum :=
  if String.eqb name "LOW" then inr LOW
  else if String.eqb name "MEDIUM" then inr MEDIUM
  else if String.eqb name "HIGH" then inr HIGH
  else inl (KeyError name).

Definition StatusEnum_getitem (name : string) : exn + StatusEnum :=
  if String.eqb name "PENDING" then inr PENDING
  else if String.eqb name "COMPLETED" then inr COMPLETED
  else if String.eqb name "CANCELLED" then inr CANCELLED
  else inl (KeyError name).

(** A computation that returns or raises. *)
Definition raises (A : Type) : Type := exn + A.

Definition bind_raises {A B} (m : raises A) (k : A → raises B) : raises B :=
  match m with
  | inl e => inl e
  | inr a => k a
  end.

Notation "x ←! m ; k" := (bind_raises m (λ x, k))
  (at level 100, m at next level, k at level 200, right associativity).

(** ** The ORM session *)

(** A [Session]: the rows of the table as they are in the database now (other
    processes write to it too), and the identity map of the objects this
    session has loaded and not expired, by primary key. *)
Record Session : Type := mk_Session {
  db : list Reminder;
  identity : gmap string Reminder
}.

(** [database.SessionLocal()] *)
Definition SessionLocal (rows : list Reminder) : Session :=
  {| db := rows; identity := ∅ |}.

(** An object under change tracking between its load and the commit:
    its attributes now, and the names of the attributes whose change the
    unit of work will write. *)
Record tracked : Type := mk_tracked {
  obj : Reminder;
  modified : gset string
}.

(** [flag_modified(reminder, key)] *)
Definition flag_modified (key : string) (t : tracked) : tracked :=
  {| obj := obj t; modified := {[key]} ∪ modified t |}.

(** [setattr(reminder, key, value)] on a mapped attribute: the value is
    stored, and the attribute counts as changed when the new value differs
    from the one the object held. *)
Definition setattr {A : Type} (key : string) (eqb : A → A → bool)
    (get : Reminder → A) (put : A → Reminder → Reminder)
    (value : A) (t : tracked) : tracked :=
  {| obj := put value (obj t);
     modified := if eqb (get (obj t)) value then modified t
                 else {[key]} ∪ modified t |}.

Definition put_title (v : string) (r : Reminder) : Reminder :=
  mk_Reminder (id r) (user_mobile r) (destination_mobile r) v (description r)
    (due_datetime r) (priority r) (status r) (context r) (recurrence r)
    (created_at r) (updated_at r).

Definition put_description (v : option string) (r : Reminder) : Reminder :=
  mk_Reminder (id r) (user_mobile r) (destination_mobile r) (title r) v
    (due_datetime r) (priority r) (status r) (context r) (recurrence r)
    (created_at r) (updated_at r).

Definition put_due_datetime (v : datetime) (r : Reminder) : Reminder :=
  mk_Reminder (id r) (user_mobile r) (destination_mobile r) (title r)
    (description r) v (priority r) (status r) (context r) (recurrence r)
    (created_at r) (updated_at r).

Definition put_destination_mobile (v : option string) (r : Reminder)
    : Reminder :=
  mk_Reminder (id r) (user_mobile r) v (title r) (description r)
    (due_datetime r) (priority r) (status r) (context r) (recurrence r)
    (created_at r) (updated_at r).

Definition put_priority (v : PriorityEnum) (r : Reminder) : Reminder :=
  mk_Reminder (id r) (user_mobile r) (destination_mobile r) (title r)
    (description r) (due_datetime r) v (status r) (context r) (recurrence r)
    (created_at r) (updated_at r).

Definition put_status (v : StatusEnum) (r : Reminder) : Reminder :=
  mk_Reminder (id r) (user_mobile r) (destination_mobile r) (title r)
    (description r) (due_datetime r) (priority r) v (context r) (recurrence r)
    (created_at r) (updated_at r).

Definition put_context (v : option (gmap string json)) (r : Reminder)
    : Reminder :=
  mk_Reminder (id r) (user_mobile r) (destination_mobile r) (title r)
    (description r) (due_datetime r) (priority r) (status r) v (recurrence r)
    (created_at r) (updated_at r).

Definition put_updated_at (v : datetime) (r : Reminder) : Reminder :=
  mk_Reminder (id r) (user_mobile r) (destination_mobile r) (title r)
    (description r) (due_datetime r) (priority r) (status r) (context r)
    (recurrence r) (created_at r) v.

(** The [UPDATE] the flush emits for one dirty object: the written columns
    are the changed attributes, the others keep the value of the row. *)
Definition write_columns (t : tracked) (row : Reminder) : Reminder :=
  let pick {A} (key : string) (get : Reminder → A) : A :=
    if bool_decide (key ∈ modified t) then get (obj t) else get row in
  mk_Reminder (id row) (user_mobile row)
    (pick "destination_mobile" destination_mobile)
    (pick "title" title)
    (pick "description" description)
    (pick "due_datetime" due_datetime)
    (pick "priority" priority)
    (pick "status" status)
    (pick "context" context)
    (recurrence row) (created_at row)
    (pick "updated_at" updated_at).

(** [UPDATE reminders SET ... WHERE id = ?] *)
Definition flush (t : tracked) (rows : list Reminder) : list Reminder :=
  map (λ row, if String.eqb (id row) (id (obj t)) then write_columns t row
              else row) rows.

(** [SELECT ... WHERE id = ?] *)
Definition select_by_pk (rows : list Reminder) (pk : string)
    : option Reminder :=
  List.find (λ row, String.eqb (id row) pk) rows.

(** [db.commit()] followed by [db.refresh(reminder)]: the flush writes the
    changed columns, the commit expires every loaded object, and the refresh
    loads the object again from its row. *)
Definition commit_refresh (s : Session) (t : tracked)
    : option Reminder * Session :=
  let rows := flush t (db s) in
  match select_by_pk rows (id (obj t)) with
  | Some row => (Some row, {| db := rows; identity := {[id row := row]} |})
  | None => (Some (obj t), {| db := rows; identity := ∅ |})
  end.

(** ** [crud.py] *)

(** The [reminder_data] dictionary of [create_reminder], with the keys of
    [schemas.ReminderCreate] as [model_dump] gives them; [None] is a null. *)
Record ReminderCreate : Type := mk_ReminderCreate {
  c_user_mobile : string;
  c_destination_mobile : option string;
  c_title : string;
  c_description : option string;
  c_due_datetime : datetime;
  c_priority : string;
  c_recurrence : option string;
  c_context : option (gmap string json)
}.

(** The [updates] dictionary of [update_reminder], with the keys of
    [schemas.ReminderUpdate]; [None] is a key that is missing or whose value
    is [None] (the loop skips both). *)
Record ReminderUpdate : Type := mk_ReminderUpdate {
  u_title : option string;
  u_description : option string;
  u_due_datetime : option datetime;
  u_destination_mobile : option string;
  u_priority : option string;
  u_status : option string;
  u_context : option (gmap string json)
}.

(** [{'context': context}] *)
Definition context_only (c : gmap string json) : ReminderUpdate :=
  mk_ReminderUpdate None None None None None None (Some c).

(** [if due_dt.tzinfo is None: due_dt = due_dt.replace(tzinfo=timezone.utc)] *)
Definition ensure_utc_label (due_dt : datetime) : datetime :=
  match tzinfo due_dt with
  | None => replace_tzinfo due_dt utc
  | Some _ => due_dt
  end.

(** [not s] on an optional string. *)
Definition falsy_str (s : option string) : bool :=
  match s with
  | None => true
  | Some v => String.eqb v ""
  end.

(** [create_reminder]: [reminder_id] is the value [uuid.uuid4()] draws and
    [clock] the reading of the system clock.  Returns the session after the
    insert, the commit and the refresh, and the created row. *)
Definition create_reminder (s : Session) (reminder_data : ReminderCreate)
    (reminder_id : string) (clock : Z) : raises (Reminder * Session) :=
  let now := now_utc clock in
  priority ←! PriorityEnum_getitem (upper (c_priority reminder_data));
  let destination_mobile :=
    if falsy_str (c_destination_mobile reminder_data)
    then Some (c_user_mobile reminder_data)
    else c_destination_mobile reminder_data in
  let due_dt := ensure_utc_label (c_due_datetime reminder_data) in
  let db_reminder :=
    {| id := reminder_id;
       user_mobile := c_user_mobile reminder_data;
       destination_mobile := destination_mobile;
       title := c_title reminder_data;
       description := c_description reminder_data;
       due_datetime := due_dt;
       priority := priority;
       status := PENDING;
       context := c_context reminder_data;
       recurrence := c_recurrence reminder_data;
       created_at := now;
       updated_at := now |} in
  inr (db_reminder,
       {| db := db s ++ [db_reminder];
          identity := {[reminder_id := db_reminder]} |}).

(** [get_reminder]: the first row with this id and owner; the session hands
    out the object it already holds for that primary key, and loads the row
    otherwise. *)
Definition get_reminder (s : Session) (reminder_id user_mobile' : string)
    : option Reminder * Session :=
  match List.find (λ row, String.eqb (id row) reminder_id &&
                          String.eqb (user_mobile row) user_mobile') (db s) with
  | None => (None, s)
  | Some row =>
      match identity s !! id row with
      | Some o => (Some o, s)
      | None =>
          (Some row, {| db := db s; identity := <[id row := row]> (identity s) |})
      end
  end.

(** The body of [for key, value in updates.items()], key by key. *)
Definition apply_updates (updates : ReminderUpdate) (t : tracked)
    : raises tracked :=
  let t := match u_title updates with
           | Some v => setattr "title" String.eqb title put_title v t
           | None => t
           end in
  let t := match u_description updates with
           | Some v => setattr "description" opt_string_eqb description
                         put_description (Some v) t
           | None => t
           end in
  let t := match u_due_datetime updates with
           | Some v => setattr "due_datetime" dt_eqb due_datetime
                         put_due_datetime (ensure_utc_label v) t
           | None => t
           end in
  let t := match u_destination_mobile updates with
           | Some v => setattr "destination_mobile" opt_string_eqb
                         destination_mobile put_destination_mobile (Some v) t
           | None => t
           end in
  t ←! match u_priority updates with
       | Some v =>
           p ←! PriorityEnum_getitem (upper v);
           inr (setattr "priority" PriorityEnum_eqb priority put_priority p t)
       | None => inr t
       end;
  t ←! match u_status updates with
       | Some v =>
           st ←! StatusEnum_getitem (upper v);
           inr (setattr "status" StatusEnum_eqb status put_status st t)
       | None => inr t
       end;
  inr match u_context updates with
      | Some v => flag_modified "context"
                    (setattr "context" context_eqb context put_context
                       (Some v) t)
      | None => t
      end.

(** The reschedule rule at the end of [update_reminder]. *)
Definition clear_context_if_rescheduled (updates : ReminderUpdate)
    (original_due_datetime : datetime) (clock : Z) (t : tracked) : tracked :=
  match u_due_datetime updates with
  | Some _ =>
      let new_due_datetime := due_datetime (obj t) in
      let now := now_utc clock in
      if dt_gtb new_due_datetime now &&
         negb (dt_eqb new_due_datetime original_due_datetime)
      then flag_modified "context"
             (setattr "context" context_eqb context put_context (Some ∅) t)
      else t
  | None => t
  end.

(** What [update_reminder] does to the object it fetched, up to the commit. *)
Definition tracked_changes (updates : ReminderUpdate) (reminder : Reminder)
    (clock : Z) : raises tracked :=
  let original_due_datetime := due_datetime reminder in
  t ←! apply_updates updates {| obj := reminder; modified := ∅ |};
  let t := clear_context_if_rescheduled updates original_due_datetime
             clock t in
  inr (setattr "updated_at" dt_eqb updated_at put_updated_at
         (now_utc clock) t).

(** [update_reminder] *)
Definition update_reminder (s : Session) (reminder_id user_mobile' : string)
    (updates : ReminderUpdate) (clock : Z)
    : raises (option Reminder * Session) :=
  match get_reminder s reminder_id user_mobile' with
  | (None, s) => inr (None, s)
  | (Some reminder, s) =>
      t ←! tracked_changes updates reminder clock;
      inr (commit_refresh s t)
  end.

(** [delete_reminder] *)
Definition delete_reminder (s : Session) (reminder_id user_mobile' : string)
    : bool * Session :=
  match get_reminder s reminder_id user_mobile' with
  | (None, s) => (false, s)
  | (Some reminder, s) =>
      (true,
       {| db := List.filter (λ row, negb (String.eqb (id row) (id reminder)))
                  (db s);
          identity := ∅ |})
  end.

(** [context.get(key, False)] *)
Definition get_flag (key : string) (c : gmap string json) : json :=
  default (JBool false) (c !! key).

(** The SQL filter of [get_due_reminders_for_calls]. *)
Definition due_pending_with_destination (now : datetime) (row : Reminder)
    : bool :=
  StatusEnum_eqb (status row) PENDING &&
  dt_leb (due_datetime row) now &&
  match destination_mobile row with Some _ => true | None => false end.

(** The [for reminder in all_due] loop of [get_due_reminders_for_calls]. *)
Fixpoint eligible_loop (all_due : list Reminder) : list Reminder :=
  match all_due with
  | [] => []
  | reminder :: rest =>
      let context' := default ∅ (context reminder) in
      if truthy (get_flag "call_initiated" context') then eligible_loop rest
      else if truthy (get_flag "call_failed" context') then eligible_loop rest
      else reminder :: eligible_loop rest
  end.

(** [get_due_reminders_for_calls] on the rows of the table, in the order the
    query returns them (it has no [ORDER BY]).  The worker runs it on a
    session it has just opened, so the objects are the rows. *)
Definition get_due_reminders_for_calls (rows : list Reminder) (clock : Z)
    : list Reminder :=
  let now := now_utc clock in
  let all_due := List.filter (due_pending_with_destination now) rows in
  eligible_loop all_due.

(** [get_due_reminders]: the per-user query, which is ordered. *)
Definition insert_by_due (r : Reminder) : list Reminder → list Reminder :=
  fix ins (l : list Reminder) : list Reminder :=
    match l with
    | [] => [r]
    | x :: l' => if dt_leb (due_datetime x) (due_datetime r)
                 then x :: ins l' else r :: l
    end.

Definition order_by_due_datetime (l : list Reminder) : list Reminder :=
  foldr insert_by_due [] (reverse l).

Definition get_due_reminders (rows : list Reminder) (user_mobile' : string)
    (clock : Z) : list Reminder :=
  let now := now_utc clock in
  order_by_due_datetime
    (List.filter (λ row, String.eqb (user_mobile row) user_mobile' &&
                         StatusEnum_eqb (status row) PENDING &&
                         dt_leb (due_datetime row) now) rows).

(** ** [mcp_server.py]: [parse_datetime_to_utc] *)

(** [s.replace('Z', '+00:00')] *)
Fixpoint replace_Z (s : string) : string :=
  match s with
  | EmptyString => EmptyString
  | String c s' =>
      if Ascii.eqb c "Z"%char then "+00:00" +:+ replace_Z s'
      else String c (replace_Z s')
  end.

Section parse_datetime.

(** [datetime.fromisoformat] of the standard library: the parsed value, or
    [None] where it raises [ValueError]. *)
Variable fromisoformat : string → option datetime.

(** [parse_datetime_to_utc]: [None] where the parse raises. *)
Definition parse_datetime_to_utc (datetime_str : string) : option datetime :=
  match fromisoformat (replace_Z datetime_str) with
  | None => None
  | Some dt =>
      let dt := match tzinfo dt with
                | None => replace_tzinfo dt Asia_Kolkata
                | Some _ => dt
                end in
      Some (astimezone_utc dt)
  end.

End parse_datetime.

(** ** [background_worker.py] *)

(** [settings.OUTGOING_CALL_API_URL] *)
Definition OUTGOING_CALL_API_URL : string := "http://127.0.0.1:1801".

(** The JSON body of the request to the call API. *)
Record payload : Type := mk_payload {
  destination_number : string;
  custom_identifier : string
}.

(** What [client.post] does: a response with its status code and the
    dictionary [response.json()] gives ([None] where parsing raises), or an
    exception.  [initiate_outgoing_call] is declared [-> Optional[dict]]. *)
Inductive http_outcome : Type :=
  | Response (status_code : Z) (body : option (gmap string json))
  | TimeoutException
  | RequestError
  | OtherException.

(** The remote end's answer to one request and the time it took, in
    microseconds. *)
Record http_reply : Type := mk_http_reply {
  elapsed : Z;
  outcome : http_outcome
}.

(** What the worker does to the outside, in order. *)
Inductive event : Type :=
  | EvAttempt (attempt : Z)
  | EvPost (url : string) (p : payload)
  | EvSleep (seconds : Z).

(** The state the worker runs in: its ORM session, the system clock in
    microseconds, and the events so far (oldest first). *)
Record World : Type := mk_World {
  session : Session;
  clock : Z;
  trace : list event
}.

Definition emit (e : event) (w : World) : World :=
  {| session := session w; clock := clock w; trace := trace w ++ [e] |}.

Definition tick (microseconds : Z) (w : World) : World :=
  {| session := session w; clock := clock w + microseconds;
     trace := trace w |}.

(** [await asyncio.sleep(delay)] *)
Definition sleep (delay : Z) (w : World) : World :=
  tick (delay * usec) (emit (EvSleep delay) w).

(** [s[n:]] *)
Fixpoint slice_from (n : nat) (s : string) : string :=
  match n, s with
  | O, _ => s
  | S n', String _ s' => slice_from n' s'
  | S _, EmptyString => EmptyString
  end.

Definition is_digit_char (c : ascii) : bool :=
  let n := nat_of_ascii c in (Nat.leb 48 n && Nat.leb n 57)%bool.

Fixpoint all_digits (s : string) : bool :=
  match s with
  | EmptyString => true
  | String c s' => is_digit_char c && all_digits s'
  end.

(** [s.isdigit()] on ASCII text: false on the empty string. *)
Definition isdigit (s : string) : bool :=
  match s with
  | EmptyString => false
  | _ => all_digits s
  end.

(** The prefix stripping at the head of [initiate_outgoing_call]. *)
Definition strip_country_code (destination : string) : string :=
  if String.prefix "+91" destination then slice_from 3 destination
  else if String.prefix "91" destination &&
          Nat.eqb (String.length destination) 12
  then slice_from 2 destination
  else if String.prefix "+" destination then slice_from 1 destination
  else destination.

(** The request [initiate_outgoing_call] sends for a reminder, or [None]
    when it returns before the network call: the destination is missing
    (the attribute access raises and the handler returns [None]) or does
    not come out as exactly 10 digits. *)
Definition call_payload (reminder : Reminder) : option payload :=
  match destination_mobile reminder with
  | None => None
  | Some destination =>
      let destination := strip_country_code destination in
      if negb (Nat.eqb (String.length destination) 10) ||
         negb (isdigit destination)
      then None
      else Some {| destination_number := destination;
                   custom_identifier := "reminder_" +:+ id reminder |}
  end.

(** How [initiate_outgoing_call] reads the outcome of the request. *)
Definition read_outcome (o : http_outcome)
    : option (gmap string json) :=
  match o with
  | Response status_code body =>
      if status_code =? 200 then body else None
  | TimeoutException => None
  | RequestError => None
  | OtherException => None
  end.

(** [initiate_outgoing_call]: [reply] is what the network does if asked. *)
Definition initiate_outgoing_call (reminder : Reminder) (reply : http_reply)
    (w : World) : option (gmap string json) * World :=
  match call_payload reminder with
  | None => (None, w)
  | Some p =>
      let api_url := OUTGOING_CALL_API_URL +:+ "/api/call/initiate" in
      let w := tick (elapsed reply) (emit (EvPost api_url p) w) in
      (read_outcome (outcome reply), w)
  end.

(** [if call_response:]: [None] and the empty dictionary are false. *)
Definition response_truthy (call_response : option (gmap string json))
    : bool :=
  match call_response with
  | Some m => negb (bool_decide (size m = 0%nat))
  | None => false
  end.

(** [d.get(key)] *)
Definition dict_get (key : string) (m : gmap string json) : json :=
  default JNull (m !! key).

(** The local variable [context] of the worker: the very dictionary the
    reminder object holds in its [context] attribute, or a dictionary of its
    own. *)
Inductive dict_ref : Type :=
  | SameAsAttribute
  | OwnDict (c : gmap string json).

(** [context = reminder.context or {}] *)
Definition bind_context (reminder : Reminder) : dict_ref :=
  match context reminder with
  | Some c => if bool_decide (size c = 0%nat) then OwnDict ∅
              else SameAsAttribute
  | None => OwnDict ∅
  end.

(** The dictionary the variable refers to. *)
Definition deref (reminder : Reminder) (cref : dict_ref)
    : gmap string json :=
  match cref with
  | SameAsAttribute => default ∅ (context reminder)
  | OwnDict c => c
  end.

(** [context[key] = value]: through an alias the write lands in the
    reminder object. *)
Definition setitem (key : string) (value : json)
    (st : Reminder * dict_ref) : Reminder * dict_ref :=
  match st.2 with
  | SameAsAttribute =>
      (put_context (Some (<[key := value]> (default ∅ (context st.1)))) st.1,
       SameAsAttribute)
  | OwnDict c => (st.1, OwnDict (<[key := value]> c))
  end.

Definition json_of_opt_string (s : option string) : json :=
  match s with
  | Some v => JStr v
  | None => JNull
  end.

(** The six assignments of the success branch. *)
Definition record_success (m : gmap string json) (attempt : Z)
    (now : datetime) (st : Reminder * dict_ref) : Reminder * dict_ref :=
  let st := setitem "call_initiated" (JBool true) st in
  let st := setitem "call_id" (dict_get "call_id" m) st in
  let st := setitem "call_timestamp" (JStr (isoformat now)) st in
  let st := setitem "call_destination"
              (json_of_opt_string (destination_mobile st.1)) st in
  let st := setitem "call_agent_number" (dict_get "agent_number" m) st in
  setitem "call_retry_count" (JInt attempt) st.

(** The four assignments of the exhausted branch. *)
Definition record_failure (max_retries : Z) (now : datetime)
    (st : Reminder * dict_ref) : Reminder * dict_ref :=
  let st := setitem "call_failed" (JBool true) st in
  let st := setitem "call_retry_count" (JInt max_retries) st in
  let st := setitem "call_failed_timestamp" (JStr (isoformat now)) st in
  setitem "call_failed_reason" (JStr "Max retries exceeded") st.

(** [crud.update_reminder(db, reminder.id, reminder.user_mobile,
    {'context': context})] as the worker calls it: the reminder object, as
    mutated so far, is the one the session holds for its primary key;
    [interference] is what other processes did to the table since the
    session read it. *)
Definition persist (interference : list Reminder → list Reminder)
    (st : Reminder * dict_ref) (w : World)
    : raises (option Reminder * World) :=
  let s := {| db := interference (db (session w));
              identity := <[id st.1 := st.1]> (identity (session w)) |} in
  r ←! update_reminder s (id st.1) (user_mobile st.1)
         (context_only (deref st.1 st.2)) (clock w);
  inr (r.1, {| session := r.2; clock := clock w; trace := trace w |}).

(** [for attempt in range(1, max_retries + 1)] with its body; [net attempt]
    is the network's answer at that attempt. *)
Fixpoint attempt_loop (net : Z → http_reply)
    (interference : list Reminder → list Reminder) (max_retries : Z)
    (attempts : list Z) (st : Reminder * dict_ref) (w : World)
    : option exn * World :=
  match attempts with
  | [] => (None, w)
  | attempt :: rest =>
      let w := emit (EvAttempt attempt) w in
      let '(call_response, w) :=
        initiate_outgoing_call st.1 (net attempt) w in
      if response_truthy call_response then
        let st := record_success (default ∅ call_response) attempt
                    (now_utc (clock w)) st in
        match persist interference st w with
        | inl e => (Some e, w)
        | inr (_, w) => (None, w)
        end
      else if attempt <? max_retries then
        attempt_loop net interference max_retries rest st
          (sleep (2 ^ attempt) w)
      else
        let st := record_failure max_retries (now_utc (clock w)) st in
        match persist interference st w with
        | inl e => (Some e, w)
        | inr (updated_reminder, w) =>
            let st := (default st.1 updated_reminder,
                       OwnDict (deref st.1 st.2)) in
            attempt_loop net interference max_retries rest st w
        end
  end.

(** The body of [for reminder in eligible_reminders] in
    [process_due_reminders]: one retry burst. *)
Definition process_reminder (net : Z → http_reply)
    (interference : list Reminder → list Reminder) (reminder : Reminder)
    (w : World) : option exn * World :=
  let context' := bind_context reminder in
  let retry_count :=
    default (JInt 0) (deref reminder context' !! "call_retry_count") in
  let max_retries := 3 in
  attempt_loop net interference max_retries (seqZ 1 max_retries)
    (reminder, context') w.

(** ** Vocabulary of the properties *)

(** The context of a reminder read as a dictionary ([reminder.context or {}]). *)
Definition context_dict (r : Reminder) : gmap string json :=
  default ∅ (context r).

(** The flag [key] is stored with the JSON value [true]. *)
Definition flag_is_true (key : string) (r : Reminder) : Prop :=
  context_dict r !! key = Some (JBool true).

(** The flag [key] is stored with a value Python takes for true. *)
Definition flag_truthy (key : string) (r : Reminder) : bool :=
  truthy (get_flag key (context_dict r)).

(** The keys the engine reserves in the context. *)
Definition reserved_keys : list string :=
  ["call_initiated"; "call_id"; "call_agent_number"; "call_timestamp";
   "call_destination"; "call_retry_count"; "call_failed";
   "call_failed_timestamp"; "call_failed_reason"].

(** Sample rows for the closed examples: 2025-11-06T09:30:00Z is the clock
    reading [t_0930]. *)
Definition t_0930 : Z := 1762421400 * usec.

Definition sample (rid : string) (dest : option string) (due : datetime)
    (st : StatusEnum) (c : option (gmap string json)) : Reminder :=
  {| id := rid;
     user_mobile := "+919876543210";
     destination_mobile := dest;
     title := "Doctor Appointment";
     description := Some "";
     due_datetime := due;
     priority := MEDIUM;
     status := st;
     context := c;
     recurrence := None;
     created_at := now_utc (t_0930 - 3600 * usec);
     updated_at := now_utc (t_0930 - 3600 * usec) |}.

(** The request of one attempt as an event list, the time it takes, and
    what the attempt returns to the retry loop. *)
Definition post_events (r : Reminder) : list event :=
  match call_payload r with
  | Some p => [EvPost (OUTGOING_CALL_API_URL +:+ "/api/call/initiate") p]
  | None => []
  end.

Definition post_time (r : Reminder) (reply : http_reply) : Z :=
  match call_payload r with
  | Some _ => elapsed reply
  | None => 0
  end.

Definition call_result (r : Reminder) (reply : http_reply)
    : option (gmap string json) :=
  match call_payload r with
  | Some _ => read_outcome (outcome reply)
  | None => None
  end.

(** An attempt fails when the retry loop takes its result for false. *)
Definition attempt_fails (r : Reminder) (reply : http_reply) : Prop :=
  response_truthy (call_result r reply) = false.

(** An attempt succeeds with the response [m]. *)
Definition attempt_succeeds (r : Reminder) (reply : http_reply)
    (m : gmap string json) : Prop :=
  call_result r reply = Some m ∧ response_truthy (Some m) = true.

(** The world right after the call of attempt [attempt]. *)
Definition after_attempt (r : Reminder) (reply : http_reply) (attempt : Z)
    (w : World) : World :=
  (initiate_outgoing_call r reply (emit (EvAttempt attempt) w)).2.

(** The world after the attempts of [attempts] have all failed and been
    followed by their backoff sleep. *)
Fixpoint after_failures (r : Reminder) (net : Z → http_reply)
    (attempts : list Z) (w : World) : World :=
  match attempts with
  | [] => w
  | a :: rest =>
      after_failures r net rest (sleep (2 ^ a) (after_attempt r (net a) a w))
  end.

(** The world right after the call of attempt [n], the attempts before it
    having failed. *)
Definition world_at (r : Reminder) (net : Z → http_reply) (n : Z)
    (w : World) : World :=
  after_attempt r (net n) n (after_failures r net (seqZ 1 (n - 1)) w).

(** The events of a burst whose last attempt is [n]: each attempt with its
    request, and a sleep of [2 ^ k] seconds after every attempt [k] but the
    last. *)
Definition burst_events (r : Reminder) (n : Z) : list event :=
  flat_map (λ k, EvAttempt k :: post_events r ++
                 (if k =? n then [] else [EvSleep (2 ^ k)]))
           (seqZ 1 n).

(** The time such a burst takes, in microseconds. *)
Definition burst_time (r : Reminder) (net : Z → http_reply) (n : Z) : Z :=
  foldr (λ k acc, post_time r (net k) +
                  (if k =? n then 0 else 2 ^ k * usec) + acc)
        0 (seqZ 1 n).

(** The attempt numbers of a trace. *)
Definition attempts_of (tr : list event) : list Z :=
  flat_map (λ e, match e with EvAttempt a => [a] | _ => [] end) tr.

(** The merge of the terminal-failure keys into a context. *)
Definition failed_context (c : gmap string json) (now : datetime)
    : gmap string json :=
  <["call_failed_reason" := JStr "Max retries exceeded"]>
    (<["call_failed_timestamp" := JStr (isoformat now)]>
       (<["call_retry_count" := JInt 3]>
          (<["call_failed" := JBool true]> c))).

(** The merge of the success keys into a context. *)
Definition succeeded_context (c : gmap string json)
    (m : gmap string json) (destination : option string) (n : Z)
    (now : datetime) : gmap string json :=
  <["call_retry_count" := JInt n]>
    (<["call_agent_number" := dict_get "agent_number" m]>
       (<["call_destination" := json_of_opt_string destination]>
          (<["call_timestamp" := JStr (isoformat now)]>
             (<["call_id" := dict_get "call_id" m]>
                (<["call_initiated" := JBool true]> c))))).

(** [row'] is [row] in every column but [context] and [updated_at]. *)
Definition same_other_columns (row row' : Reminder) : Prop :=
  id row' = id row ∧ user_mobile row' = user_mobile row ∧
  destination_mobile row' = destination_mobile row ∧
  title row' = title row ∧ description row' = description row ∧
  due_datetime row' = due_datetime row ∧ priority row' = priority row ∧
  status row' = status row ∧ recurrence row' = recurrence row ∧
  created_at row' = created_at row.

(** The table [rows'] is the table [rows] with the context [c] written into
    the row of primary key [pk] and nothing else changed but that row's
    [updated_at]. *)
Definition context_persisted (pk : string) (c : gmap string json)
    (rows rows' : list Reminder) : Prop :=
  Forall2 (λ row row', if decide (id row = pk)
                       then context row' = Some c ∧
                            same_other_columns row row'
                       else row' = row) rows rows'.

(** The row the store holds under an id and an owner, as [get_reminder]
    queries it. *)
Definition stored (rows : list Reminder) (reminder_id owner : string)
    : option Reminder :=
  List.find (λ row, String.eqb (id row) reminder_id &&
                    String.eqb (user_mobile row) owner) rows.

(** Two reminders that differ at most in the [call_retry_count] entry of
    their context. *)
Definition same_but_retry_count (r1 r2 : Reminder) : Prop :=
  put_context None r1 = put_context None r2 ∧
  ∀ key, key ≠ "call_retry_count" →
         context_dict r1 !! key = context_dict r2 !! key.

(** The primary key of the table: no two rows share an id. *)
Definition primary_key (rows : list Reminder) : Prop :=
  NoDup (id <$> rows).

(** A call API that answers every request with a 500 after a millisecond. *)
Definition always_500 (attempt : Z) : http_reply :=
  {| elapsed := 1000; outcome := Response 500 None |}.

(** A call API that times out until attempt [n] and accepts from then on. *)
Definition accepts_at (n : Z) (attempt : Z) : http_reply :=
  {| elapsed := 1000;
     outcome := if attempt <? n then TimeoutException
                else Response 200 (Some {["call_id" := JStr "c1";
                                          "agent_number" := JStr "a7"]}) |}.

(** No other process touches the table. *)
Definition untouched (rows : list Reminder) : list Reminder := rows.


(** The owner moves reminder [rid] to [due] while the burst runs, through a
    session of its own, at clock reading [at_clock]. *)
Definition rescheduled_meanwhile (rid owner : string) (due : datetime)
    (at_clock : Z) (rows : list Reminder) : list Reminder :=
  match update_reminder (SessionLocal rows) rid owner
          (mk_ReminderUpdate None None (Some due) None None None None)
          at_clock with
  | inr (_, s) => db s
  | inl _ => rows
  end.

(** A pending reminder due at 09:25 with caller metadata in its context. *)
Definition due_0925 : Reminder :=
  sample "r1" (Some "+919876543210") (now_utc (t_0930 - 300 * usec)) PENDING
    (Some {["location" := JStr "123 Main St"]}).

(** The worker at 09:30, right after it selected from [rows]. *)
Definition worker_at_0930 (rows : list Reminder) : World :=
  {| session := {| db := rows;
                   identity := list_to_map ((λ r, (id r, r)) <$> rows) |};
     clock := t_0930; trace := [] |}.

(** An update reschedules when it carries a [due_datetime] that, once
    labelled, is strictly after the clock and is not equal ([!=]) to the
    previous one. *)
Definition reschedules (updates : ReminderUpdate) (previous_due : datetime)
    (clock : Z) : bool :=
  match u_due_datetime updates with
  | Some d =>
      (clock <? instant (ensure_utc_label d)) &&
      negb (dt_eqb (ensure_utc_label d) previous_due)
  | None => false
  end.




(** ** The rest of [crud.py] *)

(** [ORDER BY due_datetime DESC]: the ascending order read backwards. *)
Definition order_by_due_datetime_desc (l : list Reminder) : list Reminder :=
  reverse (order_by_due_datetime l).

(** [get_reminders_by_user]; [limit] is not negative. *)
Definition get_reminders_by_user (rows : list Reminder)
    (user_mobile' : string) (status' : option string) (limit : nat)
    : raises (list Reminder) :=
  let query :=
    List.filter (λ row, String.eqb (user_mobile row) user_mobile') rows in
  query ←! (if falsy_str status' then inr query
            else
              status_enum ←! StatusEnum_getitem (upper (default "" status'));
              inr (List.filter
                     (λ row, StatusEnum_eqb (status row) status_enum) query));
  inr (take limit (order_by_due_datetime_desc query)).

(** [get_reminders_count] *)
Definition get_reminders_count (rows : list Reminder) (user_mobile' : string)
    : nat :=
  length (List.filter (λ row, String.eqb (user_mobile row) user_mobile') rows).

(** ** [api_server.py] *)

Module api_server.

(** What an endpoint does: it returns a value, or raises an [HTTPException]
    with a status code. *)
Inductive response (A : Type) : Type :=
  | Returned (a : A)
  | HTTPException (status_code : Z).

Arguments Returned {A} a.
Arguments HTTPException {A} status_code.

(** [POST /reminders]: the answer and the table afterwards. *)
Definition create_reminder (rows : list Reminder) (reminder : ReminderCreate)
    (reminder_id : string) (clock : Z) : response Reminder * list Reminder :=
  match create_reminder (SessionLocal rows) reminder reminder_id clock with
  | inr (r, s) => (Returned r, db s)
  | inl _ => (HTTPException 400, rows)
  end.

(** [GET /reminders/{reminder_id}] *)
Definition get_reminder (rows : list Reminder) (reminder_id user_mobile' : string)
    : response Reminder :=
  match (get_reminder (SessionLocal rows) reminder_id user_mobile').1 with
  | Some reminder => Returned reminder
  | None => HTTPException 404
  end.

(** The [try] block of [PUT /reminders/{reminder_id}]: what it returns, or
    the exception it raises, be it one of [crud] or its own
    [HTTPException(status_code=404)]. *)
Definition update_reminder_try (rows : list Reminder)
    (reminder_id user_mobile' : string) (updates : ReminderUpdate)
    (clock : Z) : (exn + Z) + (Reminder * list Reminder) :=
  match update_reminder (SessionLocal rows) reminder_id user_mobile' updates
          clock with
  | inl e => inl (inl e)
  | inr (None, _) => inl (inr 404)
  | inr (Some reminder, s) => inr (reminder, db s)
  end.

(** [PUT /reminders/{reminder_id}]: [except Exception] catches whatever the
    block raises, its [HTTPException] included, and raises a 400. *)
Definition update_reminder (rows : list Reminder)
    (reminder_id user_mobile' : string) (updates : ReminderUpdate)
    (clock : Z) : response Reminder * list Reminder :=
  match update_reminder_try rows reminder_id user_mobile' updates clock with
  | inr (reminder, rows') => (Returned reminder, rows')
  | inl _ => (HTTPException 400, rows)
  end.

(** [DELETE /reminders/{reminder_id}]: the id it reports deleted. *)
Definition delete_reminder (rows : list Reminder)
    (reminder_id user_mobile' : string) : response string * list Reminder :=
  let '(success, s) :=
    delete_reminder (SessionLocal rows) reminder_id user_mobile' in
  if success then (Returned reminder_id, db s)
  else (HTTPException 404, rows).

(** The answer of [GET /reminders/stats/{user_mobile}]. *)
Record stats : Type := mk_stats {
  total : nat;
  pending : nat;
  completed : nat;
  cancelled : nat;
  due_now : nat
}.

(** [GET /reminders/stats/{user_mobile}] *)
Definition get_user_stats (rows : list Reminder) (user_mobile' : string)
    (clock : Z) : raises stats :=
  let total := get_reminders_count rows user_mobile' in
  pending ←! get_reminders_by_user rows user_mobile' (Some "pending") 10000;
  completed ←!
    get_reminders_by_user rows user_mobile' (Some "completed") 10000;
  cancelled ←!
    get_reminders_by_user rows user_mobile' (Some "cancelled") 10000;
  let due_now := length (get_due_reminders rows user_mobile' clock) in
  inr {| total := total; pending := length pending;
         completed := length completed; cancelled := length cancelled;
         due_now := due_now |}.

End api_server.

(** ** [mcp_server.py]: the tools *)

Module mcp_server.

(** What a tool answers, its text left out: the reminder it reports, that
    there is none, or the message of an exception it caught. *)
Inductive tool_reply : Type :=
  | Reported (r : Reminder)
  | NotFound
  | ErrorMessage.

Section tools.

Variable fromisoformat : string → option datetime.

(** The [create_reminder] tool: the answer and the table afterwards. *)
Definition create_reminder (rows : list Reminder)
    (user_mobile' title' due_datetime' : string)
    (destination_mobile' : option string) (description' priority' : string)
    (context' : option (gmap string json)) (reminder_id : string) (clock : Z)
    : tool_reply * list Reminder :=
  match parse_datetime_to_utc fromisoformat due_datetime' with
  | None => (ErrorMessage, rows)
  | Some due_dt =>
      let destination_mobile' :=
        if falsy_str destination_mobile' then Some user_mobile'
        else destination_mobile' in
      let reminder_data :=
        {| c_user_mobile := user_mobile';
           c_destination_mobile := destination_mobile';
           c_title := title';
           c_description := Some description';
           c_due_datetime := due_dt;
           c_priority := priority';
           c_recurrence := None;
           c_context := Some (default ∅ context') |} in
      match create_reminder (SessionLocal rows) reminder_data reminder_id
              clock with
      | inr (reminder, s) => (Reported reminder, db s)
      | inl _ => (ErrorMessage, rows)
      end
  end.

(** [value if value else None] on an optional string. *)
Definition if_truthy (s : option string) : option string :=
  if falsy_str s then None else s.

(** The [update_reminder] tool: the answer and the table afterwards. *)
Definition update_reminder (rows : list Reminder)
    (reminder_id user_mobile' : string)
    (title' due_datetime' description' priority' status'
       destination_mobile' : option string) (clock : Z)
    : tool_reply * list Reminder :=
  match (match if_truthy due_datetime' with
         | None => Some None
         | Some text =>
             match parse_datetime_to_utc fromisoformat text with
             | Some due_dt => Some (Some due_dt)
             | None => None
             end
         end) with
  | None => (ErrorMessage, rows)
  | Some due =>
      let updates :=
        {| u_title := if_truthy title';
           u_description := description';
           u_due_datetime := due;
           u_destination_mobile := destination_mobile';
           u_priority := if_truthy priority';
           u_status := if_truthy status';
           u_context := None |} in
      match update_reminder (SessionLocal rows) reminder_id user_mobile'
              updates clock with
      | inr (Some reminder, s) => (Reported reminder, db s)
      | inr (None, _) => (NotFound, rows)
      | inl _ => (ErrorMessage, rows)
      end
  end.

End tools.


End mcp_server.

(** ** [background_worker.py]: the poll cycle and the sleep between cycles *)

(** What ends a poll cycle early: an exception of the modelled code, or the
    ORM's [ObjectDeletedError] on an expired object whose row is gone. *)
Inductive cycle_error : Type :=
  | Raised (e : exn)
  | ObjectDeletedError.

(** What the outside does during one burst: the call API's replies, and the
    other processes' writes between the start of the burst and its
    persist. *)
Record burst_env : Type := mk_burst_env {
  net_of : Z → http_reply;
  interference_of : list Reminder → list Reminder
}.

(** The first attribute access on the loop variable [reminder]: an object
    the session still holds is read as it is; an expired one is loaded again
    from its row, by primary key. *)
Definition load_attributes (reminder : Reminder) (s : Session)
    : option (Reminder * Session) :=
  match identity s !! id reminder with
  | Some o => Some (o, s)
  | None =>
      match select_by_pk (db s) (id reminder) with
      | Some row =>
          Some (row, {| db := db s;
                        identity := <[id row := row]> (identity s) |})
      | None => None
      end
  end.

(** [for reminder in eligible_reminders]; [k] counts the bursts. *)
Fixpoint reminders_loop (env : nat → burst_env) (k : nat)
    (eligible_reminders : list Reminder) (w : World)
    : option cycle_error * World :=
  match eligible_reminders with
  | [] => (None, w)
  | reminder :: rest =>
      match load_attributes reminder (session w) with
      | None => (Some ObjectDeletedError, w)
      | Some (o, s) =>
          let w := {| session := s; clock := clock w; trace := trace w |} in
          match process_reminder (net_of (env k)) (interference_of (env k))
                  o w with
          | (Some e, w') => (Some (Raised e), w')
          | (None, w') => reminders_loop env (S k) rest w'
          end
      end
  end.


(** The global [shutdown_requested] as read when the clock shows [clock],
    the signal having arrived at [requested_at] if it ever does. *)
Definition shutdown_requested (requested_at : option Z) (clock : Z) : bool :=
  match requested_at with
  | Some t => t <=? clock
  | None => false
  end.

(** The sleep of [worker_loop] between two cycles:
    [for _ in range(settings.WORKER_CHECK_INTERVAL)] with its body. *)
Fixpoint interruptible_sleep (interval : nat) (requested_at : option Z)
    (w : World) : World :=
  match interval with
  | O => w
  | S interval' =>
      if shutdown_requested requested_at (clock w) then w
      else interruptible_sleep interval' requested_at (sleep 1 w)
  end.

(** ** [config.py] *)

(** [settings.MAX_REMINDERS_PER_USER] *)
Definition MAX_REMINDERS_PER_USER : nat := 1000.

(** ** Vocabulary of the properties of the service *)

(** A row with a destination to call (an empty text counts). *)
Definition has_destination (r : Reminder) : Prop :=
  is_Some (destination_mobile r).

Definition due_ascending (l : list Reminder) : Prop :=
  ∀ (i j : nat) (x y : Reminder),
    (i < j)%nat → l !! i = Some x → l !! j = Some y →
    instant (due_datetime x) ≤ instant (due_datetime y).

Definition due_descending (l : list Reminder) : Prop :=
  ∀ (i j : nat) (x y : Reminder),
    (i < j)%nat → l !! i = Some x → l !! j = Some y →
    instant (due_datetime y) ≤ instant (due_datetime x).

Definition owned_by (owner : string) (r : Reminder) : bool :=
  String.eqb (user_mobile r) owner.

Definition has_status (st : StatusEnum) (r : Reminder) : bool :=
  StatusEnum_eqb (status r) st.

Definition due_le (x y : Reminder) : Prop :=
  instant (due_datetime x) ≤ instant (due_datetime y).

(** The attributes of [t] that are not flagged as changed hold what the
    object [o] held: the same value, or for the datetimes the same
    instant. *)
Definition unflagged_kept (o : Reminder) (t : tracked) : Prop :=
  ("title" ∉ modified t → title (obj t) = title o) ∧
  ("description" ∉ modified t → description (obj t) = description o) ∧
  ("due_datetime" ∉ modified t →
   instant (due_datetime (obj t)) = instant (due_datetime o)) ∧
  ("destination_mobile" ∉ modified t →
   destination_mobile (obj t) = destination_mobile o) ∧
  ("priority" ∉ modified t → priority (obj t) = priority o) ∧
  ("status" ∉ modified t → status (obj t) = status o) ∧
  ("updated_at" ∉ modified t →
   instant (updated_at (obj t)) = instant (updated_at o)).

(** The number of reminders of an owner in a status. *)
Definition count_by_status (rows : list Reminder) (owner : string)
    (st : StatusEnum) : nat :=
  length (List.filter (λ r, owned_by owner r && has_status st r) rows).


(** The requests of a trace. *)
Definition posts_of (tr : list event) : list payload :=
  flat_map (λ e, match e with EvPost _ p => [p] | _ => [] end) tr.

(** The seconds of sleep of a trace. *)
Definition slept (tr : list event) : Z :=
  foldr (λ e acc, match e with EvSleep s => s + acc | _ => acc end) 0 tr.



(** The number the call API is sent for a reminder, if any. *)
Definition number_called (r : Reminder) : option string :=
  destination_number <$> call_payload r.

(** Further sample data for the closed examples. *)

(** The request body of the closed examples: a dentist appointment at 10:30
    for the owner of the sample rows, with no destination given. *)
Definition dentist_1030 : ReminderCreate :=
  {| c_user_mobile := "+919876543210";
     c_destination_mobile := None;
     c_title := "Dentist";
     c_description := Some "";
     c_due_datetime := now_utc (t_0930 + 3600 * usec);
     c_priority := "high";
     c_recurrence := None;
     c_context := Some ∅ |}.

(** A completed reminder of the same owner, due at 09:15. *)
Definition done_0915 : Reminder :=
  sample "r2" (Some "+919876543210") (now_utc (t_0930 - 900 * usec))
    COMPLETED (Some ∅).

(** [{'title': 'Dentist', 'status': name}] *)
Definition retitle (name : string) : ReminderUpdate :=
  mk_ReminderUpdate (Some "Dentist") None None None None (Some name) None.

(** A pending reminder due at 09:25 whose destination is a number of
    another country. *)
Definition abroad_0925 : Reminder :=
  sample "r3" (Some "+14155552671") (now_utc (t_0930 - 300 * usec)) PENDING
    (Some ∅).

(** A cycle in which the call API answers 500 to everything and nobody else
    writes. *)
Definition quiet_500 (k : nat) : burst_env :=
  {| net_of := always_500; interference_of := untouched |}.

(** A parser that reads every text as 15:00 without offset on 2025-11-06. *)
Definition reads_1500 (text : string) : option datetime :=
  Some {| wall := t_0930 + 19800 * usec; tzinfo := None |}.

(** ** The Eligibility Selector *)

Lemma StatusEnum_eqb_eq (a b : StatusEnum) :
  StatusEnum_eqb a b = true ↔ a = b.
Proof. destruct a, b; simpl; split; congruence. Qed.

Lemma due_pending_with_destination_true (now : datetime) (r : Reminder) :
  due_pending_with_destination now r = true ↔
  status r = PENDING ∧ instant (due_datetime r) ≤ instant now ∧
  destination_mobile r ≠ None.
Proof.
  unfold due_pending_with_destination, dt_leb.
  rewrite !andb_true_iff, StatusEnum_eqb_eq, Z.leb_le.
  destruct (destination_mobile r); intuition congruence.
Qed.

Lemma elem_of_eligible_loop (all_due : list Reminder) (r : Reminder) :
  r ∈ eligible_loop all_due ↔
  r ∈ all_due ∧ flag_truthy "call_initiated" r = false ∧
  flag_truthy "call_failed" r = false.
Proof.
  unfold flag_truthy, context_dict.
  induction all_due as [|x rest IH]; simpl.
  - split; [intros H | intros [H _]]; inversion H.
  - destruct (truthy (get_flag "call_initiated" (default ∅ (context x))))
      eqn:Hi.
    { rewrite IH, elem_of_cons. split; [tauto|].
      intros [[->|?] [? ?]]; [congruence | tauto]. }
    destruct (truthy (get_flag "call_failed" (default ∅ (context x))))
      eqn:Hf.
    { rewrite IH, elem_of_cons. split; [tauto|].
      intros [[->|?] [? ?]]; [congruence | tauto]. }
    rewrite !elem_of_cons, IH. split.
    + intros [->|?]; tauto.
    + tauto.
Qed.

Lemma instant_now_utc (clock : Z) : instant (now_utc clock) = clock.
Proof. unfold instant, now_utc, utc; simpl. lia. Qed.

Lemma elem_of_selector (rows : list Reminder) (clock : Z) (r : Reminder) :
  r ∈ get_due_reminders_for_calls rows clock ↔
  r ∈ rows ∧ status r = PENDING ∧ instant (due_datetime r) ≤ clock ∧
  destination_mobile r ≠ None ∧
  flag_truthy "call_initiated" r = false ∧
  flag_truthy "call_failed" r = false.
Proof.
  unfold get_due_reminders_for_calls.
  rewrite elem_of_eligible_loop, list_elem_of_In, filter_In,
    <- list_elem_of_In, due_pending_with_destination_true,
    instant_now_utc.
  tauto.
Qed.

Lemma flag_is_true_truthy (key : string) (r : Reminder) :
  flag_is_true key r → flag_truthy key r = true.
Proof.
  unfold flag_is_true, flag_truthy, get_flag. intros ->. reflexivity.
Qed.

(** C1, as amended: a reminder is returned by [get_due_reminders_for_calls]
    exactly when it is in the store, pending, due at the current time, has a
    destination, and neither [call_initiated] nor [call_failed] holds a value
    Python takes for true; a reminder whose context holds either flag with
    the value [true] is returned at no time, whatever the rest of the
    store. *)
Theorem selector_returns_iff (rows : list Reminder) (clock : Z)
    (r : Reminder) :
  (r ∈ get_due_reminders_for_calls rows clock ↔
   r ∈ rows ∧ status r = PENDING ∧ instant (due_datetime r) ≤ clock ∧
   destination_mobile r ≠ None ∧
   flag_truthy "call_initiated" r = false ∧
   flag_truthy "call_failed" r = false) ∧
  (flag_is_true "call_initiated" r ∨ flag_is_true "call_failed" r →
   ∀ (rows' : list Reminder) (later : Z),
     r ∉ get_due_reminders_for_calls rows' later).
Proof.
  split; [apply elem_of_selector|].
  intros Hterm rows' later Hin.
  apply elem_of_selector in Hin as (_ & _ & _ & _ & Hi & Hf).
  destruct Hterm as [H|H]; apply flag_is_true_truthy in H; congruence.
Qed.

(** At 09:30 a pending reminder due five minutes ago is selected, and the
    same reminder with [call_failed = true] is not, then or an hour later. *)
Lemma selector_returns_iff_witness :
  let fresh := sample "r1" (Some "+919876543210")
                 (now_utc (t_0930 - 300 * usec)) PENDING (Some ∅) in
  let failed := sample "r2" (Some "+919876543210")
                  (now_utc (t_0930 - 300 * usec)) PENDING
                  (Some {["call_failed" := JBool true]}) in
  fresh ∈ get_due_reminders_for_calls [fresh; failed] t_0930 ∧
  failed ∉ get_due_reminders_for_calls [fresh; failed]
             (t_0930 + 3600 * usec).
Proof.
  intros fresh failed. split.
  - apply (selector_returns_iff [fresh; failed] t_0930 fresh).
    repeat split; try reflexivity.
    + apply list_elem_of_here.
    + vm_compute. discriminate.
    + discriminate.
  - apply (selector_returns_iff [fresh; failed] t_0930 failed).
    right. reflexivity.
Defined.

(** C1, as stated, fails: a reminder whose [call_initiated] holds the string
    ["yes"] is pending, due, has a destination and has neither flag equal to
    [true], and the selector leaves it out. *)
Lemma selector_flag_not_true_counterexample :
  let r := sample "r1" (Some "+919876543210")
             (now_utc (t_0930 - 300 * usec)) PENDING
             (Some {["call_initiated" := JStr "yes"]}) in
  r ∈ [r] ∧ status r = PENDING ∧
  instant (due_datetime r) ≤ t_0930 ∧ destination_mobile r ≠ None ∧
  ¬ flag_is_true "call_initiated" r ∧ ¬ flag_is_true "call_failed" r ∧
  r ∉ get_due_reminders_for_calls [r] t_0930.
Proof.
  intros r. repeat split.
  - apply list_elem_of_here.
  - vm_compute. discriminate.
  - discriminate.
  - unfold flag_is_true. vm_compute. discriminate.
  - unfold flag_is_true. vm_compute. discriminate.
  - intros H. apply elem_of_selector in H as (_ & _ & _ & _ & Hi & _).
    vm_compute in Hi. discriminate.
Qed.



(** C8 on the code: with the row due at 09:25 stored ahead of the row due at
    09:15, [get_due_reminders_for_calls] returns the later-due reminder
    first, while the per-user query [get_due_reminders], which has an
    [ORDER BY], returns the older one first. *)
Lemma selector_not_ordered_by_due_datetime :
  let late := sample "r1" (Some "+919876543210")
                (now_utc (t_0930 - 300 * usec)) PENDING (Some ∅) in
  let early := sample "r2" (Some "+919876543210")
                 (now_utc (t_0930 - 900 * usec)) PENDING (Some ∅) in
  get_due_reminders_for_calls [late; early] t_0930 = [late; early] ∧
  instant (due_datetime early) < instant (due_datetime late) ∧
  get_due_reminders [late; early] "+919876543210" t_0930 = [early; late].
Proof.
  intros late early. split; [|split].
  - vm_compute. reflexivity.
  - vm_compute. reflexivity.
  - vm_compute. reflexivity.
Qed.

(** ** Destination normalisation *)

Lemma initiate_rejected (r : Reminder) (reply : http_reply) (w : World) :
  call_payload r = None → initiate_outgoing_call r reply w = (None, w).
Proof. unfold initiate_outgoing_call. by intros ->. Qed.

Lemma initiate_posted (r : Reminder) (p : payload) (reply : http_reply)
    (w : World) :
  call_payload r = Some p →
  initiate_outgoing_call r reply w =
    (read_outcome (outcome reply),
     tick (elapsed reply)
       (emit (EvPost (OUTGOING_CALL_API_URL +:+ "/api/call/initiate") p) w)).
Proof. unfold initiate_outgoing_call. by intros ->. Qed.

Lemma call_payload_Some (r : Reminder) (d : string) :
  destination_mobile r = Some d →
  String.length (strip_country_code d) = 10%nat →
  isdigit (strip_country_code d) = true →
  call_payload r =
    Some {| destination_number := strip_country_code d;
            custom_identifier := "reminder_" +:+ id r |}.
Proof.
  unfold call_payload. intros -> Hlen Hdig.
  by rewrite Hlen, Hdig.
Qed.

Lemma call_payload_None (r : Reminder) (d : string) :
  destination_mobile r = Some d →
  ¬ (String.length (strip_country_code d) = 10%nat ∧
     isdigit (strip_country_code d) = true) →
  call_payload r = None.
Proof.
  unfold call_payload. intros -> Hbad.
  destruct (Nat.eqb_spec (String.length (strip_country_code d)) 10)
    as [Hlen|Hlen]; simpl; [|done].
  destruct (isdigit (strip_country_code d)); simpl; [|done].
  exfalso. by apply Hbad.
Qed.

(** C6: for a reminder with destination [d] and whatever the network would
    answer, ["+919876543210"] and ["919876543210"] are sent to the call API
    as ["9876543210"]; ["+19876543210"] and ["98765"] are rejected with no
    request made and the attempt failed; and whenever the destination, after
    the prefix stripping, is not exactly 10 digit characters, the attempt
    returns [None] and leaves the world as it was: nothing is sent. *)
Theorem normalization_rejects_before_network (r : Reminder) (d : string)
    (reply : http_reply) (w : World) :
  destination_mobile r = Some d →
  let sent number :=
    initiate_outgoing_call r reply w =
      (read_outcome (outcome reply),
       tick (elapsed reply)
         (emit (EvPost (OUTGOING_CALL_API_URL +:+ "/api/call/initiate")
                  {| destination_number := number;
                     custom_identifier := "reminder_" +:+ id r |}) w)) in
  let rejected :=
    initiate_outgoing_call r reply w = (None, w) ∧
    response_truthy (initiate_outgoing_call r reply w).1 = false in
  (d = "+919876543210" → strip_country_code d = "9876543210" ∧
     sent "9876543210") ∧
  (d = "919876543210" → strip_country_code d = "9876543210" ∧
     sent "9876543210") ∧
  (d = "+19876543210" → rejected) ∧
  (d = "98765" → rejected) ∧
  (¬ (String.length (strip_country_code d) = 10%nat ∧
      isdigit (strip_country_code d) = true) → rejected) ∧
  (String.length (strip_country_code d) = 10%nat →
   isdigit (strip_country_code d) = true →
   sent (strip_country_code d)).
Proof.
  intros Hd sent rejected.
  assert (Hrej : ¬ (String.length (strip_country_code d) = 10%nat ∧
                    isdigit (strip_country_code d) = true) → rejected).
  { intros Hbad. unfold rejected.
    rewrite (initiate_rejected r reply w (call_payload_None r d Hd Hbad)).
    done. }
  assert (Hsent : String.length (strip_country_code d) = 10%nat →
                  isdigit (strip_country_code d) = true →
                  sent (strip_country_code d)).
  { intros Hlen Hdig. unfold sent.
    apply initiate_posted. by apply call_payload_Some. }
  repeat split.
  - by subst d.
  - subst d. by apply Hsent.
  - by subst d.
  - subst d. by apply Hsent.
  - apply Hrej. subst d. vm_compute. intros [? _]. discriminate.
  - apply Hrej. subst d. vm_compute. intros [? _]. discriminate.
  - apply Hrej. subst d. vm_compute. intros [? _]. discriminate.
  - apply Hrej. subst d. vm_compute. intros [? _]. discriminate.
  - by apply Hrej.
  - by apply Hrej.
  - done.
Qed.

(** The destination ["+19876543210"] leaves the world untouched. *)
Lemma normalization_rejects_before_network_witness :
  let r := sample "r1" (Some "+19876543210")
             (now_utc (t_0930 - 300 * usec)) PENDING (Some ∅) in
  let w := {| session := SessionLocal [r]; clock := t_0930; trace := [] |} in
  let reply := {| elapsed := 1000;
                  outcome := Response 200 (Some {["call_id" := JStr "c1"]}) |} in
  initiate_outgoing_call r reply w = (None, w).
Proof.
  intros r w reply.
  pose proof (normalization_rejects_before_network r "+19876543210" reply w
                eq_refl) as (_ & _ & Hrejected & _).
  exact (proj1 (Hrejected eq_refl)).
Defined.




(** ** The persist step *)

Lemma tracked_changes_context_only (o : Reminder) (c : gmap string json)
    (clock : Z) :
  ∃ t, tracked_changes (context_only c) o clock = inr t ∧
       obj t = put_updated_at (now_utc clock) (put_context (Some c) o) ∧
       "context" ∈ modified t ∧
       modified t ⊆ {["context"; "updated_at"]}.
Proof.
  unfold tracked_changes, apply_updates, clear_context_if_rescheduled,
    context_only, bind_raises; simpl.
  eexists; split; [reflexivity|]. unfold setattr, flag_modified; simpl.
  split; [reflexivity|].
  repeat case_match; set_solver.
Qed.

Lemma write_columns_context_only (t : tracked) (row : Reminder)
    (c : gmap string json) :
  context (obj t) = Some c → "context" ∈ modified t →
  modified t ⊆ {["context"; "updated_at"]} →
  context (write_columns t row) = Some c ∧
  same_other_columns row (write_columns t row).
Proof.
  intros Hc Hin Hsub.
  assert (Hno : ∀ key, key ≠ "context" → key ≠ "updated_at" →
                       bool_decide (key ∈ modified t) = false).
  { intros key H1 H2. apply bool_decide_eq_false_2. set_solver. }
  unfold same_other_columns, write_columns; simpl.
  rewrite (bool_decide_eq_true_2 _ Hin), !Hno by done.
  by rewrite Hc.
Qed.

Lemma flush_context_persisted (t : tracked) (rows : list Reminder)
    (c : gmap string json) :
  context (obj t) = Some c → "context" ∈ modified t →
  modified t ⊆ {["context"; "updated_at"]} →
  context_persisted (id (obj t)) c rows (flush t rows).
Proof.
  intros Hc Hin Hsub. unfold context_persisted, flush.
  induction rows as [|row rows IH]; simpl; constructor; [|exact IH].
  destruct (String.eqb_spec (id row) (id (obj t))) as [Heq|Hne].
  - rewrite decide_True by done. by apply write_columns_context_only.
  - by rewrite decide_False.
Qed.

Lemma find_some_eqb (rows : list Reminder) (rid owner : string)
    (row : Reminder) :
  stored rows rid owner = Some row →
  row ∈ rows ∧ id row = rid ∧ user_mobile row = owner.
Proof.
  unfold stored. intros H. apply find_some in H as [Hin Hb].
  apply andb_true_iff in Hb as [H1 H2].
  apply String.eqb_eq in H1, H2. by rewrite list_elem_of_In.
Qed.

Lemma select_by_pk_flush (t : tracked) (rows : list Reminder)
    (row : Reminder) :
  row ∈ rows → id row = id (obj t) →
  ∃ row', select_by_pk (flush t rows) (id (obj t)) = Some row' ∧
          row' ∈ flush t rows ∧ id row' = id (obj t).
Proof.
  intros Hin Hid. unfold select_by_pk.
  destruct (List.find _ (flush t rows)) as [row'|] eqn:Hf.
  - apply find_some in Hf as [Hin' Hb]. apply String.eqb_eq in Hb.
    exists row'. by rewrite list_elem_of_In.
  - exfalso.
    assert (Hin' : In (write_columns t row) (flush t rows)).
    { unfold flush. apply in_map_iff. exists row.
      rewrite Hid, String.eqb_refl. by rewrite <- list_elem_of_In. }
    pose proof (find_none _ _ Hf _ Hin') as Hb. simpl in Hb.
    rewrite Hid, String.eqb_refl in Hb. discriminate.
Qed.

(** The persist of a burst whose reminder is still stored: the context the
    burst holds is written into its row. *)
Lemma persist_found (interference : list Reminder → list Reminder)
    (st : Reminder * dict_ref) (w : World) (row : Reminder) :
  stored (interference (db (session w))) (id st.1) (user_mobile st.1)
    = Some row →
  ∃ t row' ,
    tracked_changes (context_only (deref st.1 st.2)) st.1 (clock w) = inr t ∧
    persist interference st w =
      inr (Some row',
           {| session := {| db := flush t (interference (db (session w)));
                            identity := {[id row' := row']} |};
              clock := clock w; trace := trace w |}) ∧
    select_by_pk (flush t (interference (db (session w)))) (id st.1)
      = Some row' ∧
    context_persisted (id st.1) (deref st.1 st.2)
      (interference (db (session w)))
      (flush t (interference (db (session w)))).
Proof.
  intros Hst. pose proof Hst as Hst'.
  apply find_some_eqb in Hst' as (Hin & Hid & Hown).
  destruct (tracked_changes_context_only st.1 (deref st.1 st.2) (clock w))
    as (t & Ht & Hobj & Hmod & Hsub).
  assert (Hidt : id (obj t) = id st.1) by (by rewrite Hobj).
  destruct (select_by_pk_flush t (interference (db (session w))) row)
    as (row' & Hsel & _ & _); [done | congruence |].
  exists t, row'. split; [done|]. split; [|split].
  - unfold persist, update_reminder, get_reminder; cbn [db identity].
    unfold stored in Hst. rewrite Hst, Hid, lookup_insert_eq, Ht.
    unfold commit_refresh; cbn [bind_raises db].
    by rewrite Hsel.
  - by rewrite <- Hidt.
  - rewrite <- Hidt. apply flush_context_persisted; [|done..].
    by rewrite Hobj.
Qed.

(** The persist of a burst whose reminder is gone: nothing is written and
    nothing is raised. *)
Lemma persist_missing (interference : list Reminder → list Reminder)
    (st : Reminder * dict_ref) (w : World) :
  stored (interference (db (session w))) (id st.1) (user_mobile st.1)
    = None →
  persist interference st w =
    inr (None,
         {| session := {| db := interference (db (session w));
                          identity := <[id st.1 := st.1]>
                                        (identity (session w)) |};
            clock := clock w; trace := trace w |}).
Proof.
  intros Hst. unfold persist, update_reminder, get_reminder; simpl.
  unfold stored in Hst. by rewrite Hst.
Qed.

(** ** The local [context] variable *)

Lemma deref_bind_context (r : Reminder) :
  deref r (bind_context r) = context_dict r.
Proof.
  unfold bind_context, context_dict, deref.
  destruct (context r) as [c|]; simpl; [|done].
  case_bool_decide as Hsize; simpl; [|done].
  symmetry. by apply map_size_empty_inv.
Qed.

Lemma deref_setitem (key : string) (value : json)
    (st : Reminder * dict_ref) :
  deref (setitem key value st).1 (setitem key value st).2 =
  <[key := value]> (deref st.1 st.2).
Proof. destruct st as [r [|c]]; reflexivity. Qed.

Lemma setitem_other_columns (key : string) (value : json)
    (st : Reminder * dict_ref) :
  put_context None (setitem key value st).1 = put_context None st.1.
Proof. destruct st as [r [|c]]; reflexivity. Qed.

Lemma setitem_destination (key : string) (value : json)
    (st : Reminder * dict_ref) :
  destination_mobile (setitem key value st).1 = destination_mobile st.1.
Proof. destruct st as [r [|c]]; reflexivity. Qed.

Lemma put_context_None_columns (r1 r2 : Reminder) :
  put_context None r1 = put_context None r2 →
  id r1 = id r2 ∧ user_mobile r1 = user_mobile r2 ∧
  destination_mobile r1 = destination_mobile r2 ∧
  updated_at r1 = updated_at r2.
Proof. unfold put_context. intros H. by inversion H. Qed.

Lemma record_failure_spec (now : datetime) (st : Reminder * dict_ref) :
  let st' := record_failure 3 now st in
  deref st'.1 st'.2 = failed_context (deref st.1 st.2) now ∧
  put_context None st'.1 = put_context None st.1.
Proof.
  unfold record_failure, failed_context; simpl. split.
  - by rewrite !deref_setitem.
  - by rewrite !setitem_other_columns.
Qed.

Lemma record_success_spec (m : gmap string json) (n : Z) (now : datetime)
    (st : Reminder * dict_ref) :
  let st' := record_success m n now st in
  deref st'.1 st'.2 =
    succeeded_context (deref st.1 st.2) m (destination_mobile st.1) n now ∧
  put_context None st'.1 = put_context None st.1.
Proof.
  unfold record_success, succeeded_context; simpl. split.
  - by rewrite !deref_setitem, !setitem_destination.
  - by rewrite !setitem_other_columns.
Qed.

(** ** One attempt *)

Lemma initiate_outgoing_call_result (r : Reminder) (reply : http_reply)
    (w : World) :
  (initiate_outgoing_call r reply w).1 = call_result r reply.
Proof.
  unfold initiate_outgoing_call, call_result. by destruct (call_payload r).
Qed.

Lemma after_attempt_spec (r : Reminder) (reply : http_reply) (a : Z)
    (w : World) :
  session (after_attempt r reply a w) = session w ∧
  clock (after_attempt r reply a w) = clock w + post_time r reply ∧
  trace (after_attempt r reply a w) =
    (trace w ++ EvAttempt a :: post_events r)%list.
Proof.
  unfold after_attempt, initiate_outgoing_call, post_time, post_events.
  destruct (call_payload r); simpl.
  - by rewrite <- app_assoc.
  - split; [done|]. split; [lia | done].
Qed.

Lemma sleep_spec (delay : Z) (w : World) :
  session (sleep delay w) = session w ∧
  clock (sleep delay w) = clock w + delay * usec ∧
  trace (sleep delay w) = (trace w ++ [EvSleep delay])%list.
Proof. done. Qed.

(** ** The retry loop, attempt by attempt *)

Lemma attempt_loop_failed (net : Z → http_reply)
    (interference : list Reminder → list Reminder) (max_retries a : Z)
    (rest : list Z) (st : Reminder * dict_ref) (w : World) :
  attempt_fails st.1 (net a) → a < max_retries →
  attempt_loop net interference max_retries (a :: rest) st w =
  attempt_loop net interference max_retries rest st
    (sleep (2 ^ a) (after_attempt st.1 (net a) a w)).
Proof.
  intros Hfail Hlt. unfold attempt_fails in Hfail.
  rewrite <- (initiate_outgoing_call_result _ _ (emit (EvAttempt a) w))
    in Hfail.
  cbn [attempt_loop]. unfold after_attempt.
  destruct (initiate_outgoing_call st.1 (net a) (emit (EvAttempt a) w))
    as [resp w1]; simpl in *.
  rewrite Hfail. by rewrite (proj2 (Z.ltb_lt a max_retries) Hlt).
Qed.

Lemma attempt_loop_exhausted (net : Z → http_reply)
    (interference : list Reminder → list Reminder) (max_retries a : Z)
    (st : Reminder * dict_ref) (w : World) :
  attempt_fails st.1 (net a) → ¬ a < max_retries →
  let w1 := after_attempt st.1 (net a) a w in
  attempt_loop net interference max_retries [a] st w =
  match persist interference
          (record_failure max_retries (now_utc (clock w1)) st) w1 with
  | inl e => (Some e, w1)
  | inr (_, w') => (None, w')
  end.
Proof.
  intros Hfail Hlt. unfold attempt_fails in Hfail.
  rewrite <- (initiate_outgoing_call_result _ _ (emit (EvAttempt a) w))
    in Hfail.
  cbn [attempt_loop]. unfold after_attempt.
  destruct (initiate_outgoing_call st.1 (net a) (emit (EvAttempt a) w))
    as [resp w1]; simpl in *.
  rewrite Hfail. rewrite (proj2 (Z.ltb_ge a max_retries)) by lia.
  destruct (persist _ _ _) as [e|[u w']]; done.
Qed.

Lemma attempt_loop_succeeded (net : Z → http_reply)
    (interference : list Reminder → list Reminder) (max_retries a : Z)
    (rest : list Z) (st : Reminder * dict_ref) (w : World)
    (m : gmap string json) :
  attempt_succeeds st.1 (net a) m →
  let w1 := after_attempt st.1 (net a) a w in
  attempt_loop net interference max_retries (a :: rest) st w =
  match persist interference
          (record_success m a (now_utc (clock w1)) st) w1 with
  | inl e => (Some e, w1)
  | inr (_, w') => (None, w')
  end.
Proof.
  intros [Hres Htrue].
  rewrite <- (initiate_outgoing_call_result _ _ (emit (EvAttempt a) w))
    in Hres.
  cbn [attempt_loop]. unfold after_attempt.
  destruct (initiate_outgoing_call st.1 (net a) (emit (EvAttempt a) w))
    as [resp w1]; cbn [fst snd] in *. subst resp.
  rewrite Htrue. cbn [default]. done.
Qed.

(** ** The burst as a whole *)

Lemma attempt_fails_or_succeeds (r : Reminder) (reply : http_reply) :
  attempt_fails r reply ∨ ∃ m, attempt_succeeds r reply m.
Proof.
  unfold attempt_fails, attempt_succeeds.
  destruct (response_truthy (call_result r reply)) eqn:Ht; [right | by left].
  destruct (call_result r reply) as [m|]; [by exists m | discriminate].
Qed.

Lemma one_two_three (n : Z) : 1 ≤ n ≤ 3 → n = 1 ∨ n = 2 ∨ n = 3.
Proof. lia. Qed.

(** A burst whose first success is attempt [n] ends in the persist of the
    success keys, in the world right after that attempt. *)
Lemma burst_success (net : Z → http_reply)
    (interference : list Reminder → list Reminder) (r : Reminder)
    (w : World) (n : Z) (m : gmap string json) :
  1 ≤ n ≤ 3 →
  (∀ k, 1 ≤ k < n → attempt_fails r (net k)) →
  attempt_succeeds r (net n) m →
  let wn := world_at r net n w in
  process_reminder net interference r w =
  match persist interference
          (record_success m n (now_utc (clock wn)) (r, bind_context r))
          wn with
  | inl e => (Some e, wn)
  | inr (_, w') => (None, w')
  end.
Proof.
  intros Hn Hfail Hok wn. unfold process_reminder.
  change (seqZ 1 3) with [1; 2; 3].
  destruct (one_two_three n Hn) as [->| [->| ->]].
  - by rewrite (attempt_loop_succeeded _ _ _ _ _ _ _ m).
  - rewrite attempt_loop_failed; [|apply Hfail; lia | lia].
    by rewrite (attempt_loop_succeeded _ _ _ _ _ _ _ m).
  - rewrite attempt_loop_failed; [|apply Hfail; lia | lia].
    rewrite attempt_loop_failed; [|apply Hfail; lia | lia].
    by rewrite (attempt_loop_succeeded _ _ _ _ _ _ _ m).
Qed.

(** A burst whose three attempts fail ends in the persist of the failure
    keys, in the world right after the third attempt. *)
Lemma burst_exhausted (net : Z → http_reply)
    (interference : list Reminder → list Reminder) (r : Reminder)
    (w : World) :
  (∀ k, 1 ≤ k ≤ 3 → attempt_fails r (net k)) →
  let w3 := world_at r net 3 w in
  process_reminder net interference r w =
  match persist interference
          (record_failure 3 (now_utc (clock w3)) (r, bind_context r))
          w3 with
  | inl e => (Some e, w3)
  | inr (_, w') => (None, w')
  end.
Proof.
  intros Hfail w3. unfold process_reminder.
  change (seqZ 1 3) with [1; 2; 3].
  rewrite attempt_loop_failed; [|apply Hfail; lia | lia].
  rewrite attempt_loop_failed; [|apply Hfail; lia | lia].
  rewrite attempt_loop_exhausted; [|apply Hfail; lia | lia].
  done.
Qed.

Lemma attempts_of_post_events (r : Reminder) :
  attempts_of (post_events r) = [].
Proof. unfold post_events. by destruct (call_payload r). Qed.

Lemma attempts_of_app (a b : list event) :
  attempts_of (a ++ b) = (attempts_of a ++ attempts_of b)%list.
Proof. apply flat_map_app. Qed.

(** The world right after attempt [n]: the session is untouched, and the
    clock and the trace have advanced by the burst so far. *)
Lemma world_at_spec (r : Reminder) (net : Z → http_reply) (n : Z)
    (w : World) :
  1 ≤ n ≤ 3 →
  session (world_at r net n w) = session w ∧
  clock (world_at r net n w) = clock w + burst_time r net n ∧
  trace (world_at r net n w) = (trace w ++ burst_events r n)%list ∧
  attempts_of (trace (world_at r net n w)) =
    (attempts_of (trace w) ++ seqZ 1 n)%list.
Proof.
  intros Hn. unfold world_at.
  assert (Hstep : ∀ a reply v,
    session (sleep (2 ^ a) (after_attempt r reply a v)) = session v ∧
    clock (sleep (2 ^ a) (after_attempt r reply a v)) =
      clock v + post_time r reply + 2 ^ a * usec ∧
    trace (sleep (2 ^ a) (after_attempt r reply a v)) =
      (trace v ++ EvAttempt a :: post_events r ++ [EvSleep (2 ^ a)])%list).
  { intros a reply v.
    destruct (after_attempt_spec r reply a v) as (Hs & Hc & Ht).
    destruct (sleep_spec (2 ^ a) (after_attempt r reply a v))
      as (Hs' & Hc' & Ht').
    rewrite Hs', Hc', Ht', Hs, Hc, Ht.
    by rewrite <- app_assoc. }
  destruct (one_two_three n Hn) as [->| [->| ->]].
  - change (seqZ 1 (1 - 1)) with (@nil Z). cbn [after_failures].
    destruct (after_attempt_spec r (net 1) 1 w) as (Hs & Hc & Ht).
    rewrite Hs, Hc, Ht. unfold burst_time, burst_events.
    change (seqZ 1 1) with [1]. cbn [foldr flat_map Z.eqb Pos.eqb].
    rewrite !app_nil_r. repeat split; [lia|].
    rewrite attempts_of_app. cbn [attempts_of flat_map].
    change (flat_map _ (post_events r)) with (attempts_of (post_events r)).
    by rewrite attempts_of_post_events.
  - change (seqZ 1 (2 - 1)) with [1]. cbn [after_failures].
    destruct (Hstep 1 (net 1) w) as (Hs1 & Hc1 & Ht1).
    destruct (after_attempt_spec r (net 2) 2
                (sleep (2 ^ 1) (after_attempt r (net 1) 1 w)))
      as (Hs & Hc & Ht).
    rewrite Hs, Hc, Ht, Hs1, Hc1, Ht1. unfold burst_time, burst_events.
    change (seqZ 1 2) with [1; 2]. cbn [foldr flat_map Z.eqb Pos.eqb].
    rewrite !app_nil_r. repeat split; [lia | |].
    + by rewrite <- !app_assoc.
    + rewrite !attempts_of_app. cbn [attempts_of flat_map].
      change (flat_map _ (post_events r)) with (attempts_of (post_events r)).
      rewrite !attempts_of_app, !attempts_of_post_events.
      cbn [attempts_of flat_map]. by rewrite <- !app_assoc.
  - change (seqZ 1 (3 - 1)) with [1; 2]. cbn [after_failures].
    destruct (Hstep 1 (net 1) w) as (Hs1 & Hc1 & Ht1).
    destruct (Hstep 2 (net 2) (sleep (2 ^ 1) (after_attempt r (net 1) 1 w)))
      as (Hs2 & Hc2 & Ht2).
    destruct (after_attempt_spec r (net 3) 3
                (sleep (2 ^ 2) (after_attempt r (net 2) 2
                   (sleep (2 ^ 1) (after_attempt r (net 1) 1 w)))))
      as (Hs & Hc & Ht).
    rewrite Hs, Hc, Ht, Hs2, Hc2, Ht2, Hs1, Hc1, Ht1.
    unfold burst_time, burst_events.
    change (seqZ 1 3) with [1; 2; 3]. cbn [foldr flat_map Z.eqb Pos.eqb].
    rewrite !app_nil_r. repeat split; [lia | |].
    + by rewrite <- !app_assoc.
    + rewrite !attempts_of_app. cbn [attempts_of flat_map].
      change (flat_map _ (post_events r)) with (attempts_of (post_events r)).
      rewrite !attempts_of_app, !attempts_of_post_events.
      cbn [attempts_of flat_map]. by rewrite <- !app_assoc.
Qed.

Lemma failed_context_lookup (c : gmap string json) (now : datetime) :
  failed_context c now !! "call_failed" = Some (JBool true) ∧
  failed_context c now !! "call_retry_count" = Some (JInt 3) ∧
  failed_context c now !! "call_failed_timestamp" =
    Some (JStr (isoformat now)) ∧
  failed_context c now !! "call_failed_reason" =
    Some (JStr "Max retries exceeded") ∧
  ∀ key, key ∉ ["call_failed"; "call_retry_count"; "call_failed_timestamp";
                "call_failed_reason"] →
         failed_context c now !! key = c !! key.
Proof.
  unfold failed_context. repeat split; try by simplify_map_eq.
  intros key Hkey. rewrite !not_elem_of_cons in Hkey.
  destruct Hkey as (? & ? & ? & ? & _). by simplify_map_eq.
Qed.

Lemma succeeded_context_lookup (c m : gmap string json)
    (destination : option string) (n : Z) (now : datetime) :
  let c' := succeeded_context c m destination n now in
  c' !! "call_initiated" = Some (JBool true) ∧
  c' !! "call_id" = Some (dict_get "call_id" m) ∧
  c' !! "call_agent_number" = Some (dict_get "agent_number" m) ∧
  c' !! "call_timestamp" = Some (JStr (isoformat now)) ∧
  c' !! "call_destination" = Some (json_of_opt_string destination) ∧
  c' !! "call_retry_count" = Some (JInt n) ∧
  ∀ key, key ∉ ["call_initiated"; "call_id"; "call_agent_number";
                "call_timestamp"; "call_destination"; "call_retry_count"] →
         c' !! key = c !! key.
Proof.
  unfold succeeded_context. repeat split; try by simplify_map_eq.
  intros key Hkey. rewrite !not_elem_of_cons in Hkey.
  destruct Hkey as (? & ? & ? & ? & ? & ? & _). by simplify_map_eq.
Qed.

(** The persist of a burst on a reminder that is still stored, in terms of
    the reminder as selected. *)
Lemma persist_selected (interference : list Reminder → list Reminder)
    (r : Reminder) (st : Reminder * dict_ref) (w : World) (row : Reminder) :
  put_context None st.1 = put_context None r →
  stored (interference (db (session w))) (id r) (user_mobile r) = Some row →
  ∃ t row' w',
    tracked_changes (context_only (deref st.1 st.2)) st.1 (clock w) = inr t ∧
    "context" ∈ modified t ∧
    persist interference st w = inr (Some row', w') ∧
    clock w' = clock w ∧ trace w' = trace w ∧
    context_persisted (id r) (deref st.1 st.2)
      (interference (db (session w))) (db (session w')).
Proof.
  intros Hcols Hst.
  apply put_context_None_columns in Hcols as (Hid & Hown & _ & _).
  rewrite <- Hid, <- Hown in Hst.
  destruct (persist_found interference st w row Hst)
    as (t & row' & Ht & Hp & _ & Hc).
  destruct (tracked_changes_context_only st.1 (deref st.1 st.2) (clock w))
    as (t' & Ht' & _ & Hmod & _).
  assert (t' = t) as -> by congruence.
  eexists t, row', _. rewrite <- Hid.
  split; [done|]. split; [done|]. split; [exact Hp|]. done.
Qed.





(** Every burst ends in exactly one persist: of the success keys after the
    first attempt that succeeds, or of the failure keys after the third
    failure. *)
Lemma burst_ends_in_persist (net : Z → http_reply)
    (interference : list Reminder → list Reminder) (r : Reminder)
    (w : World) :
  ∃ n st,
    1 ≤ n ≤ 3 ∧
    put_context None st.1 = put_context None r ∧
    (deref st.1 st.2 =
       failed_context (context_dict r)
         (now_utc (clock (world_at r net n w))) ∨
     ∃ m, deref st.1 st.2 =
            succeeded_context (context_dict r) m (destination_mobile r) n
              (now_utc (clock (world_at r net n w)))) ∧
    process_reminder net interference r w =
    match persist interference st (world_at r net n w) with
    | inl e => (Some e, world_at r net n w)
    | inr (_, w') => (None, w')
    end.
Proof.
  match goal with |- ?G =>
    assert (Hok : ∀ n m, 1 ≤ n ≤ 3 →
      (∀ k, 1 ≤ k < n → attempt_fails r (net k)) →
      attempt_succeeds r (net n) m → G)
  end.
  { intros n m Hn Hfail Hm.
    pose proof (burst_success net interference r w n m Hn Hfail Hm) as Heq.
    destruct (record_success_spec m n (now_utc (clock (world_at r net n w)))
                (r, bind_context r)) as [Hderef Hcols].
    cbn [fst snd] in Hderef. rewrite deref_bind_context in Hderef.
    refine (ex_intro _ n (ex_intro _ _ (conj Hn (conj Hcols
              (conj (or_intror (ex_intro _ m Hderef)) Heq))))). }
  destruct (attempt_fails_or_succeeds r (net 1)) as [F1|[m Hm]].
  2:{ apply (Hok 1 m); [lia | intros; lia | done]. }
  destruct (attempt_fails_or_succeeds r (net 2)) as [F2|[m Hm]].
  2:{ apply (Hok 2 m); [lia | | done].
      intros k Hk. by replace k with 1 by lia. }
  destruct (attempt_fails_or_succeeds r (net 3)) as [F3|[m Hm]].
  2:{ apply (Hok 3 m); [lia | | done].
      intros k Hk. assert (k = 1 ∨ k = 2) as [->| ->] by lia; done. }
  assert (Hfail : ∀ k, 1 ≤ k ≤ 3 → attempt_fails r (net k)).
  { intros k Hk. destruct (one_two_three k Hk) as [->| [->| ->]]; done. }
  pose proof (burst_exhausted net interference r w Hfail) as Heq.
  destruct (record_failure_spec (now_utc (clock (world_at r net 3 w)))
              (r, bind_context r)) as [Hderef Hcols].
  cbn [fst snd] in Hderef. rewrite deref_bind_context in Hderef.
  exists 3, (record_failure 3 (now_utc (clock (world_at r net 3 w)))
               (r, bind_context r)).
  split; [lia|]. split; [exact Hcols|]. split; [by left | exact Heq].
Qed.


Lemma context_persisted_elem (pk : string) (c : gmap string json)
    (rows rows' : list Reminder) (row' : Reminder) :
  context_persisted pk c rows rows' → row' ∈ rows' → id row' = pk →
  context row' = Some c.
Proof.
  unfold context_persisted. intros HF Hin Hid.
  apply list_elem_of_lookup in Hin as [i Hi].
  destruct (Forall2_lookup_r _ _ _ _ _ HF Hi) as (row & _ & Hrel).
  case_decide as Hpk; [by destruct Hrel|].
  subst row'. done.
Qed.

Lemma context_persisted_due (pk : string) (c : gmap string json)
    (rows rows' : list Reminder) :
  context_persisted pk c rows rows' →
  due_datetime <$> rows' = due_datetime <$> rows.
Proof.
  unfold context_persisted. induction 1 as [|row row' rows rows' Hrel _ IH];
    [done|].
  cbn [fmap list_fmap]. f_equal; [|exact IH].
  case_decide; [|by subst].
  by destruct Hrel as (_ & _ & _ & _ & _ & _ & -> & _).
Qed.

(** C5, as amended: when the reminder of a burst is still stored at the
    persist but its [due_datetime] is no longer the one selected (it was
    rescheduled in between), the persist is not abandoned: the burst raises
    nothing and writes over the row's context the context as selected merged
    with the burst's outcome, [call_initiated = true] or
    [call_failed = true]; keys outside the reserved set come from the
    context as selected; the [due_datetime] of every row stays what the
    other processes left; and from then on the selector returns the row at
    no time. *)
Theorem stale_burst_overwrites_rescheduled (net : Z → http_reply)
    (interference : list Reminder → list Reminder) (r : Reminder)
    (w : World) (row : Reminder) :
  stored (interference (db (session w))) (id r) (user_mobile r) = Some row →
  due_datetime row ≠ due_datetime r →
  ∃ w' c',
    process_reminder net interference r w = (None, w') ∧
    context_persisted (id r) c' (interference (db (session w)))
      (db (session w')) ∧
    (c' !! "call_initiated" = Some (JBool true) ∨
     c' !! "call_failed" = Some (JBool true)) ∧
    (∀ key, key ∉ reserved_keys → c' !! key = context_dict r !! key) ∧
    due_datetime <$> db (session w') =
      due_datetime <$> interference (db (session w)) ∧
    ∀ row', row' ∈ db (session w') → id row' = id r →
      context row' = Some c' ∧
      ∀ later, row' ∉ get_due_reminders_for_calls (db (session w')) later.
Proof.
  intros Hst _.
  destruct (burst_ends_in_persist net interference r w)
    as (n & st & Hn & Hcols & Hctx & ->).
  destruct (world_at_spec r net n w Hn) as (Hs & _ & _ & _).
  rewrite <- Hs in Hst.
  destruct (persist_selected interference r st _ row Hcols Hst)
    as (t & row' & w' & _ & _ & -> & _ & _ & Hper).
  rewrite Hs in Hper.
  exists w', (deref st.1 st.2). split; [done|]. split; [exact Hper|].
  assert (Hflag : deref st.1 st.2 !! "call_initiated" = Some (JBool true) ∨
                  deref st.1 st.2 !! "call_failed" = Some (JBool true)).
  { destruct Hctx as [->|[m ->]].
    - right. apply failed_context_lookup.
    - left. apply succeeded_context_lookup. }
  split; [exact Hflag|]. split; [|split].
  - intros key Hkey. unfold reserved_keys in Hkey.
    rewrite !not_elem_of_cons in Hkey.
    destruct Hkey as (? & ? & ? & ? & ? & ? & ? & ? & ? & _).
    destruct Hctx as [->|[m ->]].
    + apply failed_context_lookup.
      repeat (apply not_elem_of_cons; split; [done|]). apply not_elem_of_nil.
    + apply succeeded_context_lookup.
      repeat (apply not_elem_of_cons; split; [done|]). apply not_elem_of_nil.
  - by apply context_persisted_due in Hper.
  - intros row'' Hin Hid.
    pose proof (context_persisted_elem _ _ _ _ _ Hper Hin Hid) as Hc.
    split; [exact Hc|]. intros later Hsel.
    apply elem_of_selector in Hsel as (_ & _ & _ & _ & Hi & Hf).
    assert (Hterm : flag_is_true "call_initiated" row'' ∨
                    flag_is_true "call_failed" row'').
    { unfold flag_is_true, context_dict. rewrite Hc. exact Hflag. }
    destruct Hterm as [H|H]; apply flag_is_true_truthy in H; congruence.
Qed.

(** ** The stored retry count *)

Lemma burst_cases (net : Z → http_reply) (r : Reminder) :
  (∃ n m, 1 ≤ n ≤ 3 ∧ (∀ k, 1 ≤ k < n → attempt_fails r (net k)) ∧
          attempt_succeeds r (net n) m) ∨
  (∀ k, 1 ≤ k ≤ 3 → attempt_fails r (net k)).
Proof.
  destruct (attempt_fails_or_succeeds r (net 1)) as [F1|[m Hm]].
  2:{ left. exists 1, m. split; [lia|]. split; [intros; lia | done]. }
  destruct (attempt_fails_or_succeeds r (net 2)) as [F2|[m Hm]].
  2:{ left. exists 2, m. split; [lia|]. split; [|done].
      intros k Hk. by replace k with 1 by lia. }
  destruct (attempt_fails_or_succeeds r (net 3)) as [F3|[m Hm]].
  2:{ left. exists 3, m. split; [lia|]. split; [|done].
      intros k Hk. assert (k = 1 ∨ k = 2) as [->| ->] by lia; done. }
  right. intros k Hk. destruct (one_two_three k Hk) as [->| [->| ->]]; done.
Qed.

Lemma tracked_changes_context_only_eq (o : Reminder)
    (c : gmap string json) (clock : Z) :
  tracked_changes (context_only c) o clock =
  inr {| obj := put_updated_at (now_utc clock) (put_context (Some c) o);
         modified := if dt_eqb (updated_at o) (now_utc clock)
                     then {["context"]}
                     else {["updated_at"; "context"]} |}.
Proof.
  unfold tracked_changes, apply_updates, clear_context_if_rescheduled,
    context_only, bind_raises, setattr, flag_modified.
  cbn [u_title u_description u_due_datetime u_destination_mobile u_priority
       u_status u_context obj modified updated_at put_context].
  f_equal. f_equal. repeat case_match; set_solver.
Qed.

Lemma call_payload_same (r1 r2 : Reminder) :
  put_context None r1 = put_context None r2 →
  call_payload r1 = call_payload r2.
Proof.
  intros H. apply put_context_None_columns in H as (Hid & _ & Hd & _).
  unfold call_payload. by rewrite Hid, Hd.
Qed.

Lemma after_attempt_same (r1 r2 : Reminder) (reply : http_reply) (a : Z)
    (w : World) :
  put_context None r1 = put_context None r2 →
  after_attempt r1 reply a w = after_attempt r2 reply a w.
Proof.
  intros H. unfold after_attempt, initiate_outgoing_call.
  by rewrite (call_payload_same r1 r2 H).
Qed.

Lemma world_at_same (r1 r2 : Reminder) (net : Z → http_reply) (n : Z)
    (w : World) :
  put_context None r1 = put_context None r2 →
  world_at r1 net n w = world_at r2 net n w.
Proof.
  intros H. unfold world_at.
  rewrite (after_attempt_same r1 r2 _ _ _ H). f_equal.
  generalize (seqZ 1 (n - 1)). intros l. revert w.
  induction l as [|a l IH]; intros w; [done|].
  cbn [after_failures]. by rewrite (after_attempt_same r1 r2 _ _ _ H), IH.
Qed.

Lemma call_result_same (r1 r2 : Reminder) (reply : http_reply) :
  put_context None r1 = put_context None r2 →
  call_result r1 reply = call_result r2 reply.
Proof.
  intros H. unfold call_result. by rewrite (call_payload_same r1 r2 H).
Qed.

Lemma failed_context_same (c1 c2 : gmap string json) (now : datetime) :
  (∀ key, key ≠ "call_retry_count" → c1 !! key = c2 !! key) →
  failed_context c1 now = failed_context c2 now.
Proof.
  intros Hagree. apply map_eq. intros key. unfold failed_context.
  rewrite !lookup_insert. repeat case_decide; try done.
  by apply Hagree.
Qed.

Lemma succeeded_context_same (c1 c2 m : gmap string json)
    (destination : option string) (n : Z) (now : datetime) :
  (∀ key, key ≠ "call_retry_count" → c1 !! key = c2 !! key) →
  succeeded_context c1 m destination n now =
  succeeded_context c2 m destination n now.
Proof.
  intros Hagree. apply map_eq. intros key. unfold succeeded_context.
  rewrite !lookup_insert. repeat case_decide; try done.
  by apply Hagree.
Qed.

(** Two persists of the same context for two objects that differ in their
    context only leave the same table, clock and trace, and raise nothing. *)
Lemma persist_agree (interference : list Reminder → list Reminder)
    (st1 st2 : Reminder * dict_ref) (w : World) :
  put_context None st1.1 = put_context None st2.1 →
  deref st1.1 st1.2 = deref st2.1 st2.2 →
  ∃ u1 u2 v1 v2,
    persist interference st1 w = inr (u1, v1) ∧
    persist interference st2 w = inr (u2, v2) ∧
    db (session v1) = db (session v2) ∧ clock v1 = clock v2 ∧
    trace v1 = trace v2.
Proof.
  intros Hcols Hderef.
  pose proof (put_context_None_columns _ _ Hcols) as (Hid & Hown & _ & Hup).
  destruct (stored (interference (db (session w))) (id st1.1)
              (user_mobile st1.1)) as [row|] eqn:Hst.
  - destruct (persist_found interference st1 w row Hst)
      as (t1 & row1 & Ht1 & Hp1 & _ & _).
    rewrite Hid, Hown in Hst.
    destruct (persist_found interference st2 w row Hst)
      as (t2 & row2 & Ht2 & Hp2 & _ & _).
    rewrite tracked_changes_context_only_eq in Ht1, Ht2.
    assert (t1 = t2) as ->.
    { rewrite Hderef, Hup in Ht1.
      replace (put_context (Some (deref st2.1 st2.2)) st1.1)
        with (put_context (Some (deref st2.1 st2.2)) st2.1) in Ht1;
        [congruence|].
      change (put_context (Some (deref st2.1 st2.2))
                (put_context None st2.1) =
              put_context (Some (deref st2.1 st2.2))
                (put_context None st1.1)).
      by rewrite Hcols. }
    rewrite Hp1, Hp2. by eexists _, _, _, _.
  - rewrite (persist_missing interference st1 w Hst).
    rewrite Hid, Hown in Hst.
    rewrite (persist_missing interference st2 w Hst).
    by eexists _, _, _, _.
Qed.

(** C10: two reminders that differ at most in the [call_retry_count] their
    context holds get the same burst: it raises nothing, its attempts are
    numbered from 1 up to some [n ≤ 3], and the trace, the clock and the
    table it leaves are the same for both. *)
Theorem burst_ignores_stored_retry_count (net : Z → http_reply)
    (interference : list Reminder → list Reminder) (r1 r2 : Reminder)
    (w : World) :
  same_but_retry_count r1 r2 →
  ∃ n w1 w2,
    1 ≤ n ≤ 3 ∧
    process_reminder net interference r1 w = (None, w1) ∧
    process_reminder net interference r2 w = (None, w2) ∧
    attempts_of (trace w1) = (attempts_of (trace w) ++ seqZ 1 n)%list ∧
    trace w2 = trace w1 ∧ clock w2 = clock w1 ∧
    db (session w2) = db (session w1).
Proof.
  intros [Hcols Hagree].
  assert (Hfinish : ∀ n st1 st2, 1 ≤ n ≤ 3 →
    put_context None st1.1 = put_context None r1 →
    put_context None st2.1 = put_context None r2 →
    deref st1.1 st1.2 = deref st2.1 st2.2 →
    ∃ w1 w2,
      match persist interference st1 (world_at r1 net n w) with
      | inl e => (Some e, world_at r1 net n w)
      | inr (_, w') => (None, w')
      end = (None, w1) ∧
      match persist interference st2 (world_at r2 net n w) with
      | inl e => (Some e, world_at r2 net n w)
      | inr (_, w') => (None, w')
      end = (None, w2) ∧
      attempts_of (trace w1) = (attempts_of (trace w) ++ seqZ 1 n)%list ∧
      trace w2 = trace w1 ∧ clock w2 = clock w1 ∧
      db (session w2) = db (session w1)).
  { intros n st1 st2 Hn H1 H2 Hd.
    rewrite <- (world_at_same r1 r2 net n w Hcols).
    destruct (world_at_spec r1 net n w Hn) as (_ & _ & _ & Ha).
    destruct (persist_agree interference st1 st2 (world_at r1 net n w))
      as (u1 & u2 & v1 & v2 & Hp1 & Hp2 & Hdb & Hck & Htr);
      [congruence | exact Hd |].
    rewrite Hp1, Hp2. exists v1, v2. do 2 (split; [done|]).
    assert (Htr1 : trace v1 = trace (world_at r1 net n w)).
    { unfold persist in Hp1.
      destruct (update_reminder _ _ _ _ _) as [e|[u s]]; [discriminate|].
      cbn [bind_raises] in Hp1. by inversion Hp1. }
    rewrite Htr1, Ha. by rewrite <- Htr, Htr1. }
  destruct (burst_cases net r1) as [(n & m & Hn & Hfail & Hok)|Hfail].
  - assert (Hfail2 : ∀ k, 1 ≤ k < n → attempt_fails r2 (net k)).
    { intros k Hk. unfold attempt_fails.
      rewrite <- (call_result_same r1 r2 _ Hcols). by apply Hfail. }
    assert (Hok2 : attempt_succeeds r2 (net n) m).
    { unfold attempt_succeeds.
      by rewrite <- (call_result_same r1 r2 _ Hcols). }
    rewrite (burst_success net interference r1 w n m Hn Hfail Hok).
    rewrite (burst_success net interference r2 w n m Hn Hfail2 Hok2).
    destruct (record_success_spec m n
      (now_utc (clock (world_at r1 net n w))) (r1, bind_context r1))
      as [Hd1 Hc1].
    destruct (record_success_spec m n
      (now_utc (clock (world_at r2 net n w))) (r2, bind_context r2))
      as [Hd2 Hc2].
    cbn [fst snd] in Hd1, Hd2. rewrite deref_bind_context in Hd1, Hd2.
    destruct (Hfinish n _ _ Hn Hc1 Hc2) as (w1 & w2 & H); [|by exists n, w1, w2].
    rewrite Hd1, Hd2, <- (world_at_same r1 r2 net n w Hcols).
    apply put_context_None_columns in Hcols as (_ & _ & <- & _).
    by apply succeeded_context_same.
  - assert (Hfail2 : ∀ k, 1 ≤ k ≤ 3 → attempt_fails r2 (net k)).
    { intros k Hk. unfold attempt_fails.
      rewrite <- (call_result_same r1 r2 _ Hcols). by apply Hfail. }
    rewrite (burst_exhausted net interference r1 w Hfail).
    rewrite (burst_exhausted net interference r2 w Hfail2).
    destruct (record_failure_spec
      (now_utc (clock (world_at r1 net 3 w))) (r1, bind_context r1))
      as [Hd1 Hc1].
    destruct (record_failure_spec
      (now_utc (clock (world_at r2 net 3 w))) (r2, bind_context r2))
      as [Hd2 Hc2].
    cbn [fst snd] in Hd1, Hd2. rewrite deref_bind_context in Hd1, Hd2.
    destruct (Hfinish 3 _ _ ltac:(lia) Hc1 Hc2) as (w1 & w2 & H);
      [|by exists 3, w1, w2].
    rewrite Hd1, Hd2, <- (world_at_same r1 r2 net 3 w Hcols).
    by apply failed_context_same.
Qed.

(** ** Closed instances of the burst properties *)




(** The reminder due at 09:25 with and without a stored
    [call_retry_count = 3]: the same events. *)
Lemma burst_ignores_stored_retry_count_witness :
  ∃ n w1 w2,
    1 ≤ n ≤ 3 ∧
    process_reminder (accepts_at 2) untouched due_0925
      (worker_at_0930 [due_0925]) = (None, w1) ∧
    process_reminder (accepts_at 2) untouched
      (put_context (Some {["location" := JStr "123 Main St";
                           "call_retry_count" := JInt 3]}) due_0925)
      (worker_at_0930 [due_0925]) = (None, w2) ∧
    trace w2 = trace w1.
Proof.
  destruct (burst_ignores_stored_retry_count (accepts_at 2) untouched
              due_0925
              (put_context (Some {["location" := JStr "123 Main St";
                                   "call_retry_count" := JInt 3]}) due_0925)
              (worker_at_0930 [due_0925]))
    as (n & w1 & w2 & Hn & H1 & H2 & _ & Htr & _).
  - split; [reflexivity|]. intros key Hkey.
    unfold context_dict, due_0925, sample, put_context; cbn [context default].
    destruct (decide (key = "location")) as [->|Hne]; by simplify_map_eq.
  - exists n, w1, w2. split; [exact Hn|]. split; [exact H1|].
    split; [exact H2 | exact Htr].
Defined.

(** The reminder due at 09:25 is moved to 10:30 by its owner one second
    after the selection: the burst still writes its outcome. *)
Lemma stale_burst_overwrites_rescheduled_witness :
  let due_1030 := now_utc (t_0930 + 3600 * usec) in
  let interference :=
    rescheduled_meanwhile "r1" "+919876543210" due_1030
      (t_0930 + usec) in
  ∃ w' c',
    process_reminder always_500 interference due_0925
      (worker_at_0930 [due_0925]) = (None, w') ∧
    context_persisted "r1" c' (interference [due_0925]) (db (session w')) ∧
    (c' !! "call_initiated" = Some (JBool true) ∨
     c' !! "call_failed" = Some (JBool true)).
Proof.
  intros due_1030 interference.
  destruct (stale_burst_overwrites_rescheduled always_500 interference
              due_0925 (worker_at_0930 [due_0925])
              (put_updated_at (now_utc (t_0930 + usec))
                 (put_context (Some ∅)
                    (put_due_datetime due_1030 due_0925))))
    as (w' & c' & Hrun & Hper & Hflag & _).
  - vm_compute. reflexivity.
  - vm_compute. intros H. discriminate.
  - exists w', c'. split; [exact Hrun|]. split; [exact Hper | exact Hflag].
Defined.

(** C5, as stated, fails: the reminder ["r1"], selected at 09:30 with a
    context of caller metadata, is moved to 10:30 by its owner one second
    later, which resets its context to the empty dictionary; the burst,
    whose three attempts fail, then writes the context it selected merged
    with [call_failed = true] over the fresh one, and at 10:31 the selector
    returns nothing. *)
Lemma stale_burst_overwrites_fresh_state_counterexample :
  let due_1030 := now_utc (t_0930 + 3600 * usec) in
  let interference :=
    rescheduled_meanwhile "r1" "+919876543210" due_1030
      (t_0930 + usec) in
  let result :=
    process_reminder always_500 interference due_0925
      (worker_at_0930 [due_0925]) in
  get_due_reminders_for_calls [due_0925] t_0930 = [due_0925] ∧
  context <$> interference [due_0925] = [Some ∅] ∧
  due_datetime <$> interference [due_0925] = [due_1030] ∧
  result.1 = None ∧
  context <$> db (session result.2) =
    [Some (failed_context {["location" := JStr "123 Main St"]}
             (now_utc (t_0930 + 6003000)))] ∧
  due_datetime <$> db (session result.2) = [due_1030] ∧
  get_due_reminders_for_calls (db (session result.2))
    (t_0930 + 3660 * usec) = [].
Proof.
  intros due_1030 interference result.
  repeat split; vm_compute; reflexivity.
Qed.

(** ** [update_reminder] as the front ends call it *)


Lemma setattr_obj {A : Type} (key : string) (eqb : A → A → bool)
    (get : Reminder → A) (put : A → Reminder → Reminder) (v : A)
    (t : tracked) :
  obj (setattr key eqb get put v t) = put v (obj t).
Proof. done. Qed.

Lemma setattr_modified_mono {A : Type} (key : string) (eqb : A → A → bool)
    (get : Reminder → A) (put : A → Reminder → Reminder) (v : A)
    (t : tracked) (k : string) :
  k ∈ modified t → k ∈ modified (setattr key eqb get put v t).
Proof. unfold setattr; cbn [modified]. case_match; set_solver. Qed.

Lemma setattr_modified_changed {A : Type} (key : string)
    (eqb : A → A → bool) (get : Reminder → A)
    (put : A → Reminder → Reminder) (v : A) (t : tracked) :
  eqb (get (obj t)) v = false →
  key ∈ modified (setattr key eqb get put v t).
Proof. unfold setattr; cbn [modified]. intros ->. set_solver. Qed.

(** What the loop over [updates] leaves in the object. *)
Lemma apply_updates_spec (updates : ReminderUpdate) (o : Reminder)
    (t : tracked) :
  apply_updates updates {| obj := o; modified := ∅ |} = inr t →
  id (obj t) = id o ∧ created_at (obj t) = created_at o ∧
  updated_at (obj t) = updated_at o ∧
  due_datetime (obj t) =
    match u_due_datetime updates with
    | Some d => ensure_utc_label d
    | None => due_datetime o
    end ∧
  context (obj t) =
    match u_context updates with
    | Some c => Some c
    | None => context o
    end ∧
  (is_Some (u_context updates) → "context" ∈ modified t) ∧
  (∀ d, u_due_datetime updates = Some d →
        dt_eqb (due_datetime o) (ensure_utc_label d) = false →
        "due_datetime" ∈ modified t).
Proof.
  destruct updates as [ti de du dm pr st cx].
  unfold apply_updates, bind_raises.
  cbn [u_title u_description u_due_datetime u_destination_mobile u_priority
       u_status u_context].
  set (t1 := match ti with Some v => _ | None => _ end).
  set (t2 := match de with Some v => _ | None => _ end).
  set (t3 := match du with Some v => _ | None => _ end).
  set (t4 := match dm with Some v => _ | None => _ end).
  assert (H1 : id (obj t1) = id o ∧ created_at (obj t1) = created_at o ∧
               updated_at (obj t1) = updated_at o ∧
               due_datetime (obj t1) = due_datetime o ∧
               context (obj t1) = context o).
  { subst t1. by destruct ti. }
  assert (H2 : id (obj t2) = id o ∧ created_at (obj t2) = created_at o ∧
               updated_at (obj t2) = updated_at o ∧
               due_datetime (obj t2) = due_datetime o ∧
               context (obj t2) = context o).
  { subst t2. by destruct de. }
  assert (H3 : id (obj t3) = id o ∧ created_at (obj t3) = created_at o ∧
               updated_at (obj t3) = updated_at o ∧
               due_datetime (obj t3) =
                 match du with
                 | Some d => ensure_utc_label d
                 | None => due_datetime o
                 end ∧
               context (obj t3) = context o ∧
               (∀ d, du = Some d →
                     dt_eqb (due_datetime o) (ensure_utc_label d) = false →
                     "due_datetime" ∈ modified t3)).
  { subst t3. destruct du as [d|]; [|by intuition].
    destruct H2 as (? & ? & ? & Hdue & ?).
    repeat split; try done.
    intros d' [= <-] Hne. apply setattr_modified_changed.
    by rewrite Hdue. }
  assert (H4 : id (obj t4) = id o ∧ created_at (obj t4) = created_at o ∧
               updated_at (obj t4) = updated_at o ∧
               due_datetime (obj t4) = due_datetime (obj t3) ∧
               context (obj t4) = context o ∧
               (∀ k, k ∈ modified t3 → k ∈ modified t4)).
  { subst t4. destruct dm as [v|]; [|by intuition].
    destruct H3 as (? & ? & ? & ? & ? & _).
    repeat split; try done. intros k. apply setattr_modified_mono. }
  clearbody t1 t2 t3 t4.
  destruct H3 as (_ & _ & _ & Hdue3 & _ & Hmod3).
  destruct H4 as (Hid & Hcr & Hup & Hdue4 & Hctx & Hmono4).
  intros Hrun.
  assert (Hmono : ∀ k, k ∈ modified t3 → k ∈ modified t4) by exact Hmono4.
  destruct pr as [v|];
    [destruct (PriorityEnum_getitem (upper v)) as [e|p];
       [discriminate|]|];
    (destruct st as [v'|];
       [destruct (StatusEnum_getitem (upper v')) as [e'|p'];
          [discriminate|]|]);
    cbn [bind_raises] in Hrun; injection Hrun as <-;
    destruct cx as [c|]; repeat split;
    lazymatch goal with
    | |- id _ = _ => exact Hid
    | |- created_at _ = _ => exact Hcr
    | |- updated_at _ = _ => exact Hup
    | |- due_datetime _ = _ => by rewrite <- Hdue3, <- Hdue4
    | |- is_Some None → _ => intros [? [=]]
    | |- is_Some (Some _) → _ =>
        intros _; unfold flag_modified; cbn [modified]; set_solver
    | |- ∀ d, _ =>
        intros d Hd Hne;
        repeat first [ apply elem_of_union_r | apply setattr_modified_mono ];
        by apply Hmono, (Hmod3 d)
    | |- _ = _ => exact Hctx
    end.
Qed.

(** What [update_reminder] leaves in the object at the commit. *)
Lemma tracked_changes_spec (updates : ReminderUpdate) (o : Reminder)
    (clock : Z) (t : tracked) :
  tracked_changes updates o clock = inr t →
  id (obj t) = id o ∧ created_at (obj t) = created_at o ∧
  updated_at (obj t) = now_utc clock ∧
  due_datetime (obj t) =
    match u_due_datetime updates with
    | Some d => ensure_utc_label d
    | None => due_datetime o
    end ∧
  context (obj t) =
    (if reschedules updates (due_datetime o) clock then Some ∅
     else match u_context updates with
          | Some c => Some c
          | None => context o
          end) ∧
  (reschedules updates (due_datetime o) clock = true →
   "context" ∈ modified t) ∧
  (is_Some (u_context updates) → "context" ∈ modified t) ∧
  (∀ d, u_due_datetime updates = Some d →
        dt_eqb (due_datetime o) (ensure_utc_label d) = false →
        "due_datetime" ∈ modified t).
Proof.
  unfold tracked_changes.
  destruct (apply_updates updates {| obj := o; modified := ∅ |})
    as [e|t0] eqn:Happly; [discriminate|].
  cbn [bind_raises]. intros [= <-].
  destruct (apply_updates_spec updates o t0 Happly)
    as (Hid & Hcr & _ & Hdue & Hctx & Hmc & Hmd).
  unfold clear_context_if_rescheduled, reschedules.
  rewrite Hdue. unfold dt_gtb. rewrite instant_now_utc.
  destruct (u_due_datetime updates) as [d|] eqn:Hd.
  - destruct ((clock <? instant (ensure_utc_label d)) &&
              negb (dt_eqb (ensure_utc_label d) (due_datetime o))) eqn:Hre.
    + repeat split; try done.
      * intros _. apply setattr_modified_mono.
        unfold flag_modified; cbn [modified]. set_solver.
      * intros _. apply setattr_modified_mono.
        unfold flag_modified; cbn [modified]. set_solver.
      * intros d' [= <-] Hne. apply setattr_modified_mono.
        unfold flag_modified; cbn [modified].
        apply elem_of_union_r, setattr_modified_mono. by apply (Hmd d).
    + repeat split; try done.
      * intros Hc. by apply setattr_modified_mono, Hmc.
      * intros d' [= <-] Hne. apply setattr_modified_mono. by apply (Hmd d).
  - repeat split; try done.
    intros Hc. by apply setattr_modified_mono, Hmc.
Qed.

Lemma update_reminder_fresh (rows : list Reminder) (rid owner : string)
    (updates : ReminderUpdate) (clock : Z) (row : Reminder) :
  stored rows rid owner = Some row →
  update_reminder (SessionLocal rows) rid owner updates clock =
  match tracked_changes updates row clock with
  | inl e => inl e
  | inr t =>
      inr (commit_refresh
             {| db := rows; identity := <[id row := row]> ∅ |} t)
  end.
Proof.
  intros Hst. unfold update_reminder, get_reminder, SessionLocal, stored in *.
  cbn [db identity]. rewrite Hst, lookup_empty. done.
Qed.

Lemma update_reminder_missing (rows : list Reminder) (rid owner : string)
    (updates : ReminderUpdate) (clock : Z) :
  stored rows rid owner = None →
  update_reminder (SessionLocal rows) rid owner updates clock =
  inr (None, SessionLocal rows).
Proof.
  intros Hst. unfold update_reminder, get_reminder, SessionLocal, stored in *.
  cbn [db identity]. by rewrite Hst.
Qed.

Lemma select_by_pk_primary_key (t : tracked) (rows : list Reminder)
    (row : Reminder) :
  primary_key rows → row ∈ rows → id (obj t) = id row →
  select_by_pk (flush t rows) (id (obj t)) = Some (write_columns t row).
Proof.
  unfold primary_key, select_by_pk, flush. intros Hpk Hin Hid.
  induction rows as [|x rows IH]; [by apply elem_of_nil in Hin|].
  cbn [fmap list_fmap] in Hpk. apply NoDup_cons in Hpk as [Hx Hpk].
  cbn [map List.find].
  apply elem_of_cons in Hin as [<-|Hin].
  - destruct (String.eqb_spec (id row) (id (obj t))) as [Heq|Hne];
      [|congruence].
    change (id (write_columns t row)) with (id row).
    destruct (String.eqb_spec (id row) (id (obj t))); [done | congruence].
  - destruct (String.eqb_spec (id x) (id (obj t))) as [Heq|Hne].
    + exfalso. apply Hx. rewrite Heq, Hid.
      apply list_elem_of_fmap. by exists row.
    + destruct (String.eqb_spec (id x) (id (obj t))); [done|].
      by apply IH.
Qed.

Lemma write_columns_spec (t : tracked) (row : Reminder) :
  id (write_columns t row) = id row ∧
  created_at (write_columns t row) = created_at row ∧
  context (write_columns t row) =
    (if bool_decide ("context" ∈ modified t) then context (obj t)
     else context row) ∧
  due_datetime (write_columns t row) =
    (if bool_decide ("due_datetime" ∈ modified t) then due_datetime (obj t)
     else due_datetime row) ∧
  updated_at (write_columns t row) =
    (if bool_decide ("updated_at" ∈ modified t) then updated_at (obj t)
     else updated_at row).
Proof. done. Qed.





(** ** Timestamps at the store *)






(** * The service around the dispatch engine *)

(** ** [create_reminder], [get_reminder] and [delete_reminder] together *)

Lemma stored_app_fresh (rows : list Reminder) (r : Reminder)
    (owner : string) :
  id r ∉ id <$> rows →
  stored (rows ++ [r]) (id r) owner =
    if String.eqb (user_mobile r) owner then Some r else None.
Proof.
  intros Hfresh. unfold stored.
  induction rows as [|x rows IH]; cbn [app List.find].
  - rewrite String.eqb_refl. cbn [andb]. by destruct (String.eqb _ _).
  - cbn [fmap list_fmap] in Hfresh. apply not_elem_of_cons in Hfresh as [Hx Hr].
    destruct (String.eqb_spec (id x) (id r)) as [Heq|Hne]; [congruence|].
    cbn [andb]. by apply IH.
Qed.

Lemma create_reminder_row (s : Session) (data : ReminderCreate)
    (rid : string) (clock : Z) (r : Reminder) (s' : Session) :
  create_reminder s data rid clock = inr (r, s') →
  db s' = (db s ++ [r])%list ∧ id r = rid ∧
  user_mobile r = c_user_mobile data ∧ status r = PENDING ∧
  context r = c_context data ∧ title r = c_title data ∧
  destination_mobile r =
    (if falsy_str (c_destination_mobile data)
     then Some (c_user_mobile data) else c_destination_mobile data).
Proof.
  unfold create_reminder.
  destruct (PriorityEnum_getitem (upper (c_priority data))) as [e|p];
    [discriminate|].
  cbn [bind_raises]. by intros [= <- <-].
Qed.

Lemma get_reminder_fresh_session (rows : list Reminder)
    (rid owner : string) :
  (get_reminder (SessionLocal rows) rid owner).1 = stored rows rid owner.
Proof.
  unfold get_reminder, stored, SessionLocal. cbn [db identity].
  destruct (List.find _ rows) as [row|]; [|done].
  by rewrite lookup_empty.
Qed.

(** X1: A reminder created under an id that is not in the table is what
    [get_reminder] returns for that id and its owner, and nothing is returned
    for that id and any other owner. *)
Theorem create_then_get (rows : list Reminder) (data : ReminderCreate)
    (rid : string) (clock : Z) (r : Reminder) (s' : Session) :
  rid ∉ id <$> rows →
  create_reminder (SessionLocal rows) data rid clock = inr (r, s') →
  (get_reminder (SessionLocal (db s')) rid (c_user_mobile data)).1
    = Some r ∧
  ∀ owner, owner ≠ c_user_mobile data →
           (get_reminder (SessionLocal (db s')) rid owner).1 = None.
Proof.
  intros Hfresh Hrun.
  destruct (create_reminder_row _ _ _ _ _ _ Hrun)
    as (Hdb & Hid & Hown & _).
  cbn [db SessionLocal] in Hdb. rewrite Hdb. subst rid.
  split.
  - rewrite get_reminder_fresh_session, stored_app_fresh by done.
    by rewrite Hown, String.eqb_refl.
  - intros owner Hne.
    rewrite get_reminder_fresh_session, stored_app_fresh by done.
    rewrite Hown. destruct (String.eqb_spec (c_user_mobile data) owner);
      [congruence | done].
Qed.

Lemma delete_reminder_fresh (rows : list Reminder) (rid owner : string) :
  delete_reminder (SessionLocal rows) rid owner =
  match stored rows rid owner with
  | Some row =>
      (true, SessionLocal
               (List.filter (λ x, negb (String.eqb (id x) (id row))) rows))
  | None => (false, SessionLocal rows)
  end.
Proof.
  unfold delete_reminder, get_reminder, stored, SessionLocal.
  cbn [db identity].
  destruct (List.find _ rows) as [row|]; [|done].
  by rewrite lookup_empty.
Qed.

Lemma stored_filter_id (rows : list Reminder) (rid owner : string) :
  stored (List.filter (λ x, negb (String.eqb (id x) rid)) rows) rid owner
    = None.
Proof.
  unfold stored.
  destruct (List.find _ _) as [row|] eqn:Hf; [|done].
  apply find_some in Hf as [Hin Hb].
  apply filter_In in Hin as [_ Hne].
  apply andb_true_iff in Hb as [Hid _]. by rewrite Hid in Hne.
Qed.

(** X2: [delete_reminder] either finds no row under the id and the owner,
    returns [False] and leaves the table as it is, or returns [True] and leaves
    the table without any row of that id, the other rows unchanged and in their
    order; after that [get_reminder] finds nothing under the id for any owner,
    and a second delete returns [False]. *)
Theorem delete_then_get (rows : list Reminder) (rid owner : string) :
  let '(success, s') := delete_reminder (SessionLocal rows) rid owner in
  (success = false → stored rows rid owner = None ∧ db s' = rows) ∧
  (success = true →
   is_Some (stored rows rid owner) ∧
   db s' = List.filter (λ x, negb (String.eqb (id x) rid)) rows ∧
   (∀ anyone, (get_reminder (SessionLocal (db s')) rid anyone).1 = None) ∧
   (delete_reminder (SessionLocal (db s')) rid owner).1 = false).
Proof.
  rewrite delete_reminder_fresh.
  destruct (stored rows rid owner) as [row|] eqn:Hst.
  - pose proof (find_some_eqb rows rid owner row Hst) as (_ & Hid & _).
    rewrite Hid. split; [discriminate|]. intros _.
    split; [by eexists|]. split; [done|]. cbn [db SessionLocal]. split.
    + intros anyone. by rewrite get_reminder_fresh_session, stored_filter_id.
    + by rewrite delete_reminder_fresh, stored_filter_id.
  - split; [done | discriminate].
Qed.

(** ** [update_reminder]: the columns it writes *)

(** The columns of the object after the loop over [updates], beside those
    of [apply_updates_spec]. *)
Lemma apply_updates_columns (updates : ReminderUpdate) (o : Reminder)
    (t : tracked) :
  apply_updates updates {| obj := o; modified := ∅ |} = inr t →
  user_mobile (obj t) = user_mobile o ∧
  recurrence (obj t) = recurrence o ∧
  title (obj t) = default (title o) (u_title updates) ∧
  destination_mobile (obj t) =
    match u_destination_mobile updates with
    | Some v => Some v
    | None => destination_mobile o
    end ∧
  match u_priority updates with
  | Some name => PriorityEnum_getitem (upper name) = inr (priority (obj t))
  | None => priority (obj t) = priority o
  end ∧
  match u_status updates with
  | Some name => StatusEnum_getitem (upper name) = inr (status (obj t))
  | None => status (obj t) = status o
  end.
Proof.
  destruct updates as [ti de du dm pr st cx].
  unfold apply_updates.
  cbn [u_title u_description u_due_datetime u_destination_mobile u_priority
       u_status u_context].
  destruct pr as [p|];
    [destruct (PriorityEnum_getitem (upper p)) as [e|pe] eqn:Hp;
       [discriminate|]|];
    (destruct st as [n|];
       [destruct (StatusEnum_getitem (upper n)) as [e'|se] eqn:Hs;
          [cbn [bind_raises]; try rewrite Hs; discriminate|]|]);
    cbn [bind_raises]; try rewrite Hs; cbn [bind_raises];
    intros [= <-]; destruct ti, de, du, dm, cx; repeat split.
Qed.

Lemma tracked_changes_columns (updates : ReminderUpdate) (o : Reminder)
    (clock : Z) (t : tracked) :
  tracked_changes updates o clock = inr t →
  user_mobile (obj t) = user_mobile o ∧
  recurrence (obj t) = recurrence o ∧
  title (obj t) = default (title o) (u_title updates) ∧
  destination_mobile (obj t) =
    match u_destination_mobile updates with
    | Some v => Some v
    | None => destination_mobile o
    end ∧
  match u_priority updates with
  | Some name => PriorityEnum_getitem (upper name) = inr (priority (obj t))
  | None => priority (obj t) = priority o
  end ∧
  match u_status updates with
  | Some name => StatusEnum_getitem (upper name) = inr (status (obj t))
  | None => status (obj t) = status o
  end.
Proof.
  unfold tracked_changes.
  destruct (apply_updates updates {| obj := o; modified := ∅ |})
    as [e|t0] eqn:Happly; [discriminate|].
  cbn [bind_raises]. intros [= <-].
  pose proof (apply_updates_columns updates o t0 Happly) as H.
  unfold clear_context_if_rescheduled.
  destruct (u_due_datetime updates); [|exact H].
  destruct (_ && _); exact H.
Qed.

Lemma tracked_changes_raises (updates : ReminderUpdate) (o : Reminder)
    (clock : Z) (e : exn) :
  tracked_changes updates o clock = inl e →
  (∃ name, u_priority updates = Some name ∧
           PriorityEnum_getitem (upper name) = inl e) ∨
  (∃ name, u_status updates = Some name ∧
           StatusEnum_getitem (upper name) = inl e).
Proof.
  unfold tracked_changes, apply_updates.
  destruct (u_priority updates) as [p|].
  - destruct (PriorityEnum_getitem (upper p)) as [e'|pe] eqn:Hp.
    + cbn [bind_raises]. intros [= <-]. left. by exists p.
    + cbn [bind_raises]. destruct (u_status updates) as [n|];
        [|discriminate].
      destruct (StatusEnum_getitem (upper n)) as [e'|se] eqn:Hs;
        [|discriminate].
      cbn [bind_raises]. intros [= <-]. right. by exists n.
  - cbn [bind_raises]. destruct (u_status updates) as [n|]; [|discriminate].
    destruct (StatusEnum_getitem (upper n)) as [e'|se] eqn:Hs;
      [|discriminate].
    cbn [bind_raises]. intros [= <-]. right. by exists n.
Qed.

Lemma write_columns_keys (t : tracked) (row : Reminder) :
  id (write_columns t row) = id row ∧
  user_mobile (write_columns t row) = user_mobile row ∧
  recurrence (write_columns t row) = recurrence row ∧
  created_at (write_columns t row) = created_at row ∧
  destination_mobile (write_columns t row) =
    (if bool_decide ("destination_mobile" ∈ modified t)
     then destination_mobile (obj t) else destination_mobile row) ∧
  status (write_columns t row) =
    (if bool_decide ("status" ∈ modified t) then status (obj t)
     else status row).
Proof. done. Qed.

Lemma flush_ids (t : tracked) (rows : list Reminder) :
  id <$> flush t rows = id <$> rows.
Proof.
  unfold flush. induction rows as [|x rows IH]; [done|].
  cbn [map fmap list_fmap]. f_equal; [|exact IH].
  by destruct (String.eqb _ _).
Qed.

Lemma tracked_changes_status_flag (updates : ReminderUpdate)
    (o : Reminder) (clock : Z) (t : tracked) (name : string) :
  tracked_changes updates o clock = inr t →
  u_status updates = Some name →
  StatusEnum_getitem (upper name) = inr (status (obj t)) →
  StatusEnum_eqb (status o) (status (obj t)) = false →
  "status" ∈ modified t.
Proof.
  unfold tracked_changes.
  destruct (apply_updates updates {| obj := o; modified := ∅ |})
    as [e|t0] eqn:Happly; [discriminate|].
  cbn [bind_raises]. intros [= <-] Hname.
  assert (Hst : status
                  (obj (setattr "updated_at" dt_eqb updated_at put_updated_at
                          (now_utc clock)
                          (clear_context_if_rescheduled updates
                             (due_datetime o) clock t0))) =
                status (obj t0)).
  { unfold clear_context_if_rescheduled.
    destruct (u_due_datetime updates); [|done]. by destruct (_ && _). }
  rewrite Hst. intros Hget Hne.
  apply setattr_modified_mono.
  assert (Hin : "status" ∈ modified t0).
  { revert Happly Hget Hne. clear Hst.
    destruct updates as [ti de du dm pr st cx].
    cbn [u_status] in Hname. subst st.
    unfold apply_updates.
    cbn [u_title u_description u_due_datetime u_destination_mobile
         u_priority u_status u_context].
    destruct pr as [p|];
      [destruct (PriorityEnum_getitem (upper p)) as [e|pe];
         [discriminate|]|];
      (destruct (StatusEnum_getitem (upper name)) as [e'|se];
         [discriminate|]);
      cbn [bind_raises]; intros [= <-] [= Hse] Hne;
      destruct ti as [?|], de as [?|], du as [?|], dm as [?|];
      (destruct cx as [?|];
         [unfold flag_modified; cbn [modified];
          apply elem_of_union_r, setattr_modified_mono|]);
      apply setattr_modified_changed; exact Hne. }
  unfold clear_context_if_rescheduled.
  destruct (u_due_datetime updates); [|done].
  destruct (_ && _); [|done].
  unfold flag_modified; cbn [modified].
  by apply elem_of_union_r, setattr_modified_mono.
Qed.

(** What an update of a fresh session comes to: nothing found and nothing
    done, an exception of the name lookups and nothing done, or the flush of
    the changes of the row found. *)
Lemma update_reminder_cases (rows : list Reminder) (rid owner : string)
    (updates : ReminderUpdate) (clock : Z) :
  (stored rows rid owner = None ∧
   update_reminder (SessionLocal rows) rid owner updates clock =
     inr (None, SessionLocal rows)) ∨
  (∃ row e, stored rows rid owner = Some row ∧
            tracked_changes updates row clock = inl e ∧
            update_reminder (SessionLocal rows) rid owner updates clock =
              inl e) ∨
  (∃ row t r' s',
     stored rows rid owner = Some row ∧
     tracked_changes updates row clock = inr t ∧
     update_reminder (SessionLocal rows) rid owner updates clock =
       inr (Some r', s') ∧
     db s' = flush t rows ∧ r' ∈ flush t rows ∧ id r' = id row).
Proof.
  destruct (stored rows rid owner) as [row|] eqn:Hst.
  - right. rewrite (update_reminder_fresh rows rid owner updates clock row Hst).
    destruct (tracked_changes updates row clock) as [e|t] eqn:Ht.
    + left. by exists row, e.
    + right.
      destruct (tracked_changes_spec updates row clock t Ht) as (Hid & _).
      pose proof (find_some_eqb rows rid owner row Hst) as (Hin & _ & _).
      destruct (select_by_pk_flush t rows row Hin) as (r' & Hsel & Hin' & Hid');
        [done|].
      unfold commit_refresh. cbn [db]. rewrite Hsel.
      exists row, t, r', {| db := flush t rows; identity := {[id r' := r']} |}.
      repeat split; try done. congruence.
  - left. split; [done|]. by apply update_reminder_missing.
Qed.

(** X3: An update under an id and an owner that match no row returns [None] and
    leaves the table as it is, whatever the update carries; an update that
    returns a reminder leaves as many rows, in the same order, changes no row
    of another id, and in a row of that id keeps the id, the owner, the
    creation time and the recurrence. *)
Theorem update_touches_one_row (rows : list Reminder) (rid owner : string)
    (updates : ReminderUpdate) (clock : Z) (res : option Reminder * Session) :
  update_reminder (SessionLocal rows) rid owner updates clock = inr res →
  (stored rows rid owner = None → res.1 = None ∧ db res.2 = rows) ∧
  (is_Some (stored rows rid owner) →
   is_Some res.1 ∧
   Forall2 (λ x x', if decide (id x = rid)
                    then id x' = id x ∧ user_mobile x' = user_mobile x ∧
                         created_at x' = created_at x ∧
                         recurrence x' = recurrence x
                    else x' = x) rows (db res.2)).
Proof.
  intros Hrun.
  destruct (update_reminder_cases rows rid owner updates clock)
    as [[Hst Heq]|[(row & e & Hst & _ & Heq)|
                   (row & t & r' & s' & Hst & Ht & Heq & Hdb & _ & _)]];
    rewrite Heq in Hrun; [|discriminate|]; injection Hrun as <-.
  - split; [done|]. rewrite Hst. by intros [? ?].
  - split; [by rewrite Hst|]. intros _. split; [by eexists|].
    cbn [snd]. rewrite Hdb.
    destruct (tracked_changes_spec updates row clock t Ht) as (Hid & _).
    pose proof (find_some_eqb rows rid owner row Hst) as (_ & Hrid & _).
    unfold flush. clear Heq Hdb Hst.
    induction rows as [|x rows IH]; [constructor|].
    cbn [map]. constructor; [|exact IH].
    destruct (String.eqb_spec (id x) (id (obj t))) as [Heq|Hne].
    + rewrite decide_True by congruence. done.
    + rewrite decide_False by congruence. done.
Qed.

(** X4: The names of a status are matched whatever their case: an update whose
    status, upper-cased, is not the name of a member raises [KeyError] with the
    upper-cased name, provided the reminder is stored and the priority, if any,
    is the name of a member; with no reminder stored it returns [None] and
    raises nothing. *)
Theorem update_status_by_name (rows : list Reminder) (rid owner : string)
    (updates : ReminderUpdate) (clock : Z) (name : string) :
  u_status updates = Some name →
  (∀ p, u_priority updates = Some p →
        ∃ pe, PriorityEnum_getitem (upper p) = inr pe) →
  (stored rows rid owner = None →
   update_reminder (SessionLocal rows) rid owner updates clock =
     inr (None, SessionLocal rows)) ∧
  (is_Some (stored rows rid owner) →
   match StatusEnum_getitem (upper name) with
   | inl _ =>
       update_reminder (SessionLocal rows) rid owner updates clock =
         inl (KeyError (upper name))
   | inr st =>
       ∃ r' s', update_reminder (SessionLocal rows) rid owner updates clock
                  = inr (Some r', s') ∧
                (primary_key rows → status r' = st)
   end).
Proof.
  intros Hname Hprio.
  destruct (update_reminder_cases rows rid owner updates clock)
    as [[Hst Heq]|[(row & e & Hst & Ht & Heq)|
                   (row & t & r' & s' & Hst & Ht & Heq & Hdb & Hin & Hid)]].
  - split; [done|]. rewrite Hst. by intros [? ?].
  - split; [by rewrite Hst|]. intros _.
    destruct (tracked_changes_raises updates row clock e Ht)
      as [(p & Hp & Hpe)|(n & Hn & Hne)].
    + destruct (Hprio p Hp) as [pe Hpe']. congruence.
    + assert (n = name) as -> by congruence. rewrite Hne, Heq.
      f_equal. unfold StatusEnum_getitem in Hne.
      repeat case_match; congruence.
  - split; [by rewrite Hst|]. intros _.
    destruct (tracked_changes_columns updates row clock t Ht)
      as (_ & _ & _ & _ & _ & Hstatus).
    rewrite Hname in Hstatus. rewrite Hstatus.
    exists r', s'. split; [exact Heq|]. intros Hpk.
    destruct (tracked_changes_spec updates row clock t Ht) as (Hidt & _).
    pose proof (find_some_eqb rows rid owner row Hst) as (Hinr & _ & _).
    rewrite (update_reminder_fresh rows rid owner updates clock row Hst),
      Ht in Heq. unfold commit_refresh in Heq. cbn [db] in Heq.
    rewrite (select_by_pk_primary_key t rows row Hpk Hinr Hidt) in Heq.
    injection Heq as <- _.
    destruct (write_columns_keys t row) as (_ & _ & _ & _ & _ & ->).
    case_bool_decide as Hmod; [done|].
    destruct (StatusEnum_eqb (status row) (status (obj t))) eqn:Hse;
      [by apply StatusEnum_eqb_eq in Hse|].
    exfalso. apply Hmod.
    by apply (tracked_changes_status_flag updates row clock t name).
Qed.

(** ** What [crud] keeps true of the table *)

Lemma primary_key_filter (f : Reminder → bool) (rows : list Reminder) :
  primary_key rows → primary_key (List.filter f rows).
Proof.
  unfold primary_key. induction rows as [|x rows IH]; [done|].
  cbn [fmap list_fmap List.filter]. intros [Hx Hrows]%NoDup_cons.
  destruct (f x); [|by apply IH].
  cbn [fmap list_fmap]. apply NoDup_cons. split; [|by apply IH].
  intros Hin. apply Hx. apply list_elem_of_fmap in Hin as (y & -> & Hy).
  apply list_elem_of_fmap. exists y. split; [done|].
  apply list_elem_of_In. apply list_elem_of_In, filter_In in Hy. tauto.
Qed.

(** X5: [create_reminder] under an id that is not in the table, every
    [update_reminder] and every [delete_reminder] leave no two rows with the
    same id when there were none; an update keeps the ids of the table as they
    are. *)
Theorem crud_keeps_primary_key (rows : list Reminder) :
  primary_key rows →
  (∀ data rid clock r s',
     rid ∉ id <$> rows →
     create_reminder (SessionLocal rows) data rid clock = inr (r, s') →
     primary_key (db s')) ∧
  (∀ rid owner updates clock res,
     update_reminder (SessionLocal rows) rid owner updates clock = inr res →
     id <$> db res.2 = id <$> rows ∧ primary_key (db res.2)) ∧
  (∀ rid owner,
     primary_key (db (delete_reminder (SessionLocal rows) rid owner).2)).
Proof.
  intros Hpk. split; [|split].
  - intros data rid clock r s' Hfresh Hrun.
    destruct (create_reminder_row _ _ _ _ _ _ Hrun) as (Hdb & Hid & _).
    cbn [db SessionLocal] in Hdb. rewrite Hdb. unfold primary_key in *.
    rewrite fmap_app. apply NoDup_app. split; [done|].
    split; [|apply NoDup_singleton].
    intros x Hx Hx'. cbn [fmap list_fmap] in Hx'.
    apply list_elem_of_singleton in Hx'. congruence.
  - intros rid owner updates clock res Hrun.
    assert (Hids : id <$> db res.2 = id <$> rows).
    { destruct (update_reminder_cases rows rid owner updates clock)
        as [[_ Heq]|[(row & e & _ & _ & Heq)|
                     (row & t & r' & s' & _ & _ & Heq & Hdb & _ & _)]];
        rewrite Heq in Hrun; [|discriminate|]; injection Hrun as <-.
      - done.
      - cbn [snd]. rewrite Hdb. apply flush_ids. }
    split; [exact Hids|]. unfold primary_key. by rewrite Hids.
  - intros rid owner. rewrite delete_reminder_fresh.
    destruct (stored rows rid owner); [|done].
    cbn [snd db SessionLocal]. by apply primary_key_filter.
Qed.

(** X6: [create_reminder], [update_reminder] and [delete_reminder] never leave
    a row without a destination in a table that had none: a created reminder
    gets its owner's number when it is given no destination or an empty one,
    and an update cannot set the column back to null. *)
Theorem crud_keeps_destinations (rows : list Reminder) :
  Forall has_destination rows →
  (∀ data rid clock r s',
     create_reminder (SessionLocal rows) data rid clock = inr (r, s') →
     Forall has_destination (db s') ∧
     (falsy_str (c_destination_mobile data) = true →
      destination_mobile r = Some (c_user_mobile data))) ∧
  (∀ rid owner updates clock res,
     update_reminder (SessionLocal rows) rid owner updates clock = inr res →
     Forall has_destination (db res.2)) ∧
  (∀ rid owner,
     Forall has_destination
       (db (delete_reminder (SessionLocal rows) rid owner).2)).
Proof.
  intros Hrows. split; [|split].
  - intros data rid clock r s' Hrun.
    destruct (create_reminder_row _ _ _ _ _ _ Hrun)
      as (Hdb & _ & _ & _ & _ & _ & Hdest).
    cbn [db SessionLocal] in Hdb. rewrite Hdb. split.
    + apply Forall_app. split; [done|]. apply Forall_singleton.
      unfold has_destination. rewrite Hdest.
      destruct (c_destination_mobile data) as [d|]; [|by eexists].
      cbn [falsy_str]. destruct (String.eqb d ""); by eexists.
    + intros Hfalsy. by rewrite Hdest, Hfalsy.
  - intros rid owner updates clock res Hrun.
    destruct (update_reminder_cases rows rid owner updates clock)
      as [[_ Heq]|[(row & e & _ & _ & Heq)|
                   (row & t & r' & s' & Hst & Ht & Heq & Hdb & _ & _)]];
      rewrite Heq in Hrun; [|discriminate|]; injection Hrun as <-.
    + done.
    + cbn [snd]. rewrite Hdb.
      destruct (tracked_changes_columns updates row clock t Ht)
        as (_ & _ & _ & Hdest & _).
      pose proof (find_some_eqb rows rid owner row Hst) as (Hin & _ & _).
      assert (Hobj : has_destination (obj t)).
      { unfold has_destination. rewrite Hdest.
        destruct (u_destination_mobile updates); [by eexists|].
        rewrite Forall_forall in Hrows. by apply Hrows. }
      unfold flush. rewrite Forall_forall. intros x Hx.
      apply list_elem_of_fmap in Hx as (y & -> & Hy).
      rewrite Forall_forall in Hrows. specialize (Hrows y Hy).
      destruct (String.eqb (id y) (id (obj t))); [|done].
      unfold has_destination.
      destruct (write_columns_keys t y) as (_ & _ & _ & _ & -> & _).
      by case_bool_decide.
  - intros rid owner. rewrite delete_reminder_fresh.
    destruct (stored rows rid owner); [|done].
    cbn [snd db SessionLocal]. rewrite Forall_forall in *.
    intros x Hx. apply Hrows. apply list_elem_of_In.
    apply list_elem_of_In, filter_In in Hx. tauto.
Qed.

(** ** The ordered queries of [crud] *)

Lemma insert_by_due_perm (r : Reminder) (l : list Reminder) :
  insert_by_due r l ≡ₚ r :: l.
Proof.
  induction l as [|x l IH]; [done|].
  cbn [insert_by_due]. destruct (dt_leb _ _); [|done].
  etransitivity; [apply Permutation_skip, IH|]. apply Permutation_swap.
Qed.

Lemma order_by_due_datetime_perm (l : list Reminder) :
  order_by_due_datetime l ≡ₚ l.
Proof.
  unfold order_by_due_datetime.
  transitivity (reverse l); [|by rewrite reverse_Permutation].
  induction (reverse l) as [|x l' IH]; [done|].
  cbn [foldr]. etransitivity; [apply insert_by_due_perm|].
  by apply Permutation_skip.
Qed.

Lemma insert_by_due_sorted (r : Reminder) (l : list Reminder) :
  StronglySorted due_le l → StronglySorted due_le (insert_by_due r l).
Proof.
  induction l as [|x l IH]; intros Hs.
  - repeat constructor.
  - cbn [insert_by_due]. unfold dt_leb.
    apply StronglySorted_inv in Hs as [Hl Hx].
    destruct (Z.leb_spec (instant (due_datetime x))
                (instant (due_datetime r))) as [Hle|Hlt].
    + constructor; [by apply IH|].
      rewrite (insert_by_due_perm r l). by constructor.
    + constructor; [by constructor|].
      constructor; [unfold due_le; lia|].
      eapply Forall_impl; [exact Hx|]. unfold due_le. intros; lia.
Qed.

Lemma order_by_due_datetime_sorted (l : list Reminder) :
  StronglySorted due_le (order_by_due_datetime l).
Proof.
  unfold order_by_due_datetime.
  induction (reverse l) as [|x l' IH]; [constructor|].
  cbn [foldr]. by apply insert_by_due_sorted.
Qed.

Lemma StronglySorted_lookup_lt {A : Type} (R : A → A → Prop) (l : list A)
    (i j : nat) (x y : A) :
  StronglySorted R l → (i < j)%nat → l !! i = Some x → l !! j = Some y →
  R x y.
Proof.
  intros Hs. revert i j. induction Hs as [|a l Hs IH Ha]; intros i j Hij Hi Hj.
  - by rewrite lookup_nil in Hi.
  - destruct j as [|j]; [lia|]. cbn in Hj. destruct i as [|i].
    + injection Hi as <-. rewrite Forall_forall in Ha. apply Ha.
      by eapply list_elem_of_lookup_2.
    + cbn in Hi. apply (IH i j); [lia|done..].
Qed.

Lemma order_by_due_datetime_ascending (l : list Reminder) :
  due_ascending (order_by_due_datetime l).
Proof.
  intros i j x y Hij Hi Hj.
  exact (StronglySorted_lookup_lt due_le _ i j x y
           (order_by_due_datetime_sorted l) Hij Hi Hj).
Qed.

Lemma order_by_due_datetime_desc_descending (l : list Reminder) :
  due_descending (order_by_due_datetime_desc l).
Proof.
  intros i j x y Hij Hi Hj. unfold order_by_due_datetime_desc in *.
  pose proof (lookup_lt_Some _ _ _ Hi) as Hli.
  pose proof (lookup_lt_Some _ _ _ Hj) as Hlj.
  rewrite length_reverse in Hli, Hlj.
  rewrite reverse_lookup in Hi by done.
  rewrite reverse_lookup in Hj by done.
  eapply (order_by_due_datetime_ascending l); [|exact Hj|exact Hi]. lia.
Qed.

Lemma due_descending_take (n : nat) (l : list Reminder) :
  due_descending l → due_descending (take n l).
Proof.
  intros Hl i j x y Hij Hi Hj.
  apply lookup_take_Some in Hi as [Hi _].
  apply lookup_take_Some in Hj as [Hj _].
  by apply (Hl i j).
Qed.

Lemma elem_of_List_filter {A : Type} (f : A → bool) (l : list A) (x : A) :
  x ∈ List.filter f l ↔ x ∈ l ∧ f x = true.
Proof. by rewrite !list_elem_of_In, filter_In. Qed.

Lemma get_due_reminders_perm (rows : list Reminder) (owner : string)
    (clock : Z) :
  get_due_reminders rows owner clock ≡ₚ
  List.filter (λ r, owned_by owner r && has_status PENDING r &&
                    (instant (due_datetime r) <=? clock)) rows.
Proof.
  unfold get_due_reminders.
  rewrite order_by_due_datetime_perm. apply Permutation_refl'.
  apply filter_ext. intros r.
  unfold dt_leb, owned_by, has_status. by rewrite instant_now_utc.
Qed.

Lemma elem_of_get_due_reminders (rows : list Reminder) (owner : string)
    (clock : Z) (r : Reminder) :
  r ∈ get_due_reminders rows owner clock ↔
  r ∈ rows ∧ user_mobile r = owner ∧ status r = PENDING ∧
  instant (due_datetime r) ≤ clock.
Proof.
  rewrite get_due_reminders_perm, elem_of_List_filter.
  unfold owned_by, has_status.
  rewrite !andb_true_iff, String.eqb_eq, StatusEnum_eqb_eq, Z.leb_le.
  tauto.
Qed.

(** X7: [get_due_reminders] returns the pending reminders of the owner that are
    due at the clock reading, each as often as the table holds it, and in the
    order of their due instants, the earliest first. *)
Theorem get_due_reminders_ordered (rows : list Reminder) (owner : string)
    (clock : Z) :
  let due := get_due_reminders rows owner clock in
  (∀ r, r ∈ due ↔
        r ∈ rows ∧ user_mobile r = owner ∧ status r = PENDING ∧
        instant (due_datetime r) ≤ clock) ∧
  due ≡ₚ List.filter (λ r, owned_by owner r && has_status PENDING r &&
                           (instant (due_datetime r) <=? clock)) rows ∧
  due_ascending due.
Proof.
  cbn zeta. split; [apply elem_of_get_due_reminders|].
  split; [apply get_due_reminders_perm|].
  apply order_by_due_datetime_ascending.
Qed.

Lemma get_reminders_by_user_unfiltered (rows : list Reminder)
    (owner : string) (status' : option string) (limit : nat) :
  falsy_str status' = true →
  get_reminders_by_user rows owner status' limit =
    inr (take limit (order_by_due_datetime_desc
                       (List.filter (owned_by owner) rows))).
Proof. unfold get_reminders_by_user. by intros ->. Qed.

Lemma get_reminders_by_user_filtered (rows : list Reminder)
    (owner name : string) (limit : nat) :
  name ≠ "" →
  get_reminders_by_user rows owner (Some name) limit =
    match StatusEnum_getitem (upper name) with
    | inl e => inl e
    | inr st =>
        inr (take limit
               (order_by_due_datetime_desc
                  (List.filter (has_status st)
                     (List.filter (owned_by owner) rows))))
    end.
Proof.
  intros Hname. unfold get_reminders_by_user. cbn [falsy_str].
  change (default "" (Some name)) with name.
  destruct (String.eqb_spec name "") as [->|_]; [done|].
  destruct (StatusEnum_getitem (upper name)); reflexivity.
Qed.

Lemma StatusEnum_getitem_raises (name : string) (e : exn) :
  StatusEnum_getitem name = inl e → e = KeyError name.
Proof. unfold StatusEnum_getitem. repeat case_match; congruence. Qed.

Lemma order_by_due_datetime_desc_perm (l : list Reminder) :
  order_by_due_datetime_desc l ≡ₚ l.
Proof.
  unfold order_by_due_datetime_desc.
  by rewrite reverse_Permutation, order_by_due_datetime_perm.
Qed.

(** X8: What [get_reminders_by_user] lists: with no status, or the empty text
    for one, the reminders of the owner; with the name of a status in any case,
    those of that status; with any other text it raises [KeyError] with the
    upper-cased text. A list it returns has [limit] reminders when the table
    has that many matching ones and all the matching ones otherwise, every one
    of them a row of the owner, and it is in the order of the due instants, the
    latest first. *)
Theorem get_reminders_by_user_lists (rows : list Reminder) (owner : string)
    (status' : option string) (limit : nat) :
  let matching st :=
    List.filter (λ r, owned_by owner r &&
                      match st with
                      | Some st => has_status st r
                      | None => true
                      end) rows in
  let lists st :=
    ∃ l, get_reminders_by_user rows owner status' limit = inr l ∧
         length l = (limit `min` length (matching st))%nat ∧
         (∀ r, r ∈ l → r ∈ matching st) ∧
         (length (matching st) ≤ limit → l ≡ₚ matching st)%nat ∧
         due_descending l in
  (falsy_str status' = true → lists None) ∧
  (∀ name, status' = Some name → name ≠ "" →
     match StatusEnum_getitem (upper name) with
     | inr st => lists (Some st)
     | inl _ => get_reminders_by_user rows owner status' limit =
                  inl (KeyError (upper name))
     end).
Proof.
  cbn zeta.
  assert (Hlist : ∀ (q m : list Reminder), q ≡ₚ m →
    length (take limit (order_by_due_datetime_desc q)) =
      (limit `min` length m)%nat ∧
    (∀ r, r ∈ take limit (order_by_due_datetime_desc q) → r ∈ m) ∧
    (length m ≤ limit → take limit (order_by_due_datetime_desc q) ≡ₚ m)%nat ∧
    due_descending (take limit (order_by_due_datetime_desc q))).
  { intros q m Hqm.
    pose proof (order_by_due_datetime_desc_perm q) as Hperm.
    split; [|split; [|split]].
    - by rewrite length_take, Hperm, Hqm.
    - intros r Hr. rewrite <- Hqm, <- Hperm.
      by apply (subseteq_take limit).
    - intros Hlen. rewrite take_ge; [by rewrite Hperm|].
      by rewrite Hperm, Hqm.
    - apply due_descending_take, order_by_due_datetime_desc_descending. }
  split.
  - intros Hfalsy. eexists. split;
      [by apply get_reminders_by_user_unfiltered|].
    apply Hlist. unfold owned_by.
    apply Permutation_refl'. induction rows as [|x rows IH]; [done|].
    cbn [List.filter]. rewrite andb_true_r.
    destruct (String.eqb _ _); by rewrite IH.
  - intros name -> Hname.
    rewrite (get_reminders_by_user_filtered rows owner name limit Hname).
    destruct (StatusEnum_getitem (upper name)) as [e|st] eqn:Hget.
    + by rewrite (StatusEnum_getitem_raises _ _ Hget).
    + eexists. split; [done|]. apply Hlist.
      apply Permutation_refl'. induction rows as [|x rows IH]; [done|].
      cbn [List.filter]. destruct (owned_by owner x); cbn [andb];
        [|exact IH].
      cbn [List.filter]. destruct (has_status st x); by rewrite IH.
Qed.

(** ** The fields an update sets and the fields it keeps *)

Lemma dt_eqb_instant (a b : datetime) :
  dt_eqb a b = true → instant a = instant b.
Proof.
  unfold dt_eqb, instant.
  destruct (tzinfo a), (tzinfo b); try discriminate;
    intros H%Z.eqb_eq; cbn [default] in *; unfold utc; lia.
Qed.

Lemma PriorityEnum_eqb_eq (a b : PriorityEnum) :
  PriorityEnum_eqb a b = true ↔ a = b.
Proof. destruct a, b; simpl; split; congruence. Qed.

Lemma opt_string_eqb_eq (a b : option string) :
  opt_string_eqb a b = true ↔ a = b.
Proof. unfold opt_string_eqb. apply bool_decide_eq_true. Qed.

Ltac unflagged_step sound :=
  let H := fresh "H" in
  let E := fresh "E" in
  let Hn := fresh "Hn" in
  intros H; unfold unflagged_kept, setattr in *; cbn [obj modified];
  match goal with
  | |- context [if ?b then _ else _] => destruct b eqn:E
  end;
  [apply sound in E|];
  repeat split; intros Hn;
  try (apply not_elem_of_union in Hn as [Hn Hn'];
       try (by apply not_elem_of_singleton in Hn));
  cbn; first [ by rewrite <- E; apply H | by apply H ].

Lemma unflagged_kept_title (o : Reminder) (v : string) (t : tracked) :
  unflagged_kept o t →
  unflagged_kept o (setattr "title" String.eqb title put_title v t).
Proof. unflagged_step String.eqb_eq. Qed.

Lemma unflagged_kept_description (o : Reminder) (v : option string)
    (t : tracked) :
  unflagged_kept o t →
  unflagged_kept o (setattr "description" opt_string_eqb description
                      put_description v t).
Proof. unflagged_step opt_string_eqb_eq. Qed.

Lemma unflagged_kept_due_datetime (o : Reminder) (v : datetime)
    (t : tracked) :
  unflagged_kept o t →
  unflagged_kept o (setattr "due_datetime" dt_eqb due_datetime
                      put_due_datetime v t).
Proof. unflagged_step dt_eqb_instant. Qed.

Lemma unflagged_kept_destination_mobile (o : Reminder) (v : option string)
    (t : tracked) :
  unflagged_kept o t →
  unflagged_kept o (setattr "destination_mobile" opt_string_eqb
                      destination_mobile put_destination_mobile v t).
Proof. unflagged_step opt_string_eqb_eq. Qed.

Lemma unflagged_kept_priority (o : Reminder) (v : PriorityEnum)
    (t : tracked) :
  unflagged_kept o t →
  unflagged_kept o (setattr "priority" PriorityEnum_eqb priority
                      put_priority v t).
Proof. unflagged_step PriorityEnum_eqb_eq. Qed.

Lemma unflagged_kept_status (o : Reminder) (v : StatusEnum) (t : tracked) :
  unflagged_kept o t →
  unflagged_kept o (setattr "status" StatusEnum_eqb status put_status v t).
Proof. unflagged_step StatusEnum_eqb_eq. Qed.

Lemma unflagged_kept_updated_at (o : Reminder) (v : datetime) (t : tracked) :
  unflagged_kept o t →
  unflagged_kept o (setattr "updated_at" dt_eqb updated_at put_updated_at
                      v t).
Proof. unflagged_step dt_eqb_instant. Qed.

Lemma unflagged_kept_context (o : Reminder)
    (v : option (gmap string json)) (t : tracked) :
  unflagged_kept o t →
  unflagged_kept o (flag_modified "context"
                      (setattr "context" context_eqb context put_context
                         v t)).
Proof.
  intros H. unfold unflagged_kept, flag_modified, setattr in *.
  cbn [obj modified].
  repeat split; intros Hn;
    apply not_elem_of_union in Hn as [_ Hn];
    (destruct (context_eqb _ _);
       [|apply not_elem_of_union in Hn as [_ Hn]]); cbn; by apply H.
Qed.

Lemma unflagged_kept_refl (o : Reminder) :
  unflagged_kept o {| obj := o; modified := ∅ |}.
Proof. by repeat split. Qed.

Lemma apply_updates_unflagged (updates : ReminderUpdate) (o : Reminder)
    (t : tracked) :
  apply_updates updates {| obj := o; modified := ∅ |} = inr t →
  unflagged_kept o t.
Proof.
  unfold apply_updates.
  pose proof (unflagged_kept_refl o) as H0.
  set (t0 := {| obj := o; modified := ∅ |}) in *. clearbody t0.
  assert (H1 : unflagged_kept o
                 match u_title updates with
                 | Some v => setattr "title" String.eqb title put_title v t0
                 | None => t0
                 end).
  { destruct (u_title updates); [by apply unflagged_kept_title|done]. }
  set (t1 := match u_title updates with Some _ => _ | None => _ end) in *.
  clearbody t1. clear H0 t0.
  assert (H2 : unflagged_kept o
                 match u_description updates with
                 | Some v => setattr "description" opt_string_eqb description
                               put_description (Some v) t1
                 | None => t1
                 end).
  { destruct (u_description updates);
      [by apply unflagged_kept_description|done]. }
  set (t2 := match u_description updates with Some _ => _ | None => _ end)
    in *.
  clearbody t2. clear H1 t1.
  assert (H3 : unflagged_kept o
                 match u_due_datetime updates with
                 | Some v => setattr "due_datetime" dt_eqb due_datetime
                               put_due_datetime (ensure_utc_label v) t2
                 | None => t2
                 end).
  { destruct (u_due_datetime updates);
      [by apply unflagged_kept_due_datetime|done]. }
  set (t3 := match u_due_datetime updates with Some _ => _ | None => _ end)
    in *.
  clearbody t3. clear H2 t2.
  assert (H4 : unflagged_kept o
                 match u_destination_mobile updates with
                 | Some v => setattr "destination_mobile" opt_string_eqb
                               destination_mobile put_destination_mobile
                               (Some v) t3
                 | None => t3
                 end).
  { destruct (u_destination_mobile updates);
      [by apply unflagged_kept_destination_mobile|done]. }
  set (t4 := match u_destination_mobile updates with
             | Some _ => _ | None => _ end) in *.
  clearbody t4. clear H3 t3.
  destruct (u_priority updates) as [p|];
    [destruct (PriorityEnum_getitem (upper p)) as [e|pe]; [discriminate|]|];
    cbn [bind_raises];
    (destruct (u_status updates) as [n|];
       [destruct (StatusEnum_getitem (upper n)) as [e'|se];
          [discriminate|]|]);
    cbn [bind_raises]; intros [= <-];
    (destruct (u_context updates); [apply unflagged_kept_context|]);
    repeat first [ assumption
                 | apply unflagged_kept_status
                 | apply unflagged_kept_priority ].
Qed.

Lemma tracked_changes_unflagged (updates : ReminderUpdate) (o : Reminder)
    (clock : Z) (t : tracked) :
  tracked_changes updates o clock = inr t → unflagged_kept o t.
Proof.
  unfold tracked_changes.
  destruct (apply_updates updates {| obj := o; modified := ∅ |})
    as [e|t0] eqn:Happly; [discriminate|].
  cbn [bind_raises]. intros [= <-].
  apply unflagged_kept_updated_at.
  unfold clear_context_if_rescheduled.
  pose proof (apply_updates_unflagged updates o t0 Happly) as H0.
  destruct (u_due_datetime updates); [|done].
  destruct (_ && _); [|done]. by apply unflagged_kept_context.
Qed.

Lemma tracked_changes_description (updates : ReminderUpdate)
    (o : Reminder) (clock : Z) (t : tracked) :
  tracked_changes updates o clock = inr t →
  description (obj t) = match u_description updates with
                        | Some v => Some v
                        | None => description o
                        end.
Proof.
  unfold tracked_changes.
  destruct (apply_updates updates {| obj := o; modified := ∅ |})
    as [e|t0] eqn:Happly; [discriminate|].
  cbn [bind_raises]. intros [= <-].
  assert (H : description (obj t0) = match u_description updates with
                                     | Some v => Some v
                                     | None => description o
                                     end).
  { revert Happly. destruct updates as [ti de du dm pr st cx].
    unfold apply_updates.
    cbn [u_title u_description u_due_datetime u_destination_mobile
         u_priority u_status u_context].
    destruct pr as [p|];
      [destruct (PriorityEnum_getitem (upper p)) as [e|pe];
         [discriminate|]|];
      (destruct st as [n|];
         [destruct (StatusEnum_getitem (upper n)) as [e'|se];
            [discriminate|]|]);
      cbn [bind_raises]; intros [= <-];
      by destruct ti, de, du, dm, cx. }
  unfold clear_context_if_rescheduled.
  destruct (u_due_datetime updates); [|exact H].
  destruct (_ && _); exact H.
Qed.

(** The row the flush writes holds the attributes of the object, column by
    column, when those that are not flagged are as in the row. *)
Lemma write_columns_unflagged (t : tracked) (row : Reminder) :
  unflagged_kept row t →
  title (write_columns t row) = title (obj t) ∧
  description (write_columns t row) = description (obj t) ∧
  instant (due_datetime (write_columns t row)) =
    instant (due_datetime (obj t)) ∧
  destination_mobile (write_columns t row) = destination_mobile (obj t) ∧
  priority (write_columns t row) = priority (obj t) ∧
  status (write_columns t row) = status (obj t) ∧
  instant (updated_at (write_columns t row)) = instant (updated_at (obj t)).
Proof.
  intros (H1 & H2 & H3 & H4 & H5 & H6 & H7).
  unfold write_columns.
  cbn [title description due_datetime destination_mobile priority status
       updated_at].
  repeat split; case_bool_decide; first [done | symmetry; auto].
Qed.

Lemma update_reminder_row (rows : list Reminder)
    (rid owner : string) (updates : ReminderUpdate) (clock : Z)
    (row r' : Reminder) (s' : Session) :
  primary_key rows →
  stored rows rid owner = Some row →
  update_reminder (SessionLocal rows) rid owner updates clock
    = inr (Some r', s') →
  r' ∈ db s' ∧
  stored (db s') rid owner = Some r' ∧
  id r' = rid ∧ user_mobile r' = owner ∧
  recurrence r' = recurrence row ∧ created_at r' = created_at row ∧
  title r' = default (title row) (u_title updates) ∧
  description r' = match u_description updates with
                   | Some v => Some v
                   | None => description row
                   end ∧
  destination_mobile r' = match u_destination_mobile updates with
                          | Some v => Some v
                          | None => destination_mobile row
                          end ∧
  instant (due_datetime r') =
    match u_due_datetime updates with
    | Some d => instant (ensure_utc_label d)
    | None => instant (due_datetime row)
    end ∧
  match u_priority updates with
  | Some name => PriorityEnum_getitem (upper name) = inr (priority r')
  | None => priority r' = priority row
  end ∧
  match u_status updates with
  | Some name => StatusEnum_getitem (upper name) = inr (status r')
  | None => status r' = status row
  end ∧
  instant (updated_at r') = clock.
Proof.
  intros Hpk Hst Hrun.
  rewrite (update_reminder_fresh rows rid owner updates clock row Hst)
    in Hrun.
  destruct (tracked_changes updates row clock) as [e|t] eqn:Ht;
    [discriminate|].
  destruct (tracked_changes_spec updates row clock t Ht)
    as (Hid & _ & Hupd & Hdue & _).
  destruct (tracked_changes_columns updates row clock t Ht)
    as (_ & _ & Htitle & Hdest & Hprio & Hstatus).
  pose proof (find_some_eqb rows rid owner row Hst) as (Hin & Hrid & Hown).
  unfold commit_refresh in Hrun. cbn [db] in Hrun.
  rewrite (select_by_pk_primary_key t rows row Hpk Hin Hid) in Hrun.
  injection Hrun as <- <-. cbn [db].
  destruct (write_columns_unflagged t row
              (tracked_changes_unflagged updates row clock t Ht))
    as (Wt & Wde & Wdu & Wdm & Wp & Ws & Wu).
  assert (Hin' : write_columns t row ∈ flush t rows).
  { unfold flush. apply list_elem_of_In, in_map_iff. exists row.
    split; [|by apply list_elem_of_In].
    by rewrite Hid, String.eqb_refl. }
  split; [exact Hin'|].
  split.
  { unfold stored.
    destruct (List.find _ (flush t rows)) as [x|] eqn:Hf.
    - apply find_some in Hf as [Hx Hb].
      apply andb_true_iff in Hb as [Hb _]. apply String.eqb_eq in Hb.
      f_equal. unfold flush in Hx. apply in_map_iff in Hx as (y & Hy & Hyin).
      apply list_elem_of_In in Hyin.
      assert (id y = id row) as Hyid.
      { destruct (String.eqb (id y) (id (obj t))); subst x;
          change (id (write_columns t y)) with (id y) in *; congruence. }
      assert (y = row) as ->.
      { apply list_elem_of_lookup in Hyin as [i Hi].
        apply list_elem_of_lookup in Hin as [j Hj].
        assert (i = j) as ->; [|congruence].
        eapply (NoDup_lookup (id <$> rows)); [exact Hpk|..].
        - by rewrite list_lookup_fmap, Hi.
        - by rewrite list_lookup_fmap, Hj, Hyid. }
      rewrite Hid, String.eqb_refl in Hy. done.
    - exfalso. apply list_elem_of_In in Hin'.
      apply (find_none _ _ Hf) in Hin'.
      change (id (write_columns t row)) with (id row) in Hin'.
      change (user_mobile (write_columns t row)) with (user_mobile row)
        in Hin'.
      by rewrite Hrid, Hown, !String.eqb_refl in Hin'. }
  split; [exact Hrid|]. split; [exact Hown|].
  split; [done|]. split; [done|].
  rewrite Wt, Wde, Wdm, Wdu, Wp, Ws, Wu, Htitle, Hdest, Hdue, Hupd.
  split; [done|].
  split.
  { exact (tracked_changes_description updates row clock t Ht). }
  split; [done|]. split; [by destruct (u_due_datetime updates)|].
  split; [exact Hprio|]. split; [exact Hstatus|].
  apply instant_now_utc.
Qed.


(** ** The statistics of a user *)

Lemma filter_filter_andb {A : Type} (f g : A → bool) (l : list A) :
  List.filter g (List.filter f l) = List.filter (λ x, f x && g x) l.
Proof.
  induction l as [|x l IH]; [done|].
  cbn [List.filter]. destruct (f x); cbn [andb List.filter];
    [destruct (g x)|]; by rewrite IH.
Qed.

Lemma count_by_status_total (rows : list Reminder) (owner : string) :
  (count_by_status rows owner PENDING + count_by_status rows owner COMPLETED +
   count_by_status rows owner CANCELLED)%nat =
  get_reminders_count rows owner.
Proof.
  unfold count_by_status, get_reminders_count, owned_by, has_status.
  induction rows as [|x rows IH]; [done|].
  cbn [List.filter]. destruct (String.eqb _ _); cbn [andb]; [|exact IH].
  destruct (status x); cbn [StatusEnum_eqb length]; lia.
Qed.

Lemma get_reminders_by_user_count (rows : list Reminder) (owner : string)
    (name : string) (st : StatusEnum) (limit : nat) :
  name ≠ "" → StatusEnum_getitem (upper name) = inr st →
  ∃ l, get_reminders_by_user rows owner (Some name) limit = inr l ∧
       length l = (limit `min` count_by_status rows owner st)%nat.
Proof.
  intros Hname Hget.
  rewrite (get_reminders_by_user_filtered rows owner name limit Hname), Hget.
  eexists. split; [done|].
  rewrite length_take, order_by_due_datetime_desc_perm, filter_filter_andb.
  done.
Qed.

(** X10: [get_user_stats] raises nothing. Its total is the number of reminders
    of the user; each count by status is the number of the user's reminders in
    that status, or 10000 when there are more; the three counts therefore add
    up to the total when the user has at most 10000 reminders, and never to
    more. The count of due reminders has no such cap: it is the number of
    pending reminders whose due instant is not after the clock, and it is at
    most the pending count when that one is not capped. *)
Theorem get_user_stats_counts (rows : list Reminder) (owner : string)
    (clock : Z) :
  ∃ st,
    api_server.get_user_stats rows owner clock = inr st ∧
    api_server.total st = get_reminders_count rows owner ∧
    api_server.pending st =
      (10000 `min` count_by_status rows owner PENDING)%nat ∧
    api_server.completed st =
      (10000 `min` count_by_status rows owner COMPLETED)%nat ∧
    api_server.cancelled st =
      (10000 `min` count_by_status rows owner CANCELLED)%nat ∧
    api_server.due_now st =
      length (List.filter
                (λ r, owned_by owner r && has_status PENDING r &&
                      (instant (due_datetime r) <=? clock)) rows) ∧
    (api_server.pending st + api_server.completed st +
     api_server.cancelled st ≤ api_server.total st)%nat ∧
    ((api_server.total st ≤ 10000)%nat →
     (api_server.pending st + api_server.completed st +
      api_server.cancelled st = api_server.total st)%nat ∧
     (api_server.due_now st ≤ api_server.pending st)%nat).
Proof.
  unfold api_server.get_user_stats.
  destruct (get_reminders_by_user_count rows owner "pending" PENDING 10000)
    as (lp & -> & Hlp); [done..|].
  destruct (get_reminders_by_user_count rows owner "completed" COMPLETED
              10000) as (lc & -> & Hlc); [done..|].
  destruct (get_reminders_by_user_count rows owner "cancelled" CANCELLED
              10000) as (lx & -> & Hlx); [done..|].
  cbn [bind_raises]. eexists. split; [reflexivity|].
  cbn [api_server.total api_server.pending api_server.completed
       api_server.cancelled api_server.due_now].
  pose proof (count_by_status_total rows owner) as Htot.
  pose proof (get_due_reminders_perm rows owner clock) as Hperm.
  rewrite Hlp, Hlc, Hlx, Hperm.
  set (due := length (List.filter
                        (λ r, owned_by owner r && has_status PENDING r &&
                              (instant (due_datetime r) <=? clock)) rows)).
  assert (Hdue : (due ≤ count_by_status rows owner PENDING)%nat).
  { unfold due, count_by_status. clear.
    induction rows as [|x rows IH]; [done|].
    cbn [List.filter].
    destruct (owned_by owner x && has_status PENDING x); cbn [andb];
      [|exact IH].
    destruct (_ <=? _); cbn [length]; lia. }
  clearbody due. clear Hlp Hlc Hlx Hperm.
  generalize dependent 10000%nat. intros cap.
  repeat split; lia.
Qed.

(** ** The worker's selection and the owner's view of what is due *)

(** X11: A reminder the worker selects is one [get_due_reminders] shows its
    owner as due at the same clock reading, and as long as the table is the
    same the worker selects it at every later clock reading too. *)
Theorem selected_is_due_and_stays_selected (rows : list Reminder)
    (clock : Z) (r : Reminder) :
  r ∈ get_due_reminders_for_calls rows clock →
  r ∈ get_due_reminders rows (user_mobile r) clock ∧
  ∀ later, clock ≤ later → r ∈ get_due_reminders_for_calls rows later.
Proof.
  intros (Hin & Hst & Hdue & Hdest & Hi & Hf)%elem_of_selector. split.
  - by apply elem_of_get_due_reminders.
  - intros later Hle. apply elem_of_selector. repeat split; try done. lia.
Qed.

(** ** The status codes of [api_server] *)



(** ** The tools of [mcp_server] *)






Lemma if_truthy_falsy (s : option string) :
  falsy_str s = true → mcp_server.if_truthy s = None.
Proof. unfold mcp_server.if_truthy. by intros ->. Qed.

Lemma if_truthy_Some (s : option string) (v : string) :
  mcp_server.if_truthy s = Some v → s = Some v ∧ v ≠ "".
Proof.
  unfold mcp_server.if_truthy. destruct s as [x|]; cbn [falsy_str]; [|done].
  destruct (String.eqb_spec x ""); [done|]. by intros [= <-].
Qed.

(** X15: The [update_reminder] tool on a stored reminder, when it reports a
    reminder. A title, a priority, a status or a due text that is missing or
    empty leaves the field as it was, and without a due text the context too;
    the context is otherwise what it was or, after a reschedule, empty: the
    tool has no way to write one. A description and a destination are written
    as given, the empty text included, and a reminder given the empty text for
    a destination is one the worker can send no request for. *)
Theorem update_tool_fields (fromisoformat : string → option datetime)
    (rows : list Reminder) (rid owner : string)
    (title' due' descr prio st dest : option string) (clock : Z)
    (row r' : Reminder) (rows' : list Reminder) :
  primary_key rows →
  stored rows rid owner = Some row →
  mcp_server.update_reminder fromisoformat rows rid owner title' due' descr
    prio st dest clock = (mcp_server.Reported r', rows') →
  r' ∈ rows' ∧ id r' = rid ∧ user_mobile r' = owner ∧
  (falsy_str title' = true → title r' = title row) ∧
  (falsy_str prio = true → priority r' = priority row) ∧
  (falsy_str st = true → status r' = status row) ∧
  (falsy_str due' = true →
   due_datetime r' = due_datetime row ∧ context r' = context row) ∧
  (context r' = context row ∨ context r' = Some ∅) ∧
  description r' = match descr with
                   | Some v => Some v
                   | None => description row
                   end ∧
  destination_mobile r' = match dest with
                          | Some v => Some v
                          | None => destination_mobile row
                          end ∧
  (dest = Some "" → call_payload r' = None).
Proof.
  intros Hpk Hst. unfold mcp_server.update_reminder.
  set (due := match mcp_server.if_truthy due' with
              | Some text =>
                  match parse_datetime_to_utc fromisoformat text with
                  | Some due_dt => Some (Some due_dt)
                  | None => None
                  end
              | None => Some None
              end).
  assert (Hdue : falsy_str due' = true → due = Some None).
  { intros Hf. unfold due. by rewrite (if_truthy_falsy _ Hf). }
  destruct due as [due|]; [|discriminate].
  set (updates := {| u_title := mcp_server.if_truthy title';
                     u_description := descr;
                     u_due_datetime := due;
                     u_destination_mobile := dest;
                     u_priority := mcp_server.if_truthy prio;
                     u_status := mcp_server.if_truthy st;
                     u_context := None |}).
  destruct (update_reminder (SessionLocal rows) rid owner updates clock)
    as [e|[[r|] s']] eqn:Hrun; try discriminate.
  intros [= <- <-].
  destruct (update_reminder_row rows rid owner updates clock row r s'
              Hpk Hst Hrun)
    as (Hin & _ & Hid & Hown & _ & _ & Htitle & Hdescr & Hdest & _ & Hprio
        & Hstatus & _).
  rewrite (update_reminder_fresh rows rid owner updates clock row Hst)
    in Hrun.
  destruct (tracked_changes updates row clock) as [e|t] eqn:Ht;
    [discriminate|].
  destruct (tracked_changes_spec updates row clock t Ht)
    as (Hidt & _ & _ & Hdue' & Hctx & _).
  unfold reschedules in Hctx. subst updates.
  cbn [u_title u_description u_destination_mobile u_priority u_status]
    in Htitle, Hdescr, Hdest, Hprio, Hstatus.
  pose proof (find_some_eqb rows rid owner row Hst) as (Hinr & _ & _).
  unfold commit_refresh in Hrun. cbn [db] in Hrun.
  rewrite (select_by_pk_primary_key t rows row Hpk Hinr Hidt) in Hrun.
  injection Hrun as <- _.
  destruct (write_columns_spec t row) as (_ & _ & Wctx & Wdue & _).
  cbn [u_due_datetime u_context] in Hdue', Hctx.
  split; [exact Hin|]. split; [exact Hid|]. split; [exact Hown|].
  split. { intros Hf. by rewrite Htitle, (if_truthy_falsy _ Hf). }
  split. { intros Hf. by rewrite (if_truthy_falsy _ Hf) in Hprio. }
  split. { intros Hf. by rewrite (if_truthy_falsy _ Hf) in Hstatus. }
  split.
  { intros Hf. specialize (Hdue Hf). injection Hdue as ->.
    rewrite Wdue, Wctx, Hdue', Hctx.
    split; [by destruct (bool_decide ("due_datetime" ∈ modified t))|].
    by destruct (bool_decide ("context" ∈ modified t)). }
  split.
  { rewrite Wctx, Hctx.
    destruct (bool_decide ("context" ∈ modified t)); [|by left].
    destruct due as [d|]; [|by left].
    destruct (_ && _); [by right | by left]. }
  split; [exact Hdescr|]. split; [exact Hdest|].
  intros ->. unfold call_payload. by rewrite Hdest.
Qed.


(** ** The sleep between two cycles *)

(** X17: The sleep between two cycles is made of at most [interval] sleeps of
    one second and nothing else. With no shutdown requested it is [interval]
    seconds long. It is cut short only by a request, no sleep of it starts once
    the request is in, and so it ends less than a second after the request. *)
Theorem interruptible_sleep_stops (interval : nat) (requested_at : option Z)
    (w : World) :
  let w' := interruptible_sleep interval requested_at w in
  ∃ n : nat,
    (n ≤ interval)%nat ∧
    session w' = session w ∧
    clock w' = clock w + Z.of_nat n * usec ∧
    trace w' = (trace w ++ replicate n (EvSleep 1))%list ∧
    (requested_at = None → n = interval) ∧
    (∀ t, requested_at = Some t →
          ((n < interval)%nat → t ≤ clock w') ∧
          ((0 < n)%nat → clock w' - usec < t ∧ clock w' < t + usec)).
Proof.
  cbn zeta. revert w. induction interval as [|interval IH]; intros w.
  - exists 0%nat. cbn [interruptible_sleep replicate].
    rewrite app_nil_r. repeat split; try lia.
  - cbn [interruptible_sleep].
    destruct (shutdown_requested requested_at (clock w)) eqn:Hreq.
    + exists 0%nat. cbn [replicate]. rewrite app_nil_r.
      split; [lia|]. split; [done|]. split; [lia|]. split; [done|].
      unfold shutdown_requested in Hreq. split.
      * intros ->. discriminate.
      * intros t ->. apply Z.leb_le in Hreq. split; [done|lia].
    + destruct (IH (sleep 1 w)) as (n & Hn & Hs & Hc & Ht & Hnone & Hsome).
      destruct (sleep_spec 1 w) as (Hs1 & Hc1 & Ht1).
      exists (S n). split; [lia|]. split; [by rewrite Hs|].
      split; [rewrite Hc, Hc1; lia|].
      split.
      { rewrite Ht, Ht1, <- app_assoc. done. }
      split; [intros Hr; by rewrite (Hnone Hr)|].
      intros t Ht'. destruct (Hsome t Ht') as [Hlt Hpos].
      unfold shutdown_requested in Hreq. rewrite Ht' in Hreq.
      apply Z.leb_gt in Hreq.
      split; [intros; apply Hlt; lia|]. intros _.
      destruct n as [|n].
      * rewrite Hc, Hc1. unfold usec. lia.
      * apply Hpos. lia.
Qed.

(** ** What any burst comes to *)

Lemma persist_returns (interference : list Reminder → list Reminder)
    (st : Reminder * dict_ref) (w : World) :
  ∃ res w',
    persist interference st w = inr (res, w') ∧
    clock w' = clock w ∧ trace w' = trace w ∧
    (stored (interference (db (session w))) (id st.1) (user_mobile st.1)
       = None →
     db (session w') = interference (db (session w))) ∧
    (is_Some (stored (interference (db (session w))) (id st.1)
                (user_mobile st.1)) →
     context_persisted (id st.1) (deref st.1 st.2)
       (interference (db (session w))) (db (session w')) ∧
     ∀ k, k ≠ id st.1 → identity (session w') !! k = None).
Proof.
  destruct (stored (interference (db (session w))) (id st.1)
              (user_mobile st.1)) as [row|] eqn:Hst.
  - destruct (persist_found interference st w row Hst)
      as (t & row' & _ & -> & Hsel & Hper).
    eexists _, _. split; [reflexivity|]. cbn [clock trace session db identity].
    split; [done|]. split; [done|]. split; [discriminate|].
    intros _. split; [exact Hper|]. intros k Hk.
    apply find_some in Hsel as [_ Hid]. apply String.eqb_eq in Hid.
    apply lookup_singleton_ne. congruence.
  - rewrite (persist_missing interference st w Hst).
    eexists _, _. split; [reflexivity|]. cbn [clock trace session db].
    split; [done|]. split; [done|]. split; [done|]. by intros [? ?].
Qed.


Lemma posts_of_app (a b : list event) :
  posts_of (a ++ b) = (posts_of a ++ posts_of b)%list.
Proof. unfold posts_of. by rewrite flat_map_app. Qed.

Lemma slept_app (a b : list event) : slept (a ++ b) = slept a + slept b.
Proof.
  unfold slept. induction a as [|e a IH]; cbn [app foldr]; [lia|].
  destruct e; lia.
Qed.



Lemma attempt_fails_uncallable (r : Reminder) (reply : http_reply) :
  call_payload r = None → attempt_fails r reply.
Proof. unfold attempt_fails, call_result. by intros ->. Qed.

(** X19: A reminder whose destination does not come out of the normalisation as
    ten digits costs a full burst all the same: whatever the call API would
    answer, the worker goes through the three attempts and the sleeps of two
    and four seconds without sending a request, six seconds in all, raises
    nothing and, if the reminder is still stored, writes [call_failed] into its
    row. *)
Theorem uncallable_destination_fails_after_six_seconds
    (net : Z → http_reply) (interference : list Reminder → list Reminder)
    (r : Reminder) (w : World) :
  call_payload r = None →
  ∃ w',
    process_reminder net interference r w = (None, w') ∧
    trace w' = (trace w ++ [EvAttempt 1; EvSleep 2; EvAttempt 2; EvSleep 4;
                            EvAttempt 3])%list ∧
    posts_of (trace w') = posts_of (trace w) ∧
    clock w' = clock w + 6 * usec ∧
    (stored (interference (db (session w))) (id r) (user_mobile r) = None →
     db (session w') = interference (db (session w))) ∧
    (is_Some (stored (interference (db (session w))) (id r)
                (user_mobile r)) →
     let c' := failed_context (context_dict r) (now_utc (clock w')) in
     context_persisted (id r) c' (interference (db (session w)))
       (db (session w')) ∧
     c' !! "call_failed" = Some (JBool true)).
Proof.
  intros Hcp.
  rewrite (burst_exhausted net interference r w
             (λ k _, attempt_fails_uncallable r (net k) Hcp)).
  destruct (world_at_spec r net 3 w ltac:(lia)) as (Hs & Hc & Ht & _).
  set (w3 := world_at r net 3 w) in *.
  destruct (record_failure_spec (now_utc (clock w3)) (r, bind_context r))
    as [Hderef Hcols].
  cbn [fst snd] in Hderef, Hcols. rewrite deref_bind_context in Hderef.
  apply put_context_None_columns in Hcols as (Hid & Hown & _ & _).
  destruct (persist_returns interference
              (record_failure 3 (now_utc (clock w3)) (r, bind_context r)) w3)
    as (res & w' & -> & Hc' & Ht' & Hnone & Hsome).
  rewrite Hid, Hown, Hs, Hderef in *.
  assert (Hev : burst_events r 3 =
                [EvAttempt 1; EvSleep 2; EvAttempt 2; EvSleep 4;
                 EvAttempt 3]).
  { unfold burst_events, post_events. rewrite Hcp. done. }
  assert (Htime : burst_time r net 3 = 6 * usec).
  { unfold burst_time, post_time. rewrite Hcp. done. }
  exists w'. split; [done|].
  split; [by rewrite Ht', Ht, Hev|].
  split; [by rewrite Ht', Ht, Hev, posts_of_app, app_nil_r|].
  split; [by rewrite Hc', Hc, Htime|].
  split; [exact Hnone|]. intros Hst. cbn zeta.
  destruct (Hsome Hst) as [Hper _]. rewrite Hc'. split; [exact Hper|].
  by destruct (failed_context_lookup (context_dict r) (now_utc (clock w3)))
    as (-> & _).
Qed.

(** ** The poll cycle *)


Lemma stored_elem (rows : list Reminder) (r : Reminder) :
  primary_key rows → r ∈ rows → stored rows (id r) (user_mobile r) = Some r.
Proof.
  unfold primary_key, stored. intros Hpk Hin.
  induction rows as [|x rows IH]; [by apply elem_of_nil in Hin|].
  cbn [fmap list_fmap] in Hpk. apply NoDup_cons in Hpk as [Hx Hpk].
  cbn [List.find]. apply elem_of_cons in Hin as [<-|Hin].
  - by rewrite !String.eqb_refl.
  - destruct (String.eqb_spec (id x) (id r)) as [Heq|Hne]; [|by apply IH].
    exfalso. apply Hx. rewrite Heq. apply list_elem_of_fmap. by exists r.
Qed.










(** ** The later bursts of a cycle *)

(** X21: The turn of a reminder whose object an earlier commit of the cycle has
    expired. When its row is gone, the cycle ends there with the ORM's error
    and the reminders after it get no burst in this cycle. When its row is
    there, the burst runs on the row as it is now, so to the destination it has
    now, and it runs whatever the row has become: the status, the due datetime
    and the flags are not looked at again. *)
Theorem expired_reminder_is_reloaded_unchecked (env : nat → burst_env)
    (k : nat) (r : Reminder) (rest : list Reminder) (w : World) :
  identity (session w) !! id r = None →
  match select_by_pk (db (session w)) (id r) with
  | None =>
      reminders_loop env k (r :: rest) w = (Some ObjectDeletedError, w)
  | Some row =>
      ∃ n w',
        1 ≤ n ≤ 3 ∧
        reminders_loop env k (r :: rest) w =
          reminders_loop env (S k) rest w' ∧
        trace w' = (trace w ++ burst_events row n)%list ∧
        attempts_of (burst_events row n) = seqZ 1 n ∧
        ∀ p, p ∈ posts_of (burst_events row n) →
             call_payload row = Some p
  end.
Proof.
  intros Hid. cbn [reminders_loop]. unfold load_attributes. rewrite Hid.
  destruct (select_by_pk (db (session w)) (id r)) as [row|]; [|done].
  set (w1 := {| session := _; clock := clock w; trace := trace w |}).
  destruct (burst_ends_in_persist (net_of (env k)) (interference_of (env k))
              row w1) as (n & st & Hn & _ & _ & ->).
  destruct (world_at_spec row (net_of (env k)) n w1 Hn) as (_ & _ & Ht & Ha).
  destruct (persist_returns (interference_of (env k)) st
              (world_at row (net_of (env k)) n w1))
    as (res & w' & -> & _ & Ht' & _).
  exists n, w'. split; [exact Hn|]. split; [done|].
  split; [by rewrite Ht', Ht|].
  split.
  { rewrite Ht, attempts_of_app in Ha. by apply app_inv_head in Ha. }
  intros p. unfold burst_events, post_events.
  destruct (call_payload row) as [p'|];
    destruct (one_two_three n Hn) as [->| [->| ->]];
    vm_compute seqZ; cbn [flat_map Z.eqb Pos.eqb app posts_of];
    rewrite ?elem_of_cons, ?elem_of_nil; intuition congruence.
Qed.

(** ** The number of reminders of a user *)

(** X22: Given the name of a priority in any case, [create_reminder] returns,
    and it adds one reminder to those of its owner and none to those of anyone
    else, however many the owner has: the configured maximum per user is not
    looked at. *)
Theorem create_is_not_capped (rows : list Reminder) (data : ReminderCreate)
    (rid : string) (clock : Z) (p : PriorityEnum) :
  PriorityEnum_getitem (upper (c_priority data)) = inr p →
  ∃ r s',
    create_reminder (SessionLocal rows) data rid clock = inr (r, s') ∧
    priority r = p ∧
    get_reminders_count (db s') (c_user_mobile data) =
      S (get_reminders_count rows (c_user_mobile data)) ∧
    (∀ other, other ≠ c_user_mobile data →
       get_reminders_count (db s') other = get_reminders_count rows other) ∧
    ((MAX_REMINDERS_PER_USER ≤ get_reminders_count rows (c_user_mobile data))
     → (MAX_REMINDERS_PER_USER <
        get_reminders_count (db s') (c_user_mobile data)))%nat.
Proof.
  intros Hp. unfold create_reminder. rewrite Hp. cbn [bind_raises].
  eexists _, _. split; [reflexivity|]. cbn [db SessionLocal priority].
  split; [done|].
  assert (Hcount : ∀ owner,
    get_reminders_count
      (rows ++ [{| id := rid; user_mobile := c_user_mobile data;
                   destination_mobile :=
                     if falsy_str (c_destination_mobile data)
                     then Some (c_user_mobile data)
                     else c_destination_mobile data;
                   title := c_title data;
                   description := c_description data;
                   due_datetime := ensure_utc_label (c_due_datetime data);
                   priority := p; status := PENDING;
                   context := c_context data;
                   recurrence := c_recurrence data;
                   created_at := now_utc clock;
                   updated_at := now_utc clock |}]) owner =
    (get_reminders_count rows owner +
     if String.eqb (c_user_mobile data) owner then 1 else 0)%nat).
  { intros owner. unfold get_reminders_count.
    rewrite List.filter_app, length_app. f_equal.
    cbn [List.filter user_mobile]. by destruct (String.eqb _ _). }
  split; [rewrite Hcount, String.eqb_refl; lia|].
  split.
  - intros other Hne. rewrite Hcount.
    destruct (String.eqb_spec (c_user_mobile data) other); [congruence|lia].
  - rewrite Hcount, String.eqb_refl. lia.
Qed.

(** ** The reminders of other users *)

Lemma stored_other_owner (rows : list Reminder) (r : Reminder)
    (owner : string) :
  primary_key rows → r ∈ rows → owner ≠ user_mobile r →
  stored rows (id r) owner = None.
Proof.
  intros Hpk Hin Hne.
  destruct (stored rows (id r) owner) as [row|] eqn:Hst; [|done].
  exfalso.
  pose proof (find_some_eqb rows (id r) owner row Hst) as (Hrow & Hid & Hown).
  apply list_elem_of_lookup in Hrow as [i Hi].
  apply list_elem_of_lookup in Hin as [j Hj].
  assert (i = j) as ->.
  { eapply (NoDup_lookup (id <$> rows)); [exact Hpk|..].
    - by rewrite list_lookup_fmap, Hi.
    - by rewrite list_lookup_fmap, Hj, Hid. }
  congruence.
Qed.

(** X23: The reminder of one user is out of reach of every other: under its id
    and another user's number [get_reminder] returns nothing, [update_reminder]
    returns [None] whatever the update carries, and [delete_reminder] returns
    [False]; the table is then as it was. *)
Theorem other_users_reminder_is_out_of_reach (rows : list Reminder)
    (r : Reminder) (other : string) (updates : ReminderUpdate) (clock : Z) :
  primary_key rows → r ∈ rows → other ≠ user_mobile r →
  (get_reminder (SessionLocal rows) (id r) other).1 = None ∧
  update_reminder (SessionLocal rows) (id r) other updates clock =
    inr (None, SessionLocal rows) ∧
  delete_reminder (SessionLocal rows) (id r) other =
    (false, SessionLocal rows) ∧
  (get_reminder (SessionLocal rows) (id r) (user_mobile r)).1 = Some r.
Proof.
  intros Hpk Hin Hne.
  pose proof (stored_other_owner rows r other Hpk Hin Hne) as Hst.
  rewrite !get_reminder_fresh_session, Hst.
  rewrite (update_reminder_missing rows (id r) other updates clock Hst).
  rewrite delete_reminder_fresh, Hst.
  by rewrite (stored_elem rows r Hpk Hin).
Qed.

(** ** The spellings of a national number *)

Lemma all_digits_head (c : ascii) (s : string) :
  all_digits (String c s) = true → is_digit_char c = true.
Proof. cbn [all_digits]. by intros [? _]%andb_true_iff. Qed.

Lemma digit_is_not_plus (c : ascii) :
  is_digit_char c = true → Ascii.eqb c "+" = false.
Proof.
  unfold is_digit_char. intros [H1 H2]%andb_true_iff.
  apply Nat.leb_le in H1.
  destruct (Ascii.eqb_spec c "+") as [->|]; [|done].
  vm_compute in H1. lia.
Qed.

Lemma prefix_plus_digits (p n : string) :
  isdigit n = true → String.prefix (String "+" p) n = false.
Proof.
  destruct n as [|c n]; [done|]. cbn [isdigit]. intros Hd.
  apply all_digits_head, digit_is_not_plus in Hd.
  cbn [String.prefix].
  destruct (ascii_dec "+" c) as [<-|_]; [discriminate|done].
Qed.

Lemma call_payload_number (r : Reminder) (d n : string) :
  destination_mobile r = Some d → strip_country_code d = n →
  String.length n = 10%nat → isdigit n = true →
  number_called r = Some n.
Proof.
  intros Hd Hstrip Hlen Hdig. unfold number_called.
  rewrite (call_payload_Some r d Hd); rewrite Hstrip; done.
Qed.

(** X24: A national number of ten digits reaches the call API as it is when the
    destination is the number itself, the number after [+91], or the number
    after [91]. After a bare [+] it does too, unless the number itself begins
    with [91]: then the [+91] rule takes three characters off, eight digits are
    left, and no request is made. *)
Theorem national_number_spellings (r : Reminder) (d n : string) :
  String.length n = 10%nat → isdigit n = true →
  destination_mobile r = Some d →
  (d = n ∨ d = "+91" +:+ n ∨ d = "91" +:+ n → number_called r = Some n) ∧
  (d = "+" +:+ n →
   number_called r = if String.prefix "91" n then None else Some n).
Proof.
  intros Hlen Hdig Hd. split.
  - intros [->| [->| ->]];
      apply (call_payload_number r _ n Hd); try done.
    + unfold strip_country_code.
      rewrite (prefix_plus_digits "91" n Hdig),
        (prefix_plus_digits "" n Hdig), Hlen.
      by rewrite andb_false_r.
    + unfold strip_country_code.
      change (String.prefix "+91" ("+91" +:+ n)) with (String.prefix "" n).
      by destruct n.
    + unfold strip_country_code.
      change (String.prefix "+91" ("91" +:+ n)) with false.
      change (String.prefix "91" ("91" +:+ n)) with (String.prefix "" n).
      change (String.length ("91" +:+ n)) with (S (S (String.length n))).
      rewrite Hlen. by destruct n.
  - intros ->. unfold number_called, call_payload. rewrite Hd.
    unfold strip_country_code.
    change (String.prefix "+91" ("+" +:+ n)) with (String.prefix "91" n).
    destruct (String.prefix "91" n) eqn:Hp.
    + change (slice_from 3 ("+" +:+ n)) with (slice_from 2 n).
      destruct n as [|a [|b n]]; try discriminate.
      cbn [slice_from]. cbn [String.length] in Hlen.
      assert (String.length n = 8%nat) as -> by lia. done.
    + change (String.prefix "91" ("+" +:+ n)) with false.
      change (String.prefix "+" ("+" +:+ n)) with (String.prefix "" n).
      replace (String.prefix "" n) with true by (by destruct n).
      cbn [andb]. change (slice_from 1 ("+" +:+ n)) with n.
      by rewrite Hlen, Hdig.
Qed.

(** ** Closed instances of the properties of the service *)

(** A dentist appointment created under a fresh id next to the 09:25
    reminder is found under that id by its owner and by nobody else. *)
Lemma create_then_get_witness :
  ∃ r s',
    create_reminder (SessionLocal [due_0925]) dentist_1030 "r2" t_0930
      = inr (r, s') ∧
    (get_reminder (SessionLocal (db s')) "r2" "+919876543210").1 = Some r ∧
    (get_reminder (SessionLocal (db s')) "r2" "+911234567890").1 = None.
Proof.
  destruct (create_reminder (SessionLocal [due_0925]) dentist_1030 "r2"
              t_0930) as [e|[r s']] eqn:Hrun;
    [vm_compute in Hrun; discriminate|].
  exists r, s'. split; [reflexivity|].
  destruct (create_then_get [due_0925] dentist_1030 "r2" t_0930 r s')
    as [Hget Hother].
  - intros [=]%list_elem_of_singleton.
  - exact Hrun.
  - split; [exact Hget|]. apply Hother. discriminate.
Defined.

(** The 09:25 reminder, deleted by its owner, is found by nobody
    afterwards. *)
Lemma delete_then_get_witness :
  (get_reminder
     (SessionLocal
        (db (delete_reminder (SessionLocal [due_0925]) "r1"
               "+919876543210").2)) "r1" "+919876543210").1 = None.
Proof.
  pose proof (delete_then_get [due_0925] "r1" "+919876543210") as H.
  destruct (delete_reminder (SessionLocal [due_0925]) "r1" "+919876543210")
    as [success s'] eqn:Hdel.
  destruct success; [|vm_compute in Hdel; discriminate].
  destruct H as [_ H]. destruct (H eq_refl) as (_ & _ & Hget & _).
  exact (Hget "+919876543210").
Defined.

(** Completing the 09:25 reminder leaves the 09:15 one as it is. *)
Lemma update_touches_one_row_witness :
  ∃ res,
    update_reminder (SessionLocal [due_0925; done_0915]) "r1"
      "+919876543210" (retitle "completed") t_0930 = inr res ∧
    is_Some res.1 ∧ db res.2 !! 1%nat = Some done_0915.
Proof.
  destruct (update_reminder (SessionLocal [due_0925; done_0915]) "r1"
              "+919876543210" (retitle "completed") t_0930)
    as [e|res] eqn:Hrun; [vm_compute in Hrun; discriminate|].
  exists res. split; [reflexivity|].
  destruct (update_touches_one_row [due_0925; done_0915] "r1"
              "+919876543210" (retitle "completed") t_0930 res Hrun)
    as [_ Hfound].
  destruct Hfound as [Hsome Hrows]; [by eexists|].
  split; [exact Hsome|].
  destruct (Forall2_lookup_l _ _ _ 1%nat done_0915 Hrows eq_refl)
    as (x' & Hx' & Hrel).
  rewrite decide_False in Hrel by discriminate. by subst x'.
Defined.

(** The status [Completed] is taken for [COMPLETED]; the status [done] is
    no member and raises. *)
Lemma update_status_by_name_witness :
  (∃ r' s',
     update_reminder (SessionLocal [due_0925]) "r1" "+919876543210"
       (retitle "Completed") t_0930 = inr (Some r', s') ∧
     status r' = COMPLETED) ∧
  update_reminder (SessionLocal [due_0925]) "r1" "+919876543210"
    (retitle "done") t_0930 = inl (KeyError "DONE").
Proof.
  split.
  - destruct (update_status_by_name [due_0925] "r1" "+919876543210"
                (retitle "Completed") t_0930 "Completed" eq_refl)
      as [_ Hfound]; [discriminate|].
    destruct Hfound as (r' & s' & Hrun & Hstatus); [by eexists|].
    exists r', s'. split; [exact Hrun|]. apply Hstatus, NoDup_singleton.
  - destruct (update_status_by_name [due_0925] "r1" "+919876543210"
                (retitle "done") t_0930 "done" eq_refl)
      as [_ Hfound]; [discriminate|].
    apply Hfound. by eexists.
Defined.

(** The table of the 09:25 reminder keeps its key through a delete. *)
Lemma crud_keeps_primary_key_witness :
  primary_key
    (db (delete_reminder (SessionLocal [due_0925; done_0915]) "r1"
           "+919876543210").2).
Proof.
  destruct (crud_keeps_primary_key [due_0925; done_0915]) as (_ & _ & H).
  - apply NoDup_cons. split; [|apply NoDup_singleton].
    intros [=]%list_elem_of_singleton.
  - exact (H "r1" "+919876543210").
Defined.

(** The dentist appointment, created with no destination, is stored with
    its owner's number for one. *)
Lemma crud_keeps_destinations_witness :
  ∃ r s',
    create_reminder (SessionLocal [due_0925]) dentist_1030 "r2" t_0930
      = inr (r, s') ∧
    Forall has_destination (db s') ∧
    destination_mobile r = Some "+919876543210".
Proof.
  destruct (create_reminder (SessionLocal [due_0925]) dentist_1030 "r2"
              t_0930) as [e|[r s']] eqn:Hrun;
    [vm_compute in Hrun; discriminate|].
  exists r, s'. split; [reflexivity|].
  destruct (crud_keeps_destinations [due_0925]) as (Hcreate & _ & _).
  - apply Forall_singleton. by eexists.
  - destruct (Hcreate dentist_1030 "r2" t_0930 r s' Hrun) as [Hall Hdest].
    split; [exact Hall|]. by apply Hdest.
Defined.

(** At 09:30 the owner's due reminders are the 09:25 one and not the
    completed one. *)
Lemma get_due_reminders_ordered_witness :
  due_0925 ∈ get_due_reminders [due_0925; done_0915] "+919876543210" t_0930 ∧
  done_0915 ∉ get_due_reminders [due_0925; done_0915] "+919876543210" t_0930.
Proof.
  destruct (get_due_reminders_ordered [due_0925; done_0915] "+919876543210"
              t_0930) as (Hmem & _ & _).
  split.
  - apply Hmem. repeat split; try reflexivity.
    + apply list_elem_of_here.
    + vm_compute. discriminate.
  - intros (_ & _ & Hst & _)%Hmem. discriminate.
Defined.

(** Listing with the status [Pending] lists the pending reminder only;
    listing with the status [done] raises. *)
Lemma get_reminders_by_user_lists_witness :
  (∃ l, get_reminders_by_user [due_0925; done_0915] "+919876543210"
          (Some "Pending") 50 = inr l ∧ length l = 1%nat) ∧
  get_reminders_by_user [due_0925; done_0915] "+919876543210"
    (Some "done") 50 = inl (KeyError "DONE").
Proof.
  split.
  - destruct (get_reminders_by_user_lists [due_0925; done_0915]
                "+919876543210" (Some "Pending") 50) as [_ H].
    destruct (H "Pending" eq_refl ltac:(discriminate))
      as (l & Hrun & Hlen & _).
    exists l. split; [exact Hrun|]. rewrite Hlen. reflexivity.
  - destruct (get_reminders_by_user_lists [due_0925; done_0915]
                "+919876543210" (Some "done") 50) as [_ H].
    exact (H "done" eq_refl ltac:(discriminate)).
Defined.


(** The statistics of the owner of the two sample rows. *)
Lemma get_user_stats_counts_witness :
  ∃ st,
    api_server.get_user_stats [due_0925; done_0915] "+919876543210" t_0930
      = inr st ∧
    api_server.total st = 2%nat ∧ api_server.pending st = 1%nat ∧
    api_server.completed st = 1%nat ∧ api_server.cancelled st = 0%nat ∧
    api_server.due_now st = 1%nat.
Proof.
  destruct (get_user_stats_counts [due_0925; done_0915] "+919876543210"
              t_0930) as (st & Hrun & Ht & Hp & Hc & Hx & Hd & _).
  exists st. split; [exact Hrun|].
  rewrite Ht, Hp, Hc, Hx, Hd. vm_compute. by repeat split.
Defined.

(** The 09:25 reminder, selected at 09:30, is due for its owner then and is
    selected at 09:35 too. *)
Lemma selected_is_due_and_stays_selected_witness :
  due_0925 ∈ get_due_reminders [due_0925] "+919876543210" t_0930 ∧
  due_0925 ∈ get_due_reminders_for_calls [due_0925] (t_0930 + 300 * usec).
Proof.
  destruct (selected_is_due_and_stays_selected [due_0925] t_0930 due_0925)
    as [Hdue Hlater].
  - apply elem_of_selector. repeat split; try reflexivity.
    + apply list_elem_of_here.
    + vm_compute. discriminate.
    + discriminate.
  - split; [exact Hdue|]. apply Hlater. vm_compute. discriminate.
Defined.




(** The update tool, given empty texts and the empty destination, keeps the
    title and the status of the 09:25 reminder and leaves it without a
    number the worker can call. *)
Lemma update_tool_fields_witness :
  ∃ r' rows',
    mcp_server.update_reminder reads_1500 [due_0925] "r1" "+919876543210"
      (Some "") None None (Some "") None (Some "") t_0930
      = (mcp_server.Reported r', rows') ∧
    title r' = "Doctor Appointment" ∧ status r' = PENDING ∧
    destination_mobile r' = Some "" ∧ call_payload r' = None.
Proof.
  destruct (mcp_server.update_reminder reads_1500 [due_0925] "r1"
              "+919876543210" (Some "") None None (Some "") None (Some "")
              t_0930) as [[r'| |] rows'] eqn:Hrun;
    [|vm_compute in Hrun; discriminate..].
  exists r', rows'. split; [reflexivity|].
  destruct (update_tool_fields reads_1500 [due_0925] "r1" "+919876543210"
              (Some "") None None (Some "") None (Some "") t_0930 due_0925
              r' rows')
    as (_ & _ & _ & Htitle & _ & Hstatus & _ & _ & _ & Hdest & Hcall).
  - apply NoDup_singleton.
  - reflexivity.
  - exact Hrun.
  - split; [by apply Htitle|]. split; [by apply Hstatus|].
    split; [exact Hdest|]. by apply Hcall.
Defined.


(** A sleep of 60 seconds with the shutdown requested two and a half
    seconds in: three sleeps of a second, and done half a second after the
    request. *)
Lemma interruptible_sleep_stops_witness :
  let w := worker_at_0930 [] in
  let w' := interruptible_sleep 60 (Some (t_0930 + 2500000)) w in
  trace w' = [EvSleep 1; EvSleep 1; EvSleep 1] ∧
  clock w' < t_0930 + 2500000 + usec.
Proof.
  intros w w'.
  destruct (interruptible_sleep_stops 60 (Some (t_0930 + 2500000)) w)
    as (n & _ & _ & _ & _ & _ & Hreq).
  split; [vm_compute; reflexivity|].
  destruct (Hreq _ eq_refl) as [_ Hpos].
  destruct n as [|n].
  - vm_compute. reflexivity.
  - apply Hpos. lia.
Defined.


(** The reminder for a number abroad: no request, six seconds, and
    [call_failed] in its row. *)
Lemma uncallable_destination_fails_after_six_seconds_witness :
  ∃ w',
    process_reminder (accepts_at 1) untouched abroad_0925
      (worker_at_0930 [abroad_0925]) = (None, w') ∧
    posts_of (trace w') = [] ∧
    clock w' = t_0930 + 6 * usec.
Proof.
  destruct (uncallable_destination_fails_after_six_seconds (accepts_at 1)
              untouched abroad_0925 (worker_at_0930 [abroad_0925]))
    as (w' & Hrun & _ & Hposts & Hclock & _).
  - vm_compute. reflexivity.
  - exists w'. split; [exact Hrun|]. split; [exact Hposts|exact Hclock].
Defined.


(** The turn of the 09:15 reminder after a commit: completed in the
    meantime, it gets its burst all the same. *)
Lemma expired_reminder_is_reloaded_unchecked_witness :
  ∃ n w',
    1 ≤ n ≤ 3 ∧
    reminders_loop quiet_500 1 [done_0915]
      {| session := SessionLocal [due_0925; done_0915]; clock := t_0930;
         trace := [] |} = (None, w') ∧
    trace w' = burst_events done_0915 n.
Proof.
  pose proof (expired_reminder_is_reloaded_unchecked quiet_500 1 done_0915 []
                {| session := SessionLocal [due_0925; done_0915];
                   clock := t_0930; trace := [] |} eq_refl) as H.
  change (select_by_pk _ _) with (Some done_0915) in H.
  destruct H as (n & w' & Hn & Hrun & Ht & _).
  exists n, w'. split; [exact Hn|]. split; [exact Hrun|]. exact Ht.
Defined.

(** A user with one reminder gets a second one. *)
Lemma create_is_not_capped_witness :
  ∃ r s',
    create_reminder (SessionLocal [due_0925]) dentist_1030 "r2" t_0930
      = inr (r, s') ∧
    get_reminders_count (db s') "+919876543210" = 2%nat.
Proof.
  destruct (create_is_not_capped [due_0925] dentist_1030 "r2" t_0930 HIGH
              eq_refl) as (r & s' & Hrun & _ & Hcount & _).
  exists r, s'. split; [exact Hrun|]. exact Hcount.
Defined.

(** Another user can neither update nor delete the 09:25 reminder. *)
Lemma other_users_reminder_is_out_of_reach_witness :
  update_reminder (SessionLocal [due_0925]) "r1" "+911234567890"
    (retitle "cancelled") t_0930 = inr (None, SessionLocal [due_0925]) ∧
  delete_reminder (SessionLocal [due_0925]) "r1" "+911234567890"
    = (false, SessionLocal [due_0925]).
Proof.
  destruct (other_users_reminder_is_out_of_reach [due_0925] due_0925
              "+911234567890" (retitle "cancelled") t_0930)
    as (_ & Hupdate & Hdelete & _).
  - apply NoDup_singleton.
  - apply list_elem_of_here.
  - discriminate.
  - by split.
Defined.

(** The number 9876543210 after [+91] is called as it is; the number
    9198765432 after a bare [+] is not called. *)
Lemma national_number_spellings_witness :
  number_called due_0925 = Some "9876543210" ∧
  number_called (sample "r4" (Some "+9198765432")
                   (now_utc (t_0930 - 300 * usec)) PENDING (Some ∅)) = None.
Proof.
  split.
  - destruct (national_number_spellings due_0925 "+919876543210"
                "9876543210" eq_refl eq_refl eq_refl) as [H _].
    apply H. right. by left.
  - destruct (national_number_spellings
                (sample "r4" (Some "+9198765432")
                   (now_utc (t_0930 - 300 * usec)) PENDING (Some ∅))
                "+9198765432" "9198765432" eq_refl eq_refl eq_refl)
      as [_ H].
    exact (H eq_refl).
Defined.
